(** * AFI fixed-width files: the validators, the line parsers and the parse pass

    A shallow embedding of [validaciones.py], [afi_archivo.py] and the
    file loop of [main.py].

    Text.  A Python [str] is modelled as a [string] whose characters are the
    code points U+0000..U+00FF (one [ascii] per code point); [len] is
    [String.length] and [s[a:b]] is [slice a b s].  The character classes of
    [str.isdigit], [str.isalpha], [str.strip] and [repr] are the Unicode ones
    restricted to that range.

    Exceptions.  A call that may raise returns a [res]: [Ret v] for a
    returned value, [Raise e] for a raised exception.  The exceptions of the
    built-ins ([IndexError], [AttributeError], [KeyError]) are part of the
    model, so that "this call never crashes" is a theorem and not an
    assumption.

    Reference tables.  The module [diccionarios] and the checksum predicate
    [stdnum.es.cif.is_valid] are not part of the sources embedded here: they
    are parameters of the development. *)

From Stdlib Require Import String Ascii List Arith Lia Bool DecimalString.
Import ListNotations.
Open Scope list_scope.
Open Scope string_scope.

(* ================================================================== *)
(** ** Python built-ins used by the sources *)

(** [str(n)] and [f"{n}"] for a non-negative [int]. *)
Definition str_int (n : nat) : string :=
  NilZero.string_of_uint (Nat.to_uint n).

(** [chr(n)] for [n < 256]. *)
Definition chr (n : nat) : string := String (ascii_of_nat n) "".

(** [s[a:b]] for [0 <= a], [0 <= b]: out-of-range bounds are clamped. *)
Definition slice (a b : nat) (s : string) : string := substring a (b - a) s.

(** [s[0]]. *)
Definition primer_caracter (s : string) : option ascii :=
  match s with
  | EmptyString => None
  | String c _ => Some c
  end.

Definition entre (lo hi n : nat) : bool := Nat.leb lo n && Nat.leb n hi.

(** [c.isspace()]. *)
Definition isspace_c (c : ascii) : bool :=
  let n := nat_of_ascii c in
  entre 9 13 n || entre 28 32 n || Nat.eqb n 133 || Nat.eqb n 160.

(** [c.isdigit()]: the ASCII digits and the superscripts U+00B2, U+00B3,
    U+00B9. *)
Definition isdigit_c (c : ascii) : bool :=
  let n := nat_of_ascii c in
  entre 48 57 n || Nat.eqb n 178 || Nat.eqb n 179 || Nat.eqb n 185.

(** [c.isalpha()]. *)
Definition isalpha_c (c : ascii) : bool :=
  let n := nat_of_ascii c in
  entre 65 90 n || entre 97 122 n
  || Nat.eqb n 170 || Nat.eqb n 181 || Nat.eqb n 186
  || entre 192 214 n || entre 216 246 n || entre 248 255 n.

(** [c.isprintable()]. *)
Definition isprintable_c (c : ascii) : bool :=
  let n := nat_of_ascii c in
  entre 32 126 n || (entre 161 255 n && negb (Nat.eqb n 173)).

Fixpoint todos (p : ascii -> bool) (s : string) : bool :=
  match s with
  | EmptyString => true
  | String c r => p c && todos p r
  end.

Definition no_vacia (s : string) : bool :=
  match s with
  | EmptyString => false
  | String _ _ => true
  end.

(** [s.isdigit()] and [s.isalpha()]: false on the empty string. *)
Definition isdigit (s : string) : bool := no_vacia s && todos isdigit_c s.
Definition isalpha (s : string) : bool := no_vacia s && todos isalpha_c s.

(** [s.lstrip()], [s.rstrip()], [s.strip()]. *)
Fixpoint lstrip (s : string) : string :=
  match s with
  | EmptyString => EmptyString
  | String c r => if isspace_c c then lstrip r else s
  end.

Fixpoint rstrip (s : string) : string :=
  match s with
  | EmptyString => EmptyString
  | String c r =>
      let r' := rstrip r in
      if isspace_c c && negb (no_vacia r') then EmptyString else String c r'
  end.

Definition strip (s : string) : string := rstrip (lstrip s).

(** [s.lstrip("0")]. *)
Fixpoint lstrip_ceros (s : string) : string :=
  match s with
  | EmptyString => EmptyString
  | String c r => if Ascii.eqb c "0" then lstrip_ceros r else s
  end.

(** [x in l] for a list of strings. *)
Definition en_lista (x : string) (l : list string) : bool :=
  existsb (String.eqb x) l.

(** *** [repr] of a string and of a list of strings *)

Definition hex_digito (n : nat) : string :=
  substring n 1 "0123456789abcdef".

Fixpoint contiene (c : ascii) (s : string) : bool :=
  match s with
  | EmptyString => false
  | String d r => Ascii.eqb c d || contiene c r
  end.

Definition comilla_simple : ascii := ascii_of_nat 39.
Definition comilla_doble : ascii := ascii_of_nat 34.
Definition barra_inversa : ascii := ascii_of_nat 92.

(** The quote [repr] chooses: double quotes only when the string has a
    single quote and no double quote. *)
Definition comilla_repr (s : string) : ascii :=
  if contiene comilla_simple s && negb (contiene comilla_doble s)
  then comilla_doble else comilla_simple.

Definition repr_c (q c : ascii) : string :=
  let n := nat_of_ascii c in
  if Ascii.eqb c q || Ascii.eqb c barra_inversa
  then String barra_inversa (String c "")
  else if Nat.eqb n 9 then String barra_inversa "t"
  else if Nat.eqb n 10 then String barra_inversa "n"
  else if Nat.eqb n 13 then String barra_inversa "r"
  else if isprintable_c c then String c ""
  else String barra_inversa ("x" ++ hex_digito (n / 16) ++ hex_digito (n mod 16)).

Fixpoint repr_cuerpo (q : ascii) (s : string) : string :=
  match s with
  | EmptyString => EmptyString
  | String c r => repr_c q c ++ repr_cuerpo q r
  end.

Definition repr_str (s : string) : string :=
  let q := comilla_repr s in
  String q (repr_cuerpo q s ++ String q "").

Fixpoint unir (sep : string) (l : list string) : string :=
  match l with
  | [] => ""
  | [x] => x
  | x :: r => x ++ sep ++ unir sep r
  end.

(** [str(l)] for a list of strings: ["['a', 'b']"]. *)
Definition repr_lista (l : list string) : string :=
  "[" ++ unir ", " (map repr_str l) ++ "]".

(** *** Dictionaries

    A [dict] is its sequence of items in insertion order; keys are unique. *)

Definition dict (V : Type) : Type := list (string * V).

Fixpoint dict_get {V} (k : string) (d : dict V) : option V :=
  match d with
  | [] => None
  | (k', v) :: r => if String.eqb k k' then Some v else dict_get k r
  end.

(** [k in d]. *)
Definition dict_in {V} (k : string) (d : dict V) : bool :=
  match dict_get k d with
  | Some _ => true
  | None => false
  end.

(** [list(d.keys())]. *)
Definition dict_keys {V} (d : dict V) : list string := map fst d.

(** [d[k] = v]: replaces the value of an existing key in place, appends a
    new key at the end. *)
Fixpoint dict_set {V} (k : string) (v : V) (d : dict V) : dict V :=
  match d with
  | [] => [(k, v)]
  | (k', v') :: r =>
      if String.eqb k k' then (k, v) :: r else (k', v') :: dict_set k v r
  end.

(** *** Exceptions and results *)

Inductive excepcion : Type :=
| ValidacionError (msg : string)      (* subclass of AfiError *)
| LongitudLineaError (msg : string)   (* subclass of AfiError *)
| ValueError (msg : string)
| IndexError
| AttributeError
| KeyError.

(** [isinstance(e, AfiError)]. *)
Definition es_AfiError (e : excepcion) : bool :=
  match e with
  | ValidacionError _ | LongitudLineaError _ => true
  | _ => false
  end.

Definition es_ValueError (e : excepcion) : bool :=
  match e with
  | ValueError _ => true
  | _ => false
  end.

(** [str(e)] for the exceptions built with one message argument. *)
Definition str_exc (e : excepcion) : string :=
  match e with
  | ValidacionError m | LongitudLineaError m | ValueError m => m
  | IndexError => "string index out of range"
  | AttributeError => "'NoneType' object has no attribute 'strip'"
  | KeyError => "KeyError"
  end.

Inductive res (A : Type) : Type :=
| Ret (a : A)
| Raise (e : excepcion).
Arguments Ret {A} a.
Arguments Raise {A} e.

Definition bind {A B} (m : res A) (f : A -> res B) : res B :=
  match m with
  | Ret a => f a
  | Raise e => Raise e
  end.

Notation "x <- m ;; k" := (bind m (fun x => k))
  (at level 61, m at next level, right associativity).

(* ================================================================== *)
(** ** The regular expressions of [validar_tipo_documento]

    The three patterns have the shape [^ C1{a1,b1} ... Cn{an,bn} $] with
    character classes that are unions of ranges.  [re.match] on such a
    pattern anchors at the start; [$] matches at the end of the string and
    also just before a newline that ends the string. *)

Definition clase : Type := list (ascii * ascii).

Definition en_clase (cl : clase) (c : ascii) : bool :=
  existsb (fun r => entre (nat_of_ascii (fst r)) (nat_of_ascii (snd r))
                          (nat_of_ascii c)) cl.

Record atomo : Type := Atomo { a_clase : clase; a_min : nat; a_max : nat }.

Definition patron : Type := list atomo.

Definition nueva_linea : string := chr 10.

(** [$]. *)
Definition fin_patron (s : string) : bool :=
  String.eqb s "" || String.eqb s nueva_linea.

Fixpoint opcionales (cl : clase) (n : nat) (k : string -> bool) (s : string)
  : bool :=
  match n with
  | 0 => k s
  | S n' =>
      match s with
      | String c r => if en_clase cl c then opcionales cl n' k r || k s else k s
      | EmptyString => k s
      end
  end.

Fixpoint obligatorios (cl : clase) (n : nat) (k : string -> bool) (s : string)
  : bool :=
  match n with
  | 0 => k s
  | S n' =>
      match s with
      | String c r => en_clase cl c && obligatorios cl n' k r
      | EmptyString => false
      end
  end.

Fixpoint patron_match (p : patron) (s : string) : bool :=
  match p with
  | [] => fin_patron s
  | a :: p' =>
      obligatorios (a_clase a) (a_min a)
        (opcionales (a_clase a) (a_max a - a_min a) (patron_match p')) s
  end.

(** [re.match(p, s)] as a truth value. *)
Definition re_match (p : patron) (s : string) : bool := patron_match p s.

Definition cl_digitos : clase := [("0"%char, "9"%char)].
Definition cl_mayusculas : clase := [("A"%char, "Z"%char)].
Definition cl_xyz : clase := [("X"%char, "Z"%char)].
Definition cl_mayusculas_digitos : clase :=
  [("A"%char, "Z"%char); ("0"%char, "9"%char)].

(** [r"^[0-9]{8}[A-Z]$"] *)
Definition regex_dni : patron :=
  [Atomo cl_digitos 8 8; Atomo cl_mayusculas 1 1].
(** [r"^[XYZ][0-9]{7}[A-Z]$"] *)
Definition regex_nie : patron :=
  [Atomo cl_xyz 1 1; Atomo cl_digitos 7 7; Atomo cl_mayusculas 1 1].
(** [r"^[A-Z0-9]{6,9}$"] *)
Definition regex_pasaporte : patron :=
  [Atomo cl_mayusculas_digitos 6 9].

(* ================================================================== *)
(** ** [validaciones.py] *)

(** The common head of every field error message:
    [f"Error en archivo '{archivo}', fila {fila}, sección '{nombre_seccion}' "
     f"(pos {columna + 1}): '{seccion}'"]; each validator appends its cause. *)
Definition error_campo (archivo : string) (fila : nat) (nombre_seccion : string)
    (columna : nat) (seccion causa : string) : excepcion :=
  ValidacionError
    ("Error en archivo '" ++ archivo ++ "', fila " ++ str_int fila
     ++ ", secci" ++ chr 243 ++ "n '" ++ nombre_seccion
     ++ "' (pos " ++ str_int (columna + 1) ++ "): '" ++ seccion ++ "'" ++ causa).

Definition causa_numeros : string :=
  " no es un n" ++ chr 250 ++ "mero v" ++ chr 225 ++ "lido.".
Definition causa_letras : string :=
  " no es una cadena exclusivamente alfab" ++ chr 233 ++ "tica.".
Definition causa_documento (doc : string) : string :=
  " no es un n" ++ chr 250 ++ "mero de " ++ doc ++ " v" ++ chr 225 ++ "lido.".
Definition causa_diccionario (claves : list string) : string :=
  " no coincide con ninguno de los siguientes valores: " ++ repr_lista claves.
Definition causa_obligatorio : string :=
  " no puede estar vac" ++ chr 237 ++ "o.".
Definition causa_valores (valores : list string) : string :=
  " no coincide con ninguno de los siguientes valores: '"
  ++ repr_lista valores ++ "'.".

Definition validar_numeros (archivo seccion nombre_seccion : string)
    (fila columna : nat) : res string :=
  if negb (isdigit seccion)
  then Raise (error_campo archivo fila nombre_seccion columna seccion
                causa_numeros)
  else Ret seccion.

Definition validar_letras (archivo seccion nombre_seccion : string)
    (fila columna : nat) : res string :=
  if negb (isalpha seccion)
  then Raise (error_campo archivo fila nombre_seccion columna seccion
                causa_letras)
  else Ret seccion.

Section TipoDocumento.

(** [stdnum.es.cif.is_valid]. *)
Variable cif_is_valid : string -> bool.

Definition validar_tipo_documento (archivo seccion nombre_seccion : string)
    (fila columna : nat) (tipo : string) : res string :=
  let seccion := lstrip_ceros seccion in
  match primer_caracter tipo with
  | None => Raise IndexError
  | Some tipo =>
      if Ascii.eqb tipo "1" then
        if negb (re_match regex_dni seccion)
        then Raise (error_campo archivo fila nombre_seccion columna seccion
                      (causa_documento "DNI"))
        else Ret seccion
      else if Ascii.eqb tipo "2" then
        if negb (re_match regex_pasaporte seccion)
        then Raise (error_campo archivo fila nombre_seccion columna seccion
                      (causa_documento "pasaporte"))
        else Ret seccion
      else if Ascii.eqb tipo "6" then
        if negb (re_match regex_nie seccion)
        then Raise (error_campo archivo fila nombre_seccion columna seccion
                      (causa_documento "NIE"))
        else Ret seccion
      else if Ascii.eqb tipo "9" then
        if negb (cif_is_valid seccion)
        then Raise (error_campo archivo fila nombre_seccion columna seccion
                      (causa_documento "CIF"))
        else Ret seccion
      else Ret seccion
  end.

End TipoDocumento.

(** [validar_diccionario] on a [str] section, which is what its docstring
    declares and what every caller passes. *)
Definition validar_diccionario (archivo seccion nombre_seccion : string)
    (fila columna : nat) (diccionario : dict string) (nullable : bool)
  : res string :=
  if nullable && String.eqb (strip seccion) ""
  then Ret seccion
  else
    if String.eqb (strip seccion) "" || negb (dict_in seccion diccionario)
    then Raise (error_campo archivo fila nombre_seccion columna seccion
                  (causa_diccionario (dict_keys diccionario)))
    else
      match dict_get seccion diccionario with
      | Some etiqueta => Ret (seccion ++ "('" ++ etiqueta ++ "')")
      | None => Raise KeyError
      end.

(** The same function on a section that may be [None]: the first test has
    [seccion is None]; past it, [seccion.strip()] on [None] raises. *)
Definition validar_diccionario_opt (archivo : string) (seccion : option string)
    (nombre_seccion : string) (fila columna : nat) (diccionario : dict string)
    (nullable : bool) : res (option string) :=
  match seccion with
  | None => if nullable then Ret None else Raise AttributeError
  | Some s =>
      v <- validar_diccionario archivo s nombre_seccion fila columna
             diccionario nullable ;;
      Ret (Some v)
  end.

Definition validar_obligatorio (archivo seccion nombre_seccion : string)
    (fila columna : nat) : res string :=
  if String.eqb (strip seccion) ""
  then Raise (error_campo archivo fila nombre_seccion columna seccion
                causa_obligatorio)
  else Ret seccion.

Definition validar_valores (archivo seccion nombre_seccion : string)
    (fila columna : nat) (valores : list string) : res string :=
  if negb (en_lista seccion valores)
  then Raise (error_campo archivo fila nombre_seccion columna seccion
                (causa_valores valores))
  else Ret seccion.

(** [f"{nombre_archivo}, línea {idx}: longitud {len(linea)} != {longitud}"] *)
Definition error_longitud (nombre_archivo : string) (idx len longitud : nat)
  : excepcion :=
  LongitudLineaError
    (nombre_archivo ++ ", l" ++ chr 237 ++ "nea " ++ str_int idx
     ++ ": longitud " ++ str_int len ++ " != " ++ str_int longitud).

(** The loop [for idx, linea in enumerate(lineas, start=1)], entered at
    index [idx]. *)
Fixpoint validar_longitudes_desde (nombre_archivo : string) (idx : nat)
    (lineas : list string) (longitud : nat) : res unit :=
  match lineas with
  | [] => Ret tt
  | linea :: resto =>
      if negb (Nat.eqb (String.length linea) longitud)
      then Raise (error_longitud nombre_archivo idx (String.length linea)
                    longitud)
      else validar_longitudes_desde nombre_archivo (S idx) resto longitud
  end.

Definition validar_longitudes (nombre_archivo : string) (lineas : list string)
    (longitud : nat) : res unit :=
  validar_longitudes_desde nombre_archivo 1 lineas longitud.

(* ================================================================== *)
(** ** The reference tables of [diccionarios] (a parameter) *)

Record Diccionarios : Type := {
  REGIMEN_SECTOR : dict string;
  PROVINCIAS : dict string;
  TIPO_IDENTIFICACION : dict string;
  PAISES : dict string;
  ACCIONES_EMP : dict string;
  TIPO_AFABETICO_EMPRESARIO : dict string;
  TIPO_PECULIARIDAD_COTIZACION : dict string;
  IPF : dict string;
  TIPO_VIA : dict string
}.

(* ================================================================== *)
(** ** [afi_archivo.py]: the line parsers *)

(** The value a line parser returns: a [dict] from field name to text. *)
Definition registro : Type := dict string.

Section Parsers.

Variable dic : Diccionarios.
Variable cif_is_valid : string -> bool.

(** [self.nombre]; the parsers read nothing else of [self]. *)
Variable nombre : string.

Definition parse_linea_eti (fila : nat) (linea : string) : res registro :=
  let cabecera := slice 0 3 linea in
  sintaxis <- validar_valores nombre (slice 3 7 linea) "sintaxis" fila 3
                ["AFI9"] ;;
  version_mensaje <- validar_numeros nombre (slice 7 8 linea)
                       "version_mensaje" fila 7 ;;
  id_programa <- validar_obligatorio nombre (slice 8 12 linea)
                   "id_programa" fila 8 ;;
  version_proceso <- validar_obligatorio nombre (slice 12 13 linea)
                       "version_proceso" fila 12 ;;
  clave_autorizacion <- validar_numeros nombre (slice 13 21 linea)
                          "version_mensaje" fila 13 ;;
  let reservado_1 := slice 21 29 linea in
  fecha <- validar_numeros nombre (slice 29 37 linea)
             "version_mensaje" fila 29 ;;
  hora <- validar_numeros nombre (slice 37 41 linea)
            "version_mensaje" fila 37 ;;
  nombre_archivo <- validar_obligatorio nombre (slice 41 49 linea)
                      "nombre_archivo" fila 41 ;;
  extension_archivo <- validar_valores nombre (slice 49 52 linea)
                         "extension_archivo" fila 49 ["AFI"] ;;
  prioridad <- validar_valores nombre (slice 52 53 linea)
                 "prioridad" fila 49 ["N"] ;;
  let indicador_prueba := slice 53 54 linea in
  id_registro_ano <- validar_numeros nombre (slice 54 56 linea)
                       "id_registro_ano" fila 54 ;;
  id_registro_mes <- validar_numeros nombre (slice 56 58 linea)
                       "id_registro_mes" fila 56 ;;
  id_registro_serie <- validar_numeros nombre (slice 58 59 linea)
                         "id_registro_serie" fila 58 ;;
  id_registro_envio <- validar_numeros nombre (slice 59 64 linea)
                         "id_registro_envio" fila 59 ;;
  id_registro_ordinal <- validar_numeros nombre (slice 64 68 linea)
                           "id_registro_ordinal" fila 64 ;;
  let reservado_2 := slice 68 69 linea in
  let reservado_3 := slice 69 70 linea in
  Ret [ ("cabecera", cabecera);
        ("sintaxis", sintaxis);
        ("version_mensaje", version_mensaje);
        ("id_programa", id_programa);
        ("version_proceso", version_proceso);
        ("clave_autorizacion", clave_autorizacion);
        ("reservado_1", reservado_1);
        ("fecha", fecha);
        ("hora", hora);
        ("nombre_archivo", nombre_archivo);
        ("extension_archivo", extension_archivo);
        ("prioridad", prioridad);
        ("indicador_prueba", indicador_prueba);
        ("id_registro_ano", id_registro_ano);
        ("id_registro_mes", id_registro_mes);
        ("id_registro_serie", id_registro_serie);
        ("id_registro_envio", id_registro_envio);
        ("id_registro_ordinal", id_registro_ordinal);
        ("reservado_2", reservado_2);
        ("reservado_3", reservado_3) ].

Definition parse_linea_emp (fila : nat) (linea : string) : res registro :=
  let cabecera := slice 0 3 linea in
  seguridad_social_regimen <-
    validar_diccionario nombre (slice 3 7 linea) "seguridad_social_regimen"
      fila 3 (REGIMEN_SECTOR dic) false ;;
  seguridad_social_provincia <-
    validar_diccionario nombre (slice 7 9 linea) "seguridad_social_provincia"
      fila 7 (PROVINCIAS dic) false ;;
  seguridad_social_numero <-
    validar_obligatorio nombre (slice 9 18 linea) "id_programa" fila 8 ;;
  empresario_tipo_identificacion <-
    validar_diccionario nombre (slice 18 19 linea)
      "empresario_tipo_identificacion" fila 18 (TIPO_IDENTIFICACION dic)
      false ;;
  empresario_codigo_pais <-
    validar_diccionario nombre (slice 19 22 linea) "empresario_codigo_pais"
      fila 19 (PAISES dic) false ;;
  empresario_numero_identificacion <-
    validar_tipo_documento cif_is_valid nombre (slice 22 36 linea)
      "empresario_numero_identificacion" fila 22
      empresario_tipo_identificacion ;;
  let empresario_calificador := slice 36 38 linea in
  ccc_regimen <-
    validar_diccionario nombre (slice 38 42 linea) "ccc_regimen" fila 38
      (REGIMEN_SECTOR dic) false ;;
  ccc_provincia <-
    validar_diccionario nombre (slice 42 44 linea) "ccc_provincia" fila 42
      (PROVINCIAS dic) false ;;
  let ccc_numero := slice 44 53 linea in
  let reservado_recaudacion := slice 53 66 linea in
  accion <-
    validar_diccionario nombre (slice 66 69 linea) "accion" fila 66
      (ACCIONES_EMP dic) true ;;
  let reservado := slice 69 70 linea in
  Ret [ ("cabecera", cabecera);
        ("seguridad_social_regimen", seguridad_social_regimen);
        ("seguridad_social_provincia", seguridad_social_provincia);
        ("seguridad_social_numero", seguridad_social_numero);
        ("empresario_tipo_identificacion", empresario_tipo_identificacion);
        ("empresario_codigo_pais", empresario_codigo_pais);
        ("empresario_numero_identificacion",
           empresario_numero_identificacion);
        ("empresario_calificador", empresario_calificador);
        ("ccc_regimen", ccc_regimen);
        ("ccc_provincia", ccc_provincia);
        ("ccc_numero", ccc_numero);
        ("reservado_recaudacion", reservado_recaudacion);
        ("accion", accion);
        ("reservado", reservado) ].

Definition parse_linea_rzs (fila : nat) (linea : string) : res registro :=
  let cabecera := slice 0 3 linea in
  indicador_rzs <- validar_valores nombre (slice 3 4 linea) "indicador_rzs"
                     fila 3 ["0"; "1"; "2"; "3"; "4"] ;;
  tipo_alfabetico <- validar_diccionario nombre (slice 4 5 linea)
                       "tipo_alfabetico" fila 4
                       (TIPO_AFABETICO_EMPRESARIO dic) false ;;
  let razon_social := slice 5 60 linea in
  let clave_autorizacion := slice 60 68 linea in
  let reservado := slice 68 70 linea in
  Ret [ ("cabecera", cabecera);
        ("indicador_rzs", indicador_rzs);
        ("tipo_alfabetico", tipo_alfabetico);
        ("razon_social", razon_social);
        ("clave_autorizacion", clave_autorizacion);
        ("reservado", reservado) ].

(** The body of [for i in range(33)], over the remaining values of [i]. *)
Fixpoint pes_bucle (fila : nat) (linea : string) (rango : list nat)
    (resultado : registro) : res registro :=
  match rango with
  | [] => Ret resultado
  | i :: rango' =>
      let start := 3 + i * 2 in
      let end_ := start + 2 in
      let key := "peculiaridad_" ++ str_int (i + 1) in
      v <- validar_diccionario nombre (slice start end_ linea) key fila start
             (TIPO_PECULIARIDAD_COTIZACION dic) false ;;
      pes_bucle fila linea rango' (dict_set key v resultado)
  end.

Definition parse_linea_pes (fila : nat) (linea : string) : res registro :=
  let cabecera := slice 0 3 linea in
  let resultado := [("cabecera", cabecera)] in
  pes_bucle fila linea (seq 0 33) resultado.

Definition parse_linea_tra (fila : nat) (linea : string) : res registro :=
  let cabecera := slice 0 3 linea in
  ss_provincia <- validar_diccionario nombre (slice 3 5 linea) "ss_provincia"
                    fila 3 (PROVINCIAS dic) false ;;
  ss_numero <- validar_numeros nombre (slice 5 15 linea) "ss_numero" fila 5 ;;
  ipf_tipo <- validar_diccionario nombre (slice 15 16 linea) "ipf_tipo"
                fila 15 (IPF dic) false ;;
  ipf_pais <- validar_diccionario nombre (slice 16 19 linea) "ipf_pais"
                fila 16 (PAISES dic) false ;;
  ipf_alfaclave <- validar_tipo_documento cif_is_valid nombre
                     (slice 19 33 linea) "ipf_alfaclave" fila 19 ipf_tipo ;;
  let reservado_respuesta_afi := slice 33 36 linea in
  let reservado_recaudacion := slice 36 61 linea in
  nacionalidad <-
    match primer_caracter ipf_tipo with
    | None => Raise IndexError
    | Some c =>
        if Ascii.eqb c "1"
        then Ret (slice 61 64 linea)
        else validar_diccionario nombre (slice 61 64 linea) "nacionalidad"
               fila 61 (PAISES dic) false
    end ;;
  let indicador_trabajador := slice 64 65 linea in
  let reservado := slice 65 70 linea in
  Ret [ ("cabecera", cabecera);
        ("ss_provincia", ss_provincia);
        ("ss_numero", ss_numero);
        ("ipf_tipo", ipf_tipo);
        ("ipf_pais", ipf_pais);
        ("ipf_alfaclave", ipf_alfaclave);
        ("reservado_respuesta_afi", reservado_respuesta_afi);
        ("reservado_recaudacion", reservado_recaudacion);
        ("nacionalidad", nacionalidad);
        ("indicador_trabajador", indicador_trabajador);
        ("reservado", reservado) ].

Definition parse_linea_ayn (fila : nat) (linea : string) : res registro :=
  let cabecera := slice 0 3 linea in
  primer_apellido <- validar_letras nombre (slice 3 23 linea)
                       "primer_apellido" fila 3 ;;
  let segundo_apellido := slice 23 43 linea in
  let nombre_ := slice 43 58 linea in
  let reservado := slice 58 70 linea in
  Ret [ ("cabecera", cabecera);
        ("primer_apellido", primer_apellido);
        ("segundo_apellido", segundo_apellido);
        ("nombre", nombre_);
        ("reservado", reservado) ].

Definition parse_linea_dom (fila : nat) (linea : string) : res registro :=
  let cabecera := slice 0 3 linea in
  let indicador_domicilio := slice 3 4 linea in
  dom_tipo_via <- validar_diccionario nombre (slice 4 6 linea) "dom_tipo_via"
                    fila 4 (TIPO_VIA dic) false ;;
  let dom_nombre_via := slice 6 42 linea in
  let dom_numero := slice 42 47 linea in
  let dom_bis := slice 47 49 linea in
  let dom_bloque := slice 49 51 linea in
  let dom_escalera := slice 51 53 linea in
  let dom_piso := slice 53 55 linea in
  let dom_puerta := slice 55 58 linea in
  let telefono := slice 58 68 linea in
  let reservado := slice 68 70 linea in
  Ret [ ("cabecera", cabecera);
        ("indicador_domicilio", indicador_domicilio);
        ("dom_tipo_via", dom_tipo_via);
        ("dom_nombre_via", dom_nombre_via);
        ("dom_numero", dom_numero);
        ("dom_bis", dom_bis);
        ("dom_bloque", dom_bloque);
        ("dom_escalera", dom_escalera);
        ("dom_piso", dom_piso);
        ("dom_puerta", dom_puerta);
        ("telefono", telefono);
        ("reservado", reservado) ].

Definition parse_linea_ldd (fila : nat) (linea : string) : res registro :=
  let cabecera := slice 0 3 linea in
  let codigo_postal := slice 3 8 linea in
  let localidad := slice 8 48 linea in
  let provincia := slice 48 50 linea in
  let telefono_sms := slice 50 62 linea in
  let prefijo_pais := slice 62 65 linea in
  let reservado := slice 65 70 linea in
  Ret [ ("cabecera", cabecera);
        ("codigo_postal", codigo_postal);
        ("localidad", localidad);
        ("provincia", provincia);
        ("telefono_sms", telefono_sms);
        ("prefijo_pais", prefijo_pais);
        ("reservado", reservado) ].

Definition parse_linea_fab (fila : nat) (linea : string) : res registro :=
  Ret [ ("cabecera", slice 0 3 linea);
        ("accion", slice 3 6 linea);
        ("situacion", slice 6 8 linea);
        ("fecha_real", slice 8 16 linea);
        ("grupo_cotizacion", slice 16 18 linea);
        ("grupo_cotizacion_diario", slice 18 19 linea);
        ("grado_discapacidad", slice 19 21 linea);
        ("tipo_contrato", slice 21 24 linea);
        ("condicion_desempleado", slice 24 25 linea);
        ("mujer_subrepresentada", slice 25 26 linea);
        ("coeficiente_tiempo_parcial", slice 26 29 linea);
        ("colectivo_trabajador", slice 29 32 linea);
        ("indicador_impresion", slice 32 33 linea);
        ("categoria_profesional", slice 33 40 linea);
        ("fecha_nacimiento", slice 40 48 linea);
        ("sexo", slice 48 49 linea);
        ("reservado", slice 49 50 linea);
        ("cese_actividad", slice 50 51 linea);
        ("coeficiente_huelga_ere", slice 51 54 linea);
        ("mujer_reincorporada", slice 54 55 linea);
        ("incapacitado_readmitido", slice 55 56 linea);
        ("trabajador_autonomo", slice 56 57 linea);
        ("5jr_semana", slice 57 58 linea);
        ("n_trabajadores_empresa", slice 58 59 linea);
        ("relacion_laboral_especial", slice 59 63 linea);
        ("tipo_inactividad", slice 63 65 linea);
        ("responsable_formacion", slice 65 66 linea);
        ("exenciones_trabajador", slice 66 67 linea);
        ("exclusion_social_victimas", slice 67 68 linea);
        ("renta_activa_insercion", slice 68 69 linea);
        ("trabajadoras_24m_alumbramiento", slice 69 70 linea) ].

Definition parse_linea_dam (fila : nat) (linea : string) : res registro :=
  Ret [ ("cabecera", slice 0 3 linea);
        ("fecha_inicio_contrato", slice 3 11 linea);
        ("fic_especifico", slice 11 12 linea);
        ("nuss_trabajador_sustituido", slice 12 24 linea);
        ("causa_sustitucion", slice 24 26 linea);
        ("permanencia_parte_entera", slice 26 27 linea);
        ("permamencia_parte_decimal", slice 27 29 linea);
        ("coeficiente_reductor_jubilacion", slice 29 31 linea);
        ("relevo", slice 31 32 linea);
        ("dias_trabajados", slice 32 34 linea);
        ("sistema_especial", slice 34 36 linea);
        ("exclusion_cotizacion", slice 36 39 linea);
        ("cambio_puesto_trabajo", slice 39 41 linea);
        ("indicativo_perdida_beneficios", slice 41 43 linea);
        ("vinculo_familiar", slice 43 44 linea);
        ("nss_persona_fisica_vinculada", slice 44 56 linea);
        ("programa_formento_empleo_agrario", slice 56 57 linea);
        ("modalidad_cotizacion", slice 57 58 linea);
        ("beneficios", slice 58 60 linea);
        ("ocupacion", slice 60 62 linea);
        ("excedente_sector_industrial", slice 62 64 linea);
        ("reduccion_jornada", slice 64 67 linea);
        ("coeficiente_tiempo_parcial_inicial", slice 67 70 linea) ].

Definition parse_linea_odl (fila : nat) (linea : string) : res registro :=
  let cabecera := slice 0 3 linea in
  convenio_colectivo <- validar_numeros nombre (slice 3 17 linea)
                          "convenio_colectivo" fila 3 ;;
  let reservado_1 := slice 17 23 linea in
  ocupacion_cno <- validar_numeros nombre (slice 23 27 linea)
                     "ocupacion_cno" fila 23 ;;
  reservado_2 <- validar_numeros nombre (slice 27 33 linea)
                   "reservado_2" fila 27 ;;
  importe_contribucion_entero <-
    validar_numeros nombre (slice 33 37 linea)
      "importe_contribucion_entero" fila 33 ;;
  importe_contribucion_decimal <-
    validar_numeros nombre (slice 37 39 linea)
      "importe_contribucion_decimal" fila 37 ;;
  let entidad_plan_pensiones := slice 39 44 linea in
  pais <- validar_numeros nombre (slice 44 47 linea)
            "importe_contribucion_decimal" fila 44 ;;
  let region_especial_pais := slice 47 50 linea in
  fin_previsto_contrato <-
    validar_numeros nombre (slice 50 58 linea)
      "importe_contribucion_decimal" fila 50 ;;
  let reservado_3 := slice 58 70 linea in
  Ret [ ("cabecera", cabecera);
        ("convenio_colectivo", convenio_colectivo);
        ("reservado_1", reservado_1);
        ("ocupacion_cno", ocupacion_cno);
        ("reservado_2", reservado_2);
        ("importe_contribucion_entero", importe_contribucion_entero);
        ("importe_contribucion_decimal", importe_contribucion_decimal);
        ("entidad_plan_pensiones", entidad_plan_pensiones);
        ("pais", pais);
        ("region_especial_pais", region_especial_pais);
        ("fin_previsto_contrato", fin_previsto_contrato);
        ("reservado_3", reservado_3) ].

(** [self.parsers], built in [__init__]. *)
Definition parsers : dict (nat -> string -> res registro) :=
  [ ("ETI", parse_linea_eti);
    ("EMP", parse_linea_emp);
    ("RZS", parse_linea_rzs);
    ("PES", parse_linea_pes);
    ("TRA", parse_linea_tra);
    ("AYN", parse_linea_ayn);
    ("DOM", parse_linea_dom);
    ("LDD", parse_linea_ldd);
    ("FAB", parse_linea_fab);
    ("DAM", parse_linea_dam);
    ("ODL", parse_linea_odl) ].

(** [f"{self.nombre}, fila {fila}: cabecera desconocida '{cabecera}'"] *)
Definition error_cabecera (fila : nat) (cabecera : string) : excepcion :=
  ValueError (nombre ++ ", fila " ++ str_int fila
              ++ ": cabecera desconocida '" ++ cabecera ++ "'").

Definition parse_linea (fila : nat) (linea : string) : res registro :=
  let cabecera := slice 0 3 linea in
  match dict_get cabecera parsers with
  | None => Raise (error_cabecera fila cabecera)
  | Some parser_func => parser_func fila linea
  end.

End Parsers.

(* ================================================================== *)
(** ** [afi_archivo.py]: the file session and the parse pass *)

Record AfiArchivo : Type := {
  nombre : string;
  lineas : list string;
  resultados : list registro;
  errores_parseo : list string
}.

(** [AfiArchivo(nombre_archivo, lineas)]. *)
Definition nuevo (nombre_archivo : string) (lineas : list string) : AfiArchivo :=
  {| nombre := nombre_archivo; lineas := lineas;
     resultados := []; errores_parseo := [] |}.

(** [self.resultados.append(r)] and [self.errores_parseo.append(m)]. *)
Definition anotar_resultado (self : AfiArchivo) (r : registro) : AfiArchivo :=
  {| nombre := nombre self; lineas := lineas self;
     resultados := (resultados self ++ [r])%list;
     errores_parseo := errores_parseo self |}.

Definition anotar_error (self : AfiArchivo) (m : string) : AfiArchivo :=
  {| nombre := nombre self; lineas := lineas self;
     resultados := resultados self;
     errores_parseo := (errores_parseo self ++ [m])%list |}.

(** [self.validar_longitud(longitud)]; [longitud] defaults to 70. *)
Definition validar_longitud (self : AfiArchivo) (longitud : nat) : res unit :=
  validar_longitudes (nombre self) (lineas self) longitud.

Definition longitud_por_defecto : nat := 70.

Section Sesion.

Variable dic : Diccionarios.
Variable cif_is_valid : string -> bool.

(** [except (AfiError, ValueError)]. *)
Definition capturada (e : excepcion) : bool := es_AfiError e || es_ValueError e.

(** [f"Fila {fila}: {e}"] *)
Definition error_fila (fila : nat) (e : excepcion) : string :=
  "Fila " ++ str_int fila ++ ": " ++ str_exc e.

(** The loop of [parsear] over the lines that remain, [fila] being the
    number of the first of them.  An exception that the [except] clause does
    not catch leaves the loop and the method. *)
Fixpoint parsear_desde (self : AfiArchivo) (fila : nat) (resto : list string)
  : res AfiArchivo :=
  match resto with
  | [] => Ret self
  | linea :: resto' =>
      match parse_linea dic cif_is_valid (nombre self) fila linea with
      | Ret r => parsear_desde (anotar_resultado self r) (S fila) resto'
      | Raise e =>
          if capturada e
          then parsear_desde (anotar_error self (error_fila fila e))
                 (S fila) resto'
          else Raise e
      end
  end.

Definition parsear (self : AfiArchivo) : res AfiArchivo :=
  parsear_desde self 1 (lineas self).

End Sesion.

(* ================================================================== *)
(** ** [main.py]: the loop over the files of a batch *)

(** The three dictionaries [main] fills, keyed by file name. *)
Record Informe : Type := {
  inf_errores_longitud : dict (list string);
  inf_errores_parseo : dict (list string);
  inf_resultados : dict (list registro)
}.

Definition informe_vacio : Informe :=
  {| inf_errores_longitud := []; inf_errores_parseo := [];
     inf_resultados := [] |}.

Definition es_LongitudLineaError (e : excepcion) : bool :=
  match e with
  | LongitudLineaError _ => true
  | _ => false
  end.

Definition lista_no_vacia {A} (l : list A) : bool :=
  match l with
  | [] => false
  | _ :: _ => true
  end.

Section Main.

Variable dic : Diccionarios.
Variable cif_is_valid : string -> bool.

(** One turn of [for archivo, lineas in afi_data.items()]. *)
Definition main_archivo (inf : Informe) (archivo : string)
    (lineas : list string) : res Informe :=
  let afi := nuevo archivo lineas in
  match validar_longitud afi longitud_por_defecto with
  | Raise e =>
      if es_LongitudLineaError e
      then Ret {| inf_errores_longitud :=
                    dict_set archivo [str_exc e] (inf_errores_longitud inf);
                  inf_errores_parseo := inf_errores_parseo inf;
                  inf_resultados := inf_resultados inf |}
      else Raise e
  | Ret _ =>
      afi <- parsear dic cif_is_valid afi ;;
      let resultados' := dict_set archivo (resultados afi) (inf_resultados inf) in
      let errores' :=
        if lista_no_vacia (errores_parseo afi)
        then dict_set archivo (errores_parseo afi) (inf_errores_parseo inf)
        else inf_errores_parseo inf in
      Ret {| inf_errores_longitud := inf_errores_longitud inf;
             inf_errores_parseo := errores';
             inf_resultados := resultados' |}
  end.

Fixpoint main_bucle (inf : Informe) (afi_data : dict (list string))
  : res Informe :=
  match afi_data with
  | [] => Ret inf
  | (archivo, lineas) :: resto =>
      inf' <- main_archivo inf archivo lineas ;;
      main_bucle inf' resto
  end.

(** [main], from the files that [cargar_afi_desde_carpeta] has loaded (a
    [dict] from file name to lines) to the three dictionaries it fills; the
    printing of the report that follows the loop is not part of the model. *)
Definition main (afi_data : dict (list string)) : res Informe :=
  main_bucle informe_vacio afi_data.

End Main.

(* ================================================================== *)
(** ** The line parsers as ordered field tables

    Every line parser is a sequence of field extractions in a fixed order,
    each either a plain slice or a validator call, the record being the
    fields in that order.  [campos_eti] ... [campos_odl] list them; the
    lemmas [parse_linea_eti_campos] ... below prove that running a table with
    [extraer] is what the parser computes. *)

(** A field: its key in the record, and its value computed from the fields
    extracted before it. *)
Definition campo : Type := (string * (registro -> res string))%type.

Fixpoint extraer (campos : list campo) (r : registro) : res registro :=
  match campos with
  | [] => Ret r
  | (k, f) :: campos' =>
      v <- f r ;;
      extraer campos' (r ++ [(k, v)])%list
  end.

Definition fijo (k v : string) : campo := (k, fun _ => Ret v).
Definition validado (k : string) (m : res string) : campo := (k, fun _ => m).

(** [d[k]] for a key of [d] (the empty string for any other [k]); in a
    table, the value of a field extracted before. *)
Definition valor (r : dict string) (k : string) : string :=
  match dict_get k r with
  | Some v => v
  | None => ""
  end.

Section Esquemas.

Variable dic : Diccionarios.
Variable cif_is_valid : string -> bool.
Variable nombre : string.
Variable fila : nat.
Variable linea : string.

Definition campos_eti : list campo :=
  [ fijo "cabecera" (slice 0 3 linea);
    validado "sintaxis"
      (validar_valores nombre (slice 3 7 linea) "sintaxis" fila 3 ["AFI9"]);
    validado "version_mensaje"
      (validar_numeros nombre (slice 7 8 linea) "version_mensaje" fila 7);
    validado "id_programa"
      (validar_obligatorio nombre (slice 8 12 linea) "id_programa" fila 8);
    validado "version_proceso"
      (validar_obligatorio nombre (slice 12 13 linea) "version_proceso"
         fila 12);
    validado "clave_autorizacion"
      (validar_numeros nombre (slice 13 21 linea) "version_mensaje" fila 13);
    fijo "reservado_1" (slice 21 29 linea);
    validado "fecha"
      (validar_numeros nombre (slice 29 37 linea) "version_mensaje" fila 29);
    validado "hora"
      (validar_numeros nombre (slice 37 41 linea) "version_mensaje" fila 37);
    validado "nombre_archivo"
      (validar_obligatorio nombre (slice 41 49 linea) "nombre_archivo"
         fila 41);
    validado "extension_archivo"
      (validar_valores nombre (slice 49 52 linea) "extension_archivo" fila 49
         ["AFI"]);
    validado "prioridad"
      (validar_valores nombre (slice 52 53 linea) "prioridad" fila 49 ["N"]);
    fijo "indicador_prueba" (slice 53 54 linea);
    validado "id_registro_ano"
      (validar_numeros nombre (slice 54 56 linea) "id_registro_ano" fila 54);
    validado "id_registro_mes"
      (validar_numeros nombre (slice 56 58 linea) "id_registro_mes" fila 56);
    validado "id_registro_serie"
      (validar_numeros nombre (slice 58 59 linea) "id_registro_serie"
         fila 58);
    validado "id_registro_envio"
      (validar_numeros nombre (slice 59 64 linea) "id_registro_envio"
         fila 59);
    validado "id_registro_ordinal"
      (validar_numeros nombre (slice 64 68 linea) "id_registro_ordinal"
         fila 64);
    fijo "reservado_2" (slice 68 69 linea);
    fijo "reservado_3" (slice 69 70 linea) ].

Definition campos_emp : list campo :=
  [ fijo "cabecera" (slice 0 3 linea);
    validado "seguridad_social_regimen"
      (validar_diccionario nombre (slice 3 7 linea)
         "seguridad_social_regimen" fila 3 (REGIMEN_SECTOR dic) false);
    validado "seguridad_social_provincia"
      (validar_diccionario nombre (slice 7 9 linea)
         "seguridad_social_provincia" fila 7 (PROVINCIAS dic) false);
    validado "seguridad_social_numero"
      (validar_obligatorio nombre (slice 9 18 linea) "id_programa" fila 8);
    validado "empresario_tipo_identificacion"
      (validar_diccionario nombre (slice 18 19 linea)
         "empresario_tipo_identificacion" fila 18 (TIPO_IDENTIFICACION dic)
         false);
    validado "empresario_codigo_pais"
      (validar_diccionario nombre (slice 19 22 linea)
         "empresario_codigo_pais" fila 19 (PAISES dic) false);
    ("empresario_numero_identificacion",
       fun r => validar_tipo_documento cif_is_valid nombre (slice 22 36 linea)
                  "empresario_numero_identificacion" fila 22
                  (valor r "empresario_tipo_identificacion"));
    fijo "empresario_calificador" (slice 36 38 linea);
    validado "ccc_regimen"
      (validar_diccionario nombre (slice 38 42 linea) "ccc_regimen" fila 38
         (REGIMEN_SECTOR dic) false);
    validado "ccc_provincia"
      (validar_diccionario nombre (slice 42 44 linea) "ccc_provincia" fila 42
         (PROVINCIAS dic) false);
    fijo "ccc_numero" (slice 44 53 linea);
    fijo "reservado_recaudacion" (slice 53 66 linea);
    validado "accion"
      (validar_diccionario nombre (slice 66 69 linea) "accion" fila 66
         (ACCIONES_EMP dic) true);
    fijo "reservado" (slice 69 70 linea) ].

Definition campos_rzs : list campo :=
  [ fijo "cabecera" (slice 0 3 linea);
    validado "indicador_rzs"
      (validar_valores nombre (slice 3 4 linea) "indicador_rzs" fila 3
         ["0"; "1"; "2"; "3"; "4"]);
    validado "tipo_alfabetico"
      (validar_diccionario nombre (slice 4 5 linea) "tipo_alfabetico" fila 4
         (TIPO_AFABETICO_EMPRESARIO dic) false);
    fijo "razon_social" (slice 5 60 linea);
    fijo "clave_autorizacion" (slice 60 68 linea);
    fijo "reservado" (slice 68 70 linea) ].

Definition clave_pes (i : nat) : string := "peculiaridad_" ++ str_int (i + 1).

Definition campo_pes (i : nat) : campo :=
  validado (clave_pes i)
    (validar_diccionario nombre (slice (3 + i * 2) (3 + i * 2 + 2) linea)
       (clave_pes i) fila (3 + i * 2) (TIPO_PECULIARIDAD_COTIZACION dic)
       false).

Definition campos_pes : list campo :=
  fijo "cabecera" (slice 0 3 linea) :: map campo_pes (seq 0 33).

Definition campos_tra : list campo :=
  [ fijo "cabecera" (slice 0 3 linea);
    validado "ss_provincia"
      (validar_diccionario nombre (slice 3 5 linea) "ss_provincia" fila 3
         (PROVINCIAS dic) false);
    validado "ss_numero"
      (validar_numeros nombre (slice 5 15 linea) "ss_numero" fila 5);
    validado "ipf_tipo"
      (validar_diccionario nombre (slice 15 16 linea) "ipf_tipo" fila 15
         (IPF dic) false);
    validado "ipf_pais"
      (validar_diccionario nombre (slice 16 19 linea) "ipf_pais" fila 16
         (PAISES dic) false);
    ("ipf_alfaclave",
       fun r => validar_tipo_documento cif_is_valid nombre (slice 19 33 linea)
                  "ipf_alfaclave" fila 19 (valor r "ipf_tipo"));
    fijo "reservado_respuesta_afi" (slice 33 36 linea);
    fijo "reservado_recaudacion" (slice 36 61 linea);
    ("nacionalidad",
       fun r => match primer_caracter (valor r "ipf_tipo") with
                | None => Raise IndexError
                | Some c =>
                    if Ascii.eqb c "1"
                    then Ret (slice 61 64 linea)
                    else validar_diccionario nombre (slice 61 64 linea)
                           "nacionalidad" fila 61 (PAISES dic) false
                end);
    fijo "indicador_trabajador" (slice 64 65 linea);
    fijo "reservado" (slice 65 70 linea) ].

Definition campos_ayn : list campo :=
  [ fijo "cabecera" (slice 0 3 linea);
    validado "primer_apellido"
      (validar_letras nombre (slice 3 23 linea) "primer_apellido" fila 3);
    fijo "segundo_apellido" (slice 23 43 linea);
    fijo "nombre" (slice 43 58 linea);
    fijo "reservado" (slice 58 70 linea) ].

Definition campos_dom : list campo :=
  [ fijo "cabecera" (slice 0 3 linea);
    fijo "indicador_domicilio" (slice 3 4 linea);
    validado "dom_tipo_via"
      (validar_diccionario nombre (slice 4 6 linea) "dom_tipo_via" fila 4
         (TIPO_VIA dic) false);
    fijo "dom_nombre_via" (slice 6 42 linea);
    fijo "dom_numero" (slice 42 47 linea);
    fijo "dom_bis" (slice 47 49 linea);
    fijo "dom_bloque" (slice 49 51 linea);
    fijo "dom_escalera" (slice 51 53 linea);
    fijo "dom_piso" (slice 53 55 linea);
    fijo "dom_puerta" (slice 55 58 linea);
    fijo "telefono" (slice 58 68 linea);
    fijo "reservado" (slice 68 70 linea) ].

Definition campos_ldd : list campo :=
  [ fijo "cabecera" (slice 0 3 linea);
    fijo "codigo_postal" (slice 3 8 linea);
    fijo "localidad" (slice 8 48 linea);
    fijo "provincia" (slice 48 50 linea);
    fijo "telefono_sms" (slice 50 62 linea);
    fijo "prefijo_pais" (slice 62 65 linea);
    fijo "reservado" (slice 65 70 linea) ].

(** The layouts of the two record kinds that are slices only: key, start
    column and end column of each field. *)
Definition tabla_fab : list (string * nat * nat) :=
  [ ("cabecera", 0, 3); ("accion", 3, 6); ("situacion", 6, 8);
    ("fecha_real", 8, 16); ("grupo_cotizacion", 16, 18);
    ("grupo_cotizacion_diario", 18, 19); ("grado_discapacidad", 19, 21);
    ("tipo_contrato", 21, 24); ("condicion_desempleado", 24, 25);
    ("mujer_subrepresentada", 25, 26); ("coeficiente_tiempo_parcial", 26, 29);
    ("colectivo_trabajador", 29, 32); ("indicador_impresion", 32, 33);
    ("categoria_profesional", 33, 40); ("fecha_nacimiento", 40, 48);
    ("sexo", 48, 49); ("reservado", 49, 50); ("cese_actividad", 50, 51);
    ("coeficiente_huelga_ere", 51, 54); ("mujer_reincorporada", 54, 55);
    ("incapacitado_readmitido", 55, 56); ("trabajador_autonomo", 56, 57);
    ("5jr_semana", 57, 58); ("n_trabajadores_empresa", 58, 59);
    ("relacion_laboral_especial", 59, 63); ("tipo_inactividad", 63, 65);
    ("responsable_formacion", 65, 66); ("exenciones_trabajador", 66, 67);
    ("exclusion_social_victimas", 67, 68); ("renta_activa_insercion", 68, 69);
    ("trabajadoras_24m_alumbramiento", 69, 70) ].

Definition tabla_dam : list (string * nat * nat) :=
  [ ("cabecera", 0, 3); ("fecha_inicio_contrato", 3, 11);
    ("fic_especifico", 11, 12); ("nuss_trabajador_sustituido", 12, 24);
    ("causa_sustitucion", 24, 26); ("permanencia_parte_entera", 26, 27);
    ("permamencia_parte_decimal", 27, 29);
    ("coeficiente_reductor_jubilacion", 29, 31); ("relevo", 31, 32);
    ("dias_trabajados", 32, 34); ("sistema_especial", 34, 36);
    ("exclusion_cotizacion", 36, 39); ("cambio_puesto_trabajo", 39, 41);
    ("indicativo_perdida_beneficios", 41, 43); ("vinculo_familiar", 43, 44);
    ("nss_persona_fisica_vinculada", 44, 56);
    ("programa_formento_empleo_agrario", 56, 57);
    ("modalidad_cotizacion", 57, 58); ("beneficios", 58, 60);
    ("ocupacion", 60, 62); ("excedente_sector_industrial", 62, 64);
    ("reduccion_jornada", 64, 67);
    ("coeficiente_tiempo_parcial_inicial", 67, 70) ].

Definition campo_fijo (t : string * nat * nat) : campo :=
  fijo (fst (fst t)) (slice (snd (fst t)) (snd t) linea).

Definition campos_fab : list campo := map campo_fijo tabla_fab.
Definition campos_dam : list campo := map campo_fijo tabla_dam.

Definition campos_odl : list campo :=
  [ fijo "cabecera" (slice 0 3 linea);
    validado "convenio_colectivo"
      (validar_numeros nombre (slice 3 17 linea) "convenio_colectivo" fila 3);
    fijo "reservado_1" (slice 17 23 linea);
    validado "ocupacion_cno"
      (validar_numeros nombre (slice 23 27 linea) "ocupacion_cno" fila 23);
    validado "reservado_2"
      (validar_numeros nombre (slice 27 33 linea) "reservado_2" fila 27);
    validado "importe_contribucion_entero"
      (validar_numeros nombre (slice 33 37 linea)
         "importe_contribucion_entero" fila 33);
    validado "importe_contribucion_decimal"
      (validar_numeros nombre (slice 37 39 linea)
         "importe_contribucion_decimal" fila 37);
    fijo "entidad_plan_pensiones" (slice 39 44 linea);
    validado "pais"
      (validar_numeros nombre (slice 44 47 linea)
         "importe_contribucion_decimal" fila 44);
    fijo "region_especial_pais" (slice 47 50 linea);
    validado "fin_previsto_contrato"
      (validar_numeros nombre (slice 50 58 linea)
         "importe_contribucion_decimal" fila 50);
    fijo "reservado_3" (slice 58 70 linea) ].

(** The table of the parser that [self.parsers] maps a header to. *)
Definition esquemas : dict (list campo) :=
  [ ("ETI", campos_eti); ("EMP", campos_emp); ("RZS", campos_rzs);
    ("PES", campos_pes); ("TRA", campos_tra); ("AYN", campos_ayn);
    ("DOM", campos_dom); ("LDD", campos_ldd); ("FAB", campos_fab);
    ("DAM", campos_dam); ("ODL", campos_odl) ].

End Esquemas.

(** The eleven known header codes. *)
Definition cabeceras : list string :=
  ["ETI"; "EMP"; "RZS"; "PES"; "TRA"; "AYN"; "DOM"; "LDD"; "FAB"; "DAM";
   "ODL"].

(** The field names of a table, in order. *)
Definition nombres_campos (campos : list campo) : list string := map fst campos.

(* ================================================================== *)
(** ** Auxiliary notions for the statements *)

Definition es_ValidacionError (e : excepcion) : bool :=
  match e with
  | ValidacionError _ => true
  | _ => false
  end.

(** A computation that, when it raises, raises a [ValidacionError]. *)
Definition seguro {A} (m : res A) : Prop :=
  match m with
  | Ret _ => True
  | Raise e => es_ValidacionError e = true
  end.


(** [claves_nuevas ks vistas]: no key of [ks] is in [vistas] or earlier in
    [ks]. *)
Fixpoint claves_nuevas (ks vistas : list string) : bool :=
  match ks with
  | [] => true
  | k :: ks' => negb (en_lista k vistas) && claves_nuevas ks' (vistas ++ [k])%list
  end.

(** [enumerate(l, start=i)]. *)
Fixpoint enumerar {A} (i : nat) (l : list A) : list (nat * A) :=
  match l with
  | [] => []
  | x :: l' => (i, x) :: enumerar (S i) l'
  end.

Section Desenlaces.

Variable dic : Diccionarios.
Variable cif_is_valid : string -> bool.
Variable nombre : string.

(** What one numbered line contributes to [resultados] and to
    [errores_parseo]: a function of the file name, the line number and the
    line, and of nothing else. *)
Definition desenlace (p : nat * string) : res registro :=
  parse_linea dic cif_is_valid nombre (fst p) (snd p).

Definition registro_de (p : nat * string) : list registro :=
  match desenlace p with
  | Ret r => [r]
  | Raise _ => []
  end.

Definition error_de (p : nat * string) : list string :=
  match desenlace p with
  | Ret _ => []
  | Raise e => [error_fila (fst p) e]
  end.

Definition es_valida (p : nat * string) : bool :=
  match desenlace p with
  | Ret _ => true
  | Raise _ => false
  end.

(** The records of the valid lines and the error strings of the failed
    lines among the numbered lines [ps], each in the order of [ps]. *)
Definition registros_de (ps : list (nat * string)) : list registro :=
  flat_map registro_de ps.

Definition errores_de (ps : list (nat * string)) : list string :=
  flat_map error_de ps.

End Desenlaces.

(** The session after a pass that appended [rs] and [es]. *)
Definition acumular (self : AfiArchivo) (rs : list registro) (es : list string)
  : AfiArchivo :=
  {| nombre := nombre self; lineas := lineas self;
     resultados := (resultados self ++ rs)%list;
     errores_parseo := (errores_parseo self ++ es)%list |}.

(** The acceptance rule of the document-format validator as the
    specification words it: by the first character [c] of the type and the
    zero-stripped value [s']. *)
Definition documento_aceptado (cif_is_valid : string -> bool) (c : ascii)
    (s' : string) : bool :=
  if Ascii.eqb c "1" then re_match regex_dni s'
  else if Ascii.eqb c "6" then re_match regex_nie s'
  else if Ascii.eqb c "2" then re_match regex_pasaporte s'
  else if Ascii.eqb c "9" then cif_is_valid s'
  else true.

(** The document name in the message of a rejected value. *)
Definition nombre_documento (c : ascii) : string :=
  if Ascii.eqb c "1" then "DNI"
  else if Ascii.eqb c "2" then "pasaporte"
  else if Ascii.eqb c "6" then "NIE"
  else "CIF".

(** Every line has the expected length. *)
Definition longitudes_correctas (lineas : list string) (longitud : nat) : bool :=
  forallb (fun linea => Nat.eqb (String.length linea) longitud) lineas.

(** What [main] holds for a file after its loop: the entry of the file in
    each of the three dictionaries. *)
Definition entradas (inf : Informe) (archivo : string)
  : option (list string) * option (list string) * option (list registro) :=
  (dict_get archivo (inf_errores_longitud inf),
   dict_get archivo (inf_errores_parseo inf),
   dict_get archivo (inf_resultados inf)).

Section EntradasEsperadas.

Variable dic : Diccionarios.
Variable cif_is_valid : string -> bool.

(** The entries of a file that [main] has processed: after a length error,
    that one error and nothing else; otherwise the records of the pass, and
    its errors when there are any. *)
Definition entradas_esperadas (archivo : string) (lineas : list string)
  : option (list string) * option (list string) * option (list registro) :=
  match validar_longitudes archivo lineas longitud_por_defecto with
  | Raise e => (Some [str_exc e], None, None)
  | Ret _ =>
      let rs := registros_de dic cif_is_valid archivo (enumerar 1 lineas) in
      let es := errores_de dic cif_is_valid archivo (enumerar 1 lineas) in
      (None, if lista_no_vacia es then Some es else None, Some rs)
  end.

End EntradasEsperadas.

(** The record a layout table yields on a line: each field is the slice of
    its columns. *)
Definition registro_de_tabla (tabla : list (string * nat * nat))
    (linea : string) : registro :=
  map (fun t => (fst (fst t), slice (snd (fst t)) (snd t) linea)) tabla.

(** A layout table covers the columns [desde]..[hasta] when its fields
    follow one another without gap or overlap from [desde] to [hasta]. *)
Fixpoint cubre (tabla : list (string * nat * nat)) (desde hasta : nat) : bool :=
  match tabla with
  | [] => Nat.eqb desde hasta
  | (_, a, b) :: tabla' =>
      Nat.eqb a desde && Nat.leb a b && cubre tabla' b hasta
  end.

(** The values of a record, one after the other. *)
Definition valores_seguidos (r : registro) : string :=
  fold_right (fun kv s => snd kv ++ s) "" r.

(* ================================================================== *)
(** ** Sample data for the worked examples

    Small reference tables and lines on which the statements below are
    evaluated. *)

Definition dic_ejemplo : Diccionarios := {|
  REGIMEN_SECTOR := [("0111", "REGIMEN GENERAL")];
  PROVINCIAS := [("08", "BARCELONA"); ("28", "MADRID")];
  TIPO_IDENTIFICACION := [("1", "DNI"); ("6", "NIE"); ("9", "CIF")];
  PAISES := [("250", "FRANCIA"); ("724", "ESPANA")];
  ACCIONES_EMP := [("CTA", "ALTA")];
  TIPO_AFABETICO_EMPRESARIO := [("A", "APELLIDOS Y NOMBRE")];
  TIPO_PECULIARIDAD_COTIZACION := [("01", "BONIFICACION")];
  IPF := [("1", "DNI"); ("2", "PASAPORTE"); ("6", "NIE")];
  TIPO_VIA := [("CL", "CALLE")]
|}.

Definition cif_ejemplo (s : string) : bool := false.

(** A valid ETI line. *)
Definition linea_eti : string :=
  "ETIAFI91PROG112345678        202401011200FICHERO1AFIN 2401100001000100".

(** The same line with priority [X] in column 52. *)
Definition linea_eti_prioridad : string :=
  "ETIAFI91PROG112345678        202401011200FICHERO1AFIX 2401100001000100".

(** The same line with letters in the authorisation key, columns 13-20. *)
Definition linea_eti_clave : string :=
  "ETIAFI91PROG1ABCDEFGH        202401011200FICHERO1AFIN 2401100001000100".

(** An EMP line whose account number, columns 9-17, is blank. *)
Definition linea_emp_sin_numero : string :=
  "EMP011128         17240000012345678Z  011128123456789             CTA ".

(** A TRA line of a DNI holder with free text as nationality, and one of a
    passport holder with a country code, known and unknown. *)
Definition linea_tra_dni : string :=
  "TRA28000000000117240000012345678Z                            ???      ".
Definition linea_tra_pasaporte : string :=
  "TRA280000000001225000000000AB1234                            250      ".

Definition linea_tra_pais_malo : string :=
  "TRA280000000001225000000000AB1234                            999      ".

(** A FAB and a DAM line with arbitrary content after the header, and a
    line with an unknown header. *)
Definition linea_fab : string :=
  "FAB?!  not a date, not a code: anything goes in these columns ........".
Definition linea_dam : string :=
  "DAM                                                                   ".
Definition linea_desconocida : string :=
  "XYZ                                                                   ".

Definition lote_ejemplo : dict (list string) :=
  [ ("a.afi", [linea_eti; linea_desconocida; linea_fab]);
    ("b.afi", [linea_eti; "ETI demasiado corta"; linea_eti]);
    ("c.afi", [linea_dam]) ].

(* ================================================================== *)
(** ** [main.py]: loading the files and printing the report *)

(** [c.lower()]. *)
Definition lower_c (c : ascii) : ascii :=
  let n := nat_of_ascii c in
  if entre 65 90 n || entre 192 214 n || entre 216 222 n
  then ascii_of_nat (n + 32) else c.

(** [s.lower()]. *)
Fixpoint lower (s : string) : string :=
  match s with
  | EmptyString => EmptyString
  | String c r => String (lower_c c) (lower r)
  end.

(** [s.endswith(suf)]. *)
Definition endswith (suf s : string) : bool :=
  String.eqb
    (substring (String.length s - String.length suf) (String.length suf) s)
    suf
  && Nat.leb (String.length suf) (String.length s).

Definition LF : ascii := ascii_of_nat 10.
Definition CR : ascii := ascii_of_nat 13.

(** What a file opened in text mode hands over for its decoded text: every
    [CR LF] and every other [CR] is read as [LF]. *)
Fixpoint traducir_saltos (s : string) : string :=
  match s with
  | EmptyString => EmptyString
  | String c r =>
      if Ascii.eqb c CR then
        match r with
        | String c' r' =>
            if Ascii.eqb c' LF
            then String LF (traducir_saltos r')
            else String LF (traducir_saltos r)
        | EmptyString => String LF EmptyString
        end
      else String c (traducir_saltos r)
  end.

(** The lines of a text, each with its [LF]; the last one has none when the
    text does not end with one.  [actual] is the line read so far. *)
Fixpoint partir_lineas (actual s : string) : list string :=
  match s with
  | EmptyString => if no_vacia actual then [actual] else []
  | String c r =>
      if Ascii.eqb c LF
      then (actual ++ String LF "") :: partir_lineas "" r
      else partir_lineas (actual ++ String c "") r
  end.

(** [f.readlines()] on a file opened with [open(ruta, "r")] whose decoded
    text is [texto]. *)
Definition readlines (texto : string) : list string :=
  partir_lineas "" (traducir_saltos texto).

(** [s.rstrip("\n")]. *)
Fixpoint rstrip_LF (s : string) : string :=
  match s with
  | EmptyString => EmptyString
  | String c r =>
      let r' := rstrip_LF r in
      if Ascii.eqb c LF && negb (no_vacia r') then EmptyString else String c r'
  end.

(** A folder as [cargar_afi_desde_carpeta] sees it: the names [os.listdir]
    returns, in that order, each with the decoded text of the file. *)
Definition carpeta : Type := list (string * string).

(** The loop of [cargar_afi_desde_carpeta] over the names that remain. *)
Fixpoint cargar_bucle (afi_files : dict (list string)) (resto : carpeta)
  : dict (list string) :=
  match resto with
  | [] => afi_files
  | (archivo, texto) :: resto' =>
      if endswith ".afi" (lower archivo)
      then
        let lineas := readlines texto in
        cargar_bucle (dict_set archivo (map rstrip_LF lineas) afi_files) resto'
      else cargar_bucle afi_files resto'
  end.

Definition cargar_afi_desde_carpeta (c : carpeta) : dict (list string) :=
  cargar_bucle [] c.



Section Programa.

Variable dic : Diccionarios.
Variable cif_is_valid : string -> bool.


End Programa.

(** What [main] leaves in its three dictionaries for one file. *)
Section Aportes.

Variable dic : Diccionarios.
Variable cif_is_valid : string -> bool.

Definition aporte_longitud (f : string * list string)
  : dict (list string) :=
  match validar_longitudes (fst f) (snd f) longitud_por_defecto with
  | Raise e => [(fst f, [str_exc e])]
  | Ret _ => []
  end.

Definition aporte_resultados (f : string * list string)
  : dict (list registro) :=
  match validar_longitudes (fst f) (snd f) longitud_por_defecto with
  | Raise _ => []
  | Ret _ =>
      [(fst f, registros_de dic cif_is_valid (fst f) (enumerar 1 (snd f)))]
  end.

Definition aporte_parseo (f : string * list string) : dict (list string) :=
  match validar_longitudes (fst f) (snd f) longitud_por_defecto with
  | Raise _ => []
  | Ret _ =>
      let es := errores_de dic cif_is_valid (fst f) (enumerar 1 (snd f)) in
      if lista_no_vacia es then [(fst f, es)] else []
  end.

End Aportes.

(** No character of [s] is [c]. *)
Definition sin_caracter (c : ascii) (s : string) : bool := negb (contiene c s).

(** [k] characters ["0"]. *)
Fixpoint ceros (k : nat) : string :=
  match k with
  | 0 => EmptyString
  | S k' => String "0" (ceros k')
  end.

(** The layouts of four more record kinds, read off their parsers: key,
    start column and end column of each field. *)
Definition tabla_eti : list (string * nat * nat) :=
  [ ("cabecera", 0, 3); ("sintaxis", 3, 7); ("version_mensaje", 7, 8);
    ("id_programa", 8, 12); ("version_proceso", 12, 13);
    ("clave_autorizacion", 13, 21); ("reservado_1", 21, 29);
    ("fecha", 29, 37); ("hora", 37, 41); ("nombre_archivo", 41, 49);
    ("extension_archivo", 49, 52); ("prioridad", 52, 53);
    ("indicador_prueba", 53, 54); ("id_registro_ano", 54, 56);
    ("id_registro_mes", 56, 58); ("id_registro_serie", 58, 59);
    ("id_registro_envio", 59, 64); ("id_registro_ordinal", 64, 68);
    ("reservado_2", 68, 69); ("reservado_3", 69, 70) ].

Definition tabla_ayn : list (string * nat * nat) :=
  [ ("cabecera", 0, 3); ("primer_apellido", 3, 23);
    ("segundo_apellido", 23, 43); ("nombre", 43, 58); ("reservado", 58, 70) ].

Definition tabla_ldd : list (string * nat * nat) :=
  [ ("cabecera", 0, 3); ("codigo_postal", 3, 8); ("localidad", 8, 48);
    ("provincia", 48, 50); ("telefono_sms", 50, 62); ("prefijo_pais", 62, 65);
    ("reservado", 65, 70) ].

Definition tabla_odl : list (string * nat * nat) :=
  [ ("cabecera", 0, 3); ("convenio_colectivo", 3, 17); ("reservado_1", 17, 23);
    ("ocupacion_cno", 23, 27); ("reservado_2", 27, 33);
    ("importe_contribucion_entero", 33, 37);
    ("importe_contribucion_decimal", 37, 39);
    ("entidad_plan_pensiones", 39, 44); ("pais", 44, 47);
    ("region_especial_pais", 47, 50); ("fin_previsto_contrato", 50, 58);
    ("reservado_3", 58, 70) ].

(** The layout of the record kinds whose record is made of sections as
    they are in the line. *)
Definition tablas_literales : dict (list (string * nat * nat)) :=
  [ ("ETI", tabla_eti); ("AYN", tabla_ayn); ("LDD", tabla_ldd);
    ("ODL", tabla_odl); ("FAB", tabla_fab); ("DAM", tabla_dam) ].

(** Two PES lines that differ in their last column only. *)
Definition linea_pes_a : string :=
  "PES010101010101010101010101010101010101010101010101010101010101010101A".
Definition linea_pes_b : string :=
  "PES010101010101010101010101010101010101010101010101010101010101010101B".

(** ["".join(l)]. *)
Definition juntar (l : list string) : string := fold_right append "" l.

(** A folder with two AFI files, one of them with the extension in capitals
    and line breaks [CR LF], and a file that is not one. *)
Definition carpeta_ejemplo : carpeta :=
  [ ("a.afi", linea_eti ++ String LF (linea_desconocida ++ String LF ""));
    ("notas.txt", "no es un archivo AFI");
    ("B.AFI", linea_dam ++ String CR (String LF "corta")) ].

(** What holds of an entry [cargar_afi_desde_carpeta] returns for a folder:
    its name ends in [.afi] once in lower case, its lines are those of a
    file of that name in the folder, read and stripped of their final line
    breaks, and none of them holds a line break. *)
Definition cargado (c : carpeta) (e : string * list string) : Prop :=
  (exists pre, lower (fst e) = pre ++ ".afi") /\
  (exists texto, In (fst e, texto) c /\
                 snd e = map rstrip_LF (readlines texto)) /\
  Forall (fun l => contiene LF l = false /\ contiene CR l = false) (snd e).


Section TextosParseo.

Variable dic : Diccionarios.
Variable cif_is_valid : string -> bool.


End TextosParseo.

(** An exception is a field error of line [fila] of file [archivo]: its
    message is the one of some section, column, value and cause, with that
    file name and that line number. *)
Definition error_de_campo_en (archivo : string) (fila : nat) (e : excepcion)
  : Prop :=
  exists nombre_seccion columna seccion causa,
    e = error_campo archivo fila nombre_seccion columna seccion causa.

(** A computation that, when it raises, raises a field error of that line
    of that file. *)
Definition con_contexto {A} (archivo : string) (fila : nat) (m : res A)
  : Prop :=
  match m with
  | Ret _ => True
  | Raise e => error_de_campo_en archivo fila e
  end.

(** A section that a non-nullable lookup in [d] accepts, and the value the
    lookup gives it. *)
Definition codigo_valido (d : dict string) (s : string) : bool :=
  negb (String.eqb (strip s) "") && dict_in s d.

Definition resuelto (d : dict string) (s : string) : string :=
  s ++ "('" ++ valor d s ++ "')".

(** The two columns of the [i]-th peculiarity of a PES line, [i] from 0. *)
Definition codigo_pes (linea : string) (i : nat) : string :=
  slice (3 + i * 2) (3 + i * 2 + 2) linea.
(* ================================================================== *)
(** * Properties *)

(** ** Results *)

Lemma seguro_Ret {A} (a : A) : seguro (Ret a).
Proof. exact I. Qed.

Lemma seguro_bind {A B} (m : res A) (f : A -> res B) :
  seguro m -> (forall a, m = Ret a -> seguro (f a)) -> seguro (bind m f).
Proof.
  destruct m as [a|e]; simpl; intros Hm Hf.
  - now apply Hf.
  - exact Hm.
Qed.

Lemma validacion_capturada e : es_ValidacionError e = true -> capturada e = true.
Proof. now destruct e. Qed.

(** ** Dictionaries *)

Lemma dict_keys_app {V} (d1 d2 : dict V) :
  dict_keys (d1 ++ d2)%list = (dict_keys d1 ++ dict_keys d2)%list.
Proof. apply map_app. Qed.

Lemma dict_get_en_lista {V} k (d : dict V) :
  dict_in k d = en_lista k (dict_keys d).
Proof.
  unfold dict_in, en_lista, dict_keys.
  induction d as [|[k' v] d IH]; simpl; [reflexivity|].
  destruct (String.eqb k k'); [reflexivity|exact IH].
Qed.

Lemma dict_set_nueva {V} k (v : V) (d : dict V) :
  en_lista k (dict_keys d) = false -> dict_set k v d = (d ++ [(k, v)])%list.
Proof.
  unfold en_lista, dict_keys.
  induction d as [|[k' v'] d IH]; simpl; [reflexivity|].
  destruct (String.eqb k k'); simpl; [discriminate|].
  intros H. now rewrite IH.
Qed.

Lemma en_lista_In x l : en_lista x l = true <-> In x l.
Proof.
  unfold en_lista. rewrite existsb_exists. split.
  - intros [y [Hy E]]. apply String.eqb_eq in E. now subst.
  - intros H. exists x. split; [exact H|apply String.eqb_refl].
Qed.

(** ** Running a field table *)

Lemma extraer_app (pre post : list campo) (r : registro) :
  extraer (pre ++ post)%list r = (r' <- extraer pre r ;; extraer post r').
Proof.
  revert r. induction pre as [|[k f] pre IH]; intros r; simpl; [reflexivity|].
  destruct (f r) as [v|e]; simpl; [apply IH|reflexivity].
Qed.

(** A table that runs to its end yields every field of the table, in the
    order of the table. *)
Lemma extraer_nombres (campos : list campo) (r r' : registro) :
  extraer campos r = Ret r' ->
  dict_keys r' = (dict_keys r ++ nombres_campos campos)%list.
Proof.
  revert r. induction campos as [|[k f] campos IH]; intros r; simpl.
  - intros E. injection E as <-. now rewrite app_nil_r.
  - destruct (f r) as [v|e]; simpl; [|discriminate].
    intros E. apply IH in E. rewrite E, dict_keys_app. simpl.
    now rewrite <- app_assoc.
Qed.

(** A table that raises does so at its first failing field: the fields
    before it were extracted, and the exception is the one of that field. *)
Lemma extraer_primer_fallo (campos : list campo) (r : registro) e :
  extraer campos r = Raise e ->
  exists pre k f post r',
    campos = (pre ++ (k, f) :: post)%list /\
    extraer pre r = Ret r' /\
    dict_keys r' = (dict_keys r ++ nombres_campos pre)%list /\
    f r' = Raise e.
Proof.
  revert r. induction campos as [|[k f] campos IH]; intros r; simpl.
  - discriminate.
  - destruct (f r) as [v|e'] eqn:Ef; simpl.
    + intros E. destruct (IH _ E) as (pre & k' & f' & post & r' & -> & Hp & Hk & Hf).
      exists ((k, f) :: pre), k', f', post, r'. simpl. rewrite Ef. simpl.
      repeat split; try assumption.
      rewrite Hk, dict_keys_app. simpl. now rewrite <- app_assoc.
    + intros E. injection E as ->.
      exists [], k, f, campos, r. simpl. rewrite app_nil_r. now repeat split.
Qed.

(** The fields after the failing one play no part in the outcome. *)
Lemma extraer_aborta (pre post post' : list campo) k f (r r' : registro) e :
  extraer pre r = Ret r' -> f r' = Raise e ->
  extraer (pre ++ (k, f) :: post)%list r = Raise e /\
  extraer (pre ++ (k, f) :: post')%list r = Raise e.
Proof.
  intros Hp Hf. rewrite !extraer_app, Hp. simpl. rewrite Hf. now split.
Qed.

(** ** Text *)

Lemma cadena_app_assoc (s t u : string) : (s ++ t) ++ u = s ++ t ++ u.
Proof. induction s as [|c s IH]; simpl; [reflexivity|now rewrite IH]. Qed.

Lemma cadena_app_vacia (s : string) : s ++ "" = s.
Proof. induction s as [|c s IH]; simpl; [reflexivity|now rewrite IH]. Qed.

Lemma cadena_length_app (s t : string) :
  String.length (s ++ t) = String.length s + String.length t.
Proof. induction s as [|c s IH]; simpl; [reflexivity|now rewrite IH]. Qed.

Lemma cadena_partir (n : nat) (s : string) :
  n <= String.length s ->
  exists p q, s = p ++ q /\ String.length p = n.
Proof.
  revert s. induction n as [|n IH]; intros s Hn.
  - now exists "", s.
  - destruct s as [|c s]; simpl in Hn; [lia|].
    destruct (IH s) as (p & q & -> & Hp); [lia|].
    exists (String c p), q. simpl. now rewrite Hp.
Qed.
(** ** The validators raise validation errors only *)

Lemma seguro_validar_numeros a s n f c : seguro (validar_numeros a s n f c).
Proof. unfold validar_numeros. now destruct (negb _). Qed.

Lemma seguro_validar_letras a s n f c : seguro (validar_letras a s n f c).
Proof. unfold validar_letras. now destruct (negb _). Qed.

Lemma seguro_validar_obligatorio a s n f c :
  seguro (validar_obligatorio a s n f c).
Proof. unfold validar_obligatorio. now destruct (String.eqb _ _). Qed.

Lemma seguro_validar_valores a s n f c vs :
  seguro (validar_valores a s n f c vs).
Proof. unfold validar_valores. now destruct (negb _). Qed.

Lemma seguro_validar_diccionario a s n f c d nl :
  seguro (validar_diccionario a s n f c d nl).
Proof.
  unfold validar_diccionario.
  destruct (nl && _); [exact I|].
  destruct (String.eqb (strip s) ""); simpl; [reflexivity|].
  unfold dict_in. now destruct (dict_get s d).
Qed.

Lemma seguro_validar_tipo_documento cif a s n f c tipo :
  no_vacia tipo = true -> seguro (validar_tipo_documento cif a s n f c tipo).
Proof.
  unfold validar_tipo_documento. destruct tipo as [|t tipo]; [discriminate|].
  intros _. simpl primer_caracter. cbv iota beta.
  repeat match goal with
         | |- seguro (if ?b then _ else _) => destruct b
         end; exact I || reflexivity.
Qed.

Lemma strip_vacia s : no_vacia s = false -> String.eqb (strip s) "" = true.
Proof. destruct s; [reflexivity|discriminate]. Qed.

Lemma no_vacia_app s t : no_vacia s = true -> no_vacia (s ++ t) = true.
Proof. now destruct s. Qed.

Lemma primer_caracter_app s t :
  no_vacia s = true -> primer_caracter (s ++ t) = primer_caracter s.
Proof. now destruct s. Qed.

(** A value that passed a non-nullable dictionary lookup is the section
    followed by its label, and the section is not empty: the value has a
    first character, the one of the section. *)
Lemma validar_diccionario_Ret a s n f c d v :
  validar_diccionario a s n f c d false = Ret v ->
  no_vacia s = true /\
  exists etiqueta, dict_get s d = Some etiqueta /\
                   v = s ++ "('" ++ etiqueta ++ "')".
Proof.
  unfold validar_diccionario. cbn [andb].
  destruct (String.eqb (strip s) "") eqn:Es; simpl; [discriminate|].
  destruct (negb (dict_in s d)); [discriminate|].
  destruct (dict_get s d) as [et|]; [|discriminate].
  intros E. injection E as <-. split.
  - destruct (no_vacia s) eqn:Ev; [reflexivity|].
    apply strip_vacia in Ev. congruence.
  - now exists et.
Qed.

Lemma validar_diccionario_no_vacia a s n f c d v :
  validar_diccionario a s n f c d false = Ret v ->
  no_vacia v = true /\ primer_caracter v = primer_caracter s.
Proof.
  intros E. apply validar_diccionario_Ret in E as [Hs (et & _ & ->)].
  split; [now apply no_vacia_app|now apply primer_caracter_app].
Qed.

(** ** The line parsers run their field tables *)

Ltac caso_bind :=
  match goal with
  | |- context [bind ?m _] => destruct m eqn:?; cbn [bind]
  end.

Ltac tabla :=
  cbn [extraer fijo validado bind app fst snd];
  repeat (try reflexivity; caso_bind;
          cbn [extraer fijo validado bind app fst snd]);
  try reflexivity.

Section ParsersCampos.

Variable dic : Diccionarios.
Variable cif_is_valid : string -> bool.
Variable nombre : string.
Variable fila : nat.
Variable linea : string.

Lemma parse_linea_eti_campos :
  parse_linea_eti nombre fila linea = extraer (campos_eti nombre fila linea) [].
Proof. unfold parse_linea_eti, campos_eti. tabla. Qed.

Lemma parse_linea_emp_campos :
  parse_linea_emp dic cif_is_valid nombre fila linea
  = extraer (campos_emp dic cif_is_valid nombre fila linea) [].
Proof. unfold parse_linea_emp, campos_emp. tabla. Qed.

Lemma parse_linea_rzs_campos :
  parse_linea_rzs dic nombre fila linea
  = extraer (campos_rzs dic nombre fila linea) [].
Proof. unfold parse_linea_rzs, campos_rzs. tabla. Qed.

Lemma parse_linea_tra_campos :
  parse_linea_tra dic cif_is_valid nombre fila linea
  = extraer (campos_tra dic cif_is_valid nombre fila linea) [].
Proof. unfold parse_linea_tra, campos_tra. tabla. Qed.

Lemma parse_linea_ayn_campos :
  parse_linea_ayn nombre fila linea = extraer (campos_ayn nombre fila linea) [].
Proof. unfold parse_linea_ayn, campos_ayn. tabla. Qed.

Lemma parse_linea_dom_campos :
  parse_linea_dom dic nombre fila linea
  = extraer (campos_dom dic nombre fila linea) [].
Proof. unfold parse_linea_dom, campos_dom. tabla. Qed.

Lemma parse_linea_ldd_campos :
  parse_linea_ldd fila linea = extraer (campos_ldd linea) [].
Proof. reflexivity. Qed.

Lemma parse_linea_fab_campos :
  parse_linea_fab fila linea = extraer (campos_fab linea) [].
Proof. reflexivity. Qed.

Lemma parse_linea_dam_campos :
  parse_linea_dam fila linea = extraer (campos_dam linea) [].
Proof. reflexivity. Qed.

Lemma parse_linea_odl_campos :
  parse_linea_odl nombre fila linea = extraer (campos_odl nombre fila linea) [].
Proof. unfold parse_linea_odl, campos_odl. tabla. Qed.

End ParsersCampos.

(** *** The loop of [parse_linea_pes] *)

Lemma claves_nuevas_ok_pes :
  claves_nuevas (map clave_pes (seq 0 33)) ["cabecera"] = true.
Proof. vm_compute. reflexivity. Qed.

Section BuclePes.

Variable dic : Diccionarios.
Variable nombre : string.
Variable fila : nat.
Variable linea : string.

(** As long as the keys the loop assigns are new, each assignment
    [resultado[key] = ...] appends a field. *)
Lemma pes_bucle_extraer (rango : list nat) (r : registro) :
  claves_nuevas (map clave_pes rango) (dict_keys r) = true ->
  pes_bucle dic nombre fila linea rango r
  = extraer (map (campo_pes dic nombre fila linea) rango) r.
Proof.
  revert r. induction rango as [|i rango IH]; intros r; simpl; [reflexivity|].
  intros H. apply andb_prop in H as [Hk Hr].
  apply negb_true_iff in Hk.
  fold (clave_pes i).
  destruct (validar_diccionario _ _ _ _ _ _ _) as [v|e]; simpl; [|reflexivity].
  rewrite (dict_set_nueva _ _ _ Hk). apply IH.
  now rewrite dict_keys_app.
Qed.

Lemma parse_linea_pes_campos :
  parse_linea_pes dic nombre fila linea
  = extraer (campos_pes dic nombre fila linea) [].
Proof.
  unfold parse_linea_pes, campos_pes. cbn [extraer fijo bind app].
  apply pes_bucle_extraer. exact claves_nuevas_ok_pes.
Qed.

End BuclePes.

(** ** Dispatch on the header *)

Section Despacho.

Variable dic : Diccionarios.
Variable cif_is_valid : string -> bool.
Variable nombre : string.
Variable fila : nat.
Variable linea : string.

(** A header that [self.parsers] knows is one of the eleven codes. *)
Lemma parsers_cabeceras (cabecera : string) :
  dict_in cabecera (parsers dic cif_is_valid nombre) = en_lista cabecera cabeceras.
Proof. apply dict_get_en_lista. Qed.

(** [parse_linea] is: look the header up, run the table of that header. *)
Lemma parse_linea_esquema :
  parse_linea dic cif_is_valid nombre fila linea
  = match dict_get (slice 0 3 linea)
            (esquemas dic cif_is_valid nombre fila linea) with
    | None => Raise (error_cabecera nombre fila (slice 0 3 linea))
    | Some campos => extraer campos []
    end.
Proof.
  unfold parse_linea, parsers, esquemas. cbn [dict_get].
  repeat match goal with
         | |- context [String.eqb (slice 0 3 linea) ?c] =>
             destruct (String.eqb (slice 0 3 linea) c)
         end;
    first [ reflexivity
          | apply parse_linea_eti_campos | apply parse_linea_emp_campos
          | apply parse_linea_rzs_campos | apply parse_linea_pes_campos
          | apply parse_linea_tra_campos | apply parse_linea_ayn_campos
          | apply parse_linea_dom_campos | apply parse_linea_odl_campos ].
Qed.

Lemma esquemas_cabeceras (cabecera : string) :
  dict_in cabecera (esquemas dic cif_is_valid nombre fila linea)
  = en_lista cabecera cabeceras.
Proof. apply dict_get_en_lista. Qed.

End Despacho.

(** ** The line parsers raise validation errors only *)

Ltac seguro_validador :=
  first [ apply seguro_validar_numeros
        | apply seguro_validar_letras
        | apply seguro_validar_obligatorio
        | apply seguro_validar_valores
        | apply seguro_validar_diccionario
        | apply seguro_validar_tipo_documento;
          eapply proj1, validar_diccionario_no_vacia; eassumption ].

Ltac seguro_parser :=
  repeat (apply seguro_bind; [seguro_validador | intros ? ?]);
  try exact I.

Section ParsersSeguros.

Variable dic : Diccionarios.
Variable cif_is_valid : string -> bool.
Variable nombre : string.
Variable fila : nat.
Variable linea : string.

Lemma seguro_parse_linea_eti : seguro (parse_linea_eti nombre fila linea).
Proof. unfold parse_linea_eti. seguro_parser. Qed.

Lemma seguro_parse_linea_emp :
  seguro (parse_linea_emp dic cif_is_valid nombre fila linea).
Proof. unfold parse_linea_emp. seguro_parser. Qed.

Lemma seguro_parse_linea_rzs : seguro (parse_linea_rzs dic nombre fila linea).
Proof. unfold parse_linea_rzs. seguro_parser. Qed.

Lemma seguro_pes_bucle rango r :
  seguro (pes_bucle dic nombre fila linea rango r).
Proof.
  revert r. induction rango as [|i rango IH]; intros r; simpl; [exact I|].
  apply seguro_bind; [seguro_validador|]. intros v _. apply IH.
Qed.

Lemma seguro_parse_linea_pes : seguro (parse_linea_pes dic nombre fila linea).
Proof. apply seguro_pes_bucle. Qed.

Lemma seguro_parse_linea_tra :
  seguro (parse_linea_tra dic cif_is_valid nombre fila linea).
Proof.
  unfold parse_linea_tra. seguro_parser.
  apply seguro_bind; [|intros ? ?; exact I].
  match goal with
  | H : validar_diccionario _ _ "ipf_tipo" _ _ _ _ = Ret ?t |- _ =>
      apply validar_diccionario_no_vacia in H as [Hv _];
      destruct t as [|c t']; [discriminate Hv|]
  end.
  cbn [primer_caracter]. destruct (Ascii.eqb c "1"); [exact I|seguro_validador].
Qed.

Lemma seguro_parse_linea_ayn : seguro (parse_linea_ayn nombre fila linea).
Proof. unfold parse_linea_ayn. seguro_parser. Qed.

Lemma seguro_parse_linea_dom : seguro (parse_linea_dom dic nombre fila linea).
Proof. unfold parse_linea_dom. seguro_parser. Qed.

Lemma seguro_parse_linea_odl : seguro (parse_linea_odl nombre fila linea).
Proof. unfold parse_linea_odl. seguro_parser. Qed.

(** Whatever the line, [parse_linea] returns a record or raises one of the
    two exceptions [parsear] catches: a [ValueError] for an unknown header,
    the [ValidacionError] of a validator otherwise. *)
Lemma parse_linea_excepciones e :
  parse_linea dic cif_is_valid nombre fila linea = Raise e ->
  (en_lista (slice 0 3 linea) cabeceras = false /\
   e = error_cabecera nombre fila (slice 0 3 linea))
  \/ (en_lista (slice 0 3 linea) cabeceras = true /\
      es_ValidacionError e = true).
Proof.
  rewrite <- (parsers_cabeceras dic cif_is_valid nombre).
  unfold parse_linea, dict_in.
  destruct (dict_get (slice 0 3 linea) (parsers dic cif_is_valid nombre))
    as [p|] eqn:Ep.
  - intros E. right. split; [reflexivity|].
    assert (S : seguro (p fila linea)); [|now rewrite E in S].
    clear E. revert Ep. unfold parsers. cbn [dict_get].
    repeat match goal with
           | |- context [String.eqb (slice 0 3 linea) ?c] =>
               destruct (String.eqb (slice 0 3 linea) c)
           end;
      intros Ep; try discriminate Ep; injection Ep as <-;
      first [ apply seguro_parse_linea_eti | apply seguro_parse_linea_emp
            | apply seguro_parse_linea_rzs | apply seguro_parse_linea_pes
            | apply seguro_parse_linea_tra | apply seguro_parse_linea_ayn
            | apply seguro_parse_linea_dom | apply seguro_parse_linea_odl
            | exact I ].
  - intros E. injection E as <-. now left.
Qed.

Lemma parse_linea_capturada e :
  parse_linea dic cif_is_valid nombre fila linea = Raise e -> capturada e = true.
Proof.
  intros E. apply parse_linea_excepciones in E as [[_ ->]|[_ H]].
  - reflexivity.
  - now apply validacion_capturada.
Qed.

End ParsersSeguros.

(** ** The parse pass *)

Lemma enumerar_app {A} (i : nat) (l1 l2 : list A) :
  enumerar i (l1 ++ l2)%list
  = (enumerar i l1 ++ enumerar (i + length l1) l2)%list.
Proof.
  revert i. induction l1 as [|x l1 IH]; intros i; simpl.
  - now rewrite Nat.add_0_r.
  - rewrite IH. now rewrite Nat.add_succ_r.
Qed.

Lemma enumerar_length {A} (i : nat) (l : list A) :
  length (enumerar i l) = length l.
Proof. revert i. induction l; intros i; simpl; [reflexivity|now rewrite IHl]. Qed.

Lemma acumular_nada self : acumular self [] [] = self.
Proof. destruct self. unfold acumular. simpl. now rewrite !app_nil_r. Qed.

Lemma acumular_acumular self rs es rs' es' :
  acumular (acumular self rs es) rs' es'
  = acumular self (rs ++ rs')%list (es ++ es')%list.
Proof. unfold acumular. simpl. now rewrite !app_assoc. Qed.

Lemma anotar_resultado_acumular self r : anotar_resultado self r = acumular self [r] [].
Proof. unfold anotar_resultado, acumular. now rewrite app_nil_r. Qed.

Lemma anotar_error_acumular self m : anotar_error self m = acumular self [] [m].
Proof. unfold anotar_error, acumular. now rewrite app_nil_r. Qed.

Section Pasada.

Variable dic : Diccionarios.
Variable cif_is_valid : string -> bool.

(** The loop never lets an exception out, and appends to the two lists of
    the session what each remaining line contributes, in line order. *)
Lemma parsear_desde_acumula (self : AfiArchivo) (fila : nat) (resto : list string) :
  parsear_desde dic cif_is_valid self fila resto
  = Ret (acumular self
           (registros_de dic cif_is_valid (nombre self) (enumerar fila resto))
           (errores_de dic cif_is_valid (nombre self) (enumerar fila resto))).
Proof.
  revert self fila. induction resto as [|linea resto IH]; intros self fila.
  - simpl. now rewrite acumular_nada.
  - cbn [parsear_desde enumerar registros_de errores_de flat_map].
    unfold registro_de at 1, error_de at 1, desenlace. cbn [fst snd].
    destruct (parse_linea dic cif_is_valid (nombre self) fila linea)
      as [r|e] eqn:E.
    + rewrite IH, anotar_resultado_acumular, acumular_acumular. reflexivity.
    + rewrite (parse_linea_capturada _ _ _ _ _ _ E).
      rewrite IH, anotar_error_acumular, acumular_acumular. reflexivity.
Qed.

Lemma parsear_acumula (self : AfiArchivo) :
  parsear dic cif_is_valid self
  = Ret (acumular self
           (registros_de dic cif_is_valid (nombre self) (enumerar 1 (lineas self)))
           (errores_de dic cif_is_valid (nombre self) (enumerar 1 (lineas self)))).
Proof. apply parsear_desde_acumula. Qed.

Lemma registros_de_app nombre ps qs :
  registros_de dic cif_is_valid nombre (ps ++ qs)%list
  = (registros_de dic cif_is_valid nombre ps
     ++ registros_de dic cif_is_valid nombre qs)%list.
Proof. apply flat_map_app. Qed.

Lemma errores_de_app nombre ps qs :
  errores_de dic cif_is_valid nombre (ps ++ qs)%list
  = (errores_de dic cif_is_valid nombre ps
     ++ errores_de dic cif_is_valid nombre qs)%list.
Proof. apply flat_map_app. Qed.

Lemma registros_de_length nombre ps :
  length (registros_de dic cif_is_valid nombre ps)
  = length (filter (es_valida dic cif_is_valid nombre) ps).
Proof.
  induction ps as [|p ps IH]; simpl; [reflexivity|].
  rewrite length_app, IH. unfold registro_de, es_valida.
  now destruct (desenlace dic cif_is_valid nombre p).
Qed.

Lemma errores_de_length nombre ps :
  length (errores_de dic cif_is_valid nombre ps)
  = length (filter (fun p => negb (es_valida dic cif_is_valid nombre p)) ps).
Proof.
  induction ps as [|p ps IH]; simpl; [reflexivity|].
  rewrite length_app, IH. unfold error_de, es_valida.
  now destruct (desenlace dic cif_is_valid nombre p).
Qed.

Lemma registros_errores_length nombre ps :
  length (registros_de dic cif_is_valid nombre ps)
  + length (errores_de dic cif_is_valid nombre ps) = length ps.
Proof.
  induction ps as [|p ps IH]; simpl; [reflexivity|].
  rewrite !length_app. unfold registro_de, error_de.
  destruct (desenlace dic cif_is_valid nombre p); simpl; lia.
Qed.

End Pasada.

(** *** What the three patterns match *)

Lemma todos_app p s t : todos p (s ++ t) = todos p s && todos p t.
Proof.
  induction s as [|c s IH]; simpl; [reflexivity|].
  now rewrite IH, andb_assoc.
Qed.

Lemma obligatorios_spec cl n k s :
  obligatorios cl n k s = true <->
  exists pre post,
    s = pre ++ post /\ String.length pre = n /\
    todos (en_clase cl) pre = true /\ k post = true.
Proof.
  revert s. induction n as [|n IH]; intros s; simpl.
  - split.
    + intros H. now exists "", s.
    + intros (pre & post & -> & Hl & _ & Hk).
      destruct pre; [exact Hk|discriminate].
  - destruct s as [|c r].
    + split; [discriminate|].
      intros (pre & post & E & Hl & _). destruct pre; discriminate.
    + rewrite andb_true_iff, IH. split.
      * intros (Hc & pre & post & -> & Hl & Ht & Hk).
        exists (String c pre), post. simpl. rewrite Hc, Ht, Hl. now repeat split.
      * intros (pre & post & E & Hl & Ht & Hk).
        destruct pre as [|c' pre]; [discriminate|].
        simpl in E, Hl, Ht. injection E as <- ->. injection Hl as Hl.
        apply andb_true_iff in Ht as [Hc Ht].
        split; [exact Hc|]. now exists pre, post.
Qed.

Lemma opcionales_cero cl n k s : k s = true -> opcionales cl n k s = true.
Proof.
  intros H. destruct n; simpl; [exact H|].
  destruct s; [exact H|]. destruct (en_clase cl a); [|exact H].
  rewrite H. apply orb_true_r.
Qed.

Lemma opcionales_spec cl n k s :
  opcionales cl n k s = true <->
  exists pre post,
    s = pre ++ post /\ String.length pre <= n /\
    todos (en_clase cl) pre = true /\ k post = true.
Proof.
  revert s. induction n as [|n IH]; intros s.
  - simpl. split.
    + intros H. exists "", s. repeat split; [simpl; lia|exact H].
    + intros (pre & post & -> & Hl & _ & Hk).
      destruct pre; [exact Hk|simpl in Hl; lia].
  - split.
    + intros H. simpl in H. destruct s as [|c r].
      * exists "", "". repeat split; [simpl; lia|exact H].
      * destruct (en_clase cl c) eqn:Hc.
        -- apply orb_true_iff in H as [H|H].
           ++ apply IH in H as (pre & post & -> & Hl & Ht & Hk).
              exists (String c pre), post. simpl. rewrite Hc, Ht.
              repeat split; [lia|exact Hk].
           ++ exists "", (String c r). repeat split; [simpl; lia|exact H].
        -- exists "", (String c r). repeat split; [simpl; lia|exact H].
    + intros (pre & post & -> & Hl & Ht & Hk).
      destruct pre as [|c pre].
      * now apply opcionales_cero.
      * simpl in *. apply andb_true_iff in Ht as [Hc Ht]. rewrite Hc.
        apply orb_true_iff. left. apply IH. exists pre, post.
        repeat split; [lia|exact Ht|exact Hk].
Qed.

Lemma fin_patron_spec s : fin_patron s = true <-> s = "" \/ s = nueva_linea.
Proof.
  unfold fin_patron. rewrite orb_true_iff, !String.eqb_eq. reflexivity.
Qed.

(** [^[0-9]{8}[A-Z]$]: eight ASCII digits and one ASCII capital, then the
    end of the string or a last newline. *)
Lemma regex_dni_spec s :
  re_match regex_dni s = true <->
  exists digitos letra fin,
    s = digitos ++ letra ++ fin /\
    String.length digitos = 8 /\ todos (en_clase cl_digitos) digitos = true /\
    String.length letra = 1 /\ todos (en_clase cl_mayusculas) letra = true /\
    (fin = "" \/ fin = nueva_linea).
Proof.
  unfold re_match, regex_dni. cbn [patron_match a_clase a_min a_max Nat.sub].
  rewrite obligatorios_spec. cbn [opcionales]. split.
  - intros (d & post & -> & Hd & Hdt & H).
    apply obligatorios_spec in H as (l & fin & -> & Hl & Hlt & H).
    cbn [opcionales] in H. apply fin_patron_spec in H.
    now exists d, l, fin.
  - intros (d & l & fin & -> & Hd & Hdt & Hl & Hlt & H).
    exists d, (l ++ fin). repeat split; try assumption.
    apply obligatorios_spec. exists l, fin. repeat split; try assumption.
    cbn [opcionales]. now apply fin_patron_spec.
Qed.

(** [^[XYZ][0-9]{7}[A-Z]$]. *)
Lemma regex_nie_spec s :
  re_match regex_nie s = true <->
  exists inicial digitos letra fin,
    s = inicial ++ digitos ++ letra ++ fin /\
    String.length inicial = 1 /\ todos (en_clase cl_xyz) inicial = true /\
    String.length digitos = 7 /\ todos (en_clase cl_digitos) digitos = true /\
    String.length letra = 1 /\ todos (en_clase cl_mayusculas) letra = true /\
    (fin = "" \/ fin = nueva_linea).
Proof.
  unfold re_match, regex_nie. cbn [patron_match a_clase a_min a_max Nat.sub].
  rewrite obligatorios_spec. cbn [opcionales]. split.
  - intros (i & post & -> & Hi & Hit & H).
    apply obligatorios_spec in H as (d & post' & -> & Hd & Hdt & H).
    cbn [opcionales] in H.
    apply obligatorios_spec in H as (l & fin & -> & Hl & Hlt & H).
    cbn [opcionales] in H. apply fin_patron_spec in H.
    now exists i, d, l, fin.
  - intros (i & d & l & fin & -> & Hi & Hit & Hd & Hdt & Hl & Hlt & H).
    exists i, (d ++ l ++ fin). repeat split; try assumption.
    apply obligatorios_spec. exists d, (l ++ fin). repeat split; try assumption.
    cbn [opcionales].
    apply obligatorios_spec. exists l, fin. repeat split; try assumption.
    cbn [opcionales]. now apply fin_patron_spec.
Qed.

(** [^[A-Z0-9]{6,9}$]: six to nine ASCII capitals or digits. *)
Lemma regex_pasaporte_spec s :
  re_match regex_pasaporte s = true <->
  exists cuerpo fin,
    s = cuerpo ++ fin /\
    6 <= String.length cuerpo <= 9 /\
    todos (en_clase cl_mayusculas_digitos) cuerpo = true /\
    (fin = "" \/ fin = nueva_linea).
Proof.
  unfold re_match, regex_pasaporte.
  cbn [patron_match a_clase a_min a_max]. change (9 - 6) with 3.
  rewrite obligatorios_spec. split.
  - intros (p & post & -> & Hp & Hpt & H).
    apply opcionales_spec in H as (q & fin & -> & Hq & Hqt & H).
    apply fin_patron_spec in H.
    exists (p ++ q), fin. rewrite cadena_length_app, todos_app, Hpt, Hqt.
    repeat split; try lia; try assumption.
    symmetry. apply cadena_app_assoc.
  - intros (cu & fin & -> & [Hlo Hhi] & Ht & H).
    destruct (cadena_partir 6 cu Hlo) as (p & q & -> & Hp).
    rewrite cadena_length_app in Hhi.
    rewrite todos_app in Ht. apply andb_true_iff in Ht as [Htp Htq].
    exists p, (q ++ fin). repeat split; try assumption.
    + apply cadena_app_assoc.
    + apply opcionales_spec. exists q, fin.
      repeat split; [lia|exact Htq|now apply fin_patron_spec].
Qed.

(** ** The length gate and the loop over the files *)

Lemma validar_longitudes_desde_ok nombre idx lineas longitud :
  longitudes_correctas lineas longitud = true ->
  validar_longitudes_desde nombre idx lineas longitud = Ret tt.
Proof.
  revert idx. induction lineas as [|l lineas IH]; intros idx; simpl.
  - reflexivity.
  - intros H. apply andb_prop in H as [Hl Hr]. rewrite Hl. simpl. now apply IH.
Qed.

(** The length loop either finds every line right, or stops at the first
    line that is not, with the error of that line. *)
Lemma validar_longitudes_desde_casos nombre idx lineas longitud :
  (longitudes_correctas lineas longitud = true /\
   validar_longitudes_desde nombre idx lineas longitud = Ret tt)
  \/
  (exists antes linea despues,
      lineas = (antes ++ linea :: despues)%list /\
      longitudes_correctas antes longitud = true /\
      String.length linea <> longitud /\
      validar_longitudes_desde nombre idx lineas longitud
      = Raise (error_longitud nombre (idx + length antes)
                 (String.length linea) longitud)).
Proof.
  revert idx. induction lineas as [|l lineas IH]; intros idx.
  - left. now split.
  - simpl. destruct (Nat.eqb (String.length l) longitud) eqn:El; simpl.
    + destruct (IH (S idx)) as [[Hok Hv]|(antes & linea & despues & -> & Ha & Hl & Hv)].
      * left. now split.
      * right. exists (l :: antes), linea, despues. simpl. rewrite El, Ha.
        repeat split; try assumption.
        rewrite Hv. now rewrite Nat.add_succ_r.
    + right. exists [], l, lineas. simpl. rewrite Nat.add_0_r.
      apply Nat.eqb_neq in El. now repeat split.
Qed.

Lemma dict_get_set_igual {V} k (v : V) d : dict_get k (dict_set k v d) = Some v.
Proof.
  induction d as [|[k' v'] d IH]; simpl.
  - now rewrite String.eqb_refl.
  - destruct (String.eqb k k') eqn:E; simpl.
    + now rewrite String.eqb_refl.
    + now rewrite E.
Qed.

Lemma dict_get_set_otra {V} k k' (v : V) d :
  k' <> k -> dict_get k' (dict_set k v d) = dict_get k' d.
Proof.
  intros Hk. induction d as [|[k0 v0] d IH]; simpl.
  - apply String.eqb_neq in Hk. now rewrite Hk.
  - destruct (String.eqb k k0) eqn:E; simpl.
    + apply String.eqb_eq in E. subst k0.
      apply String.eqb_neq in Hk. now rewrite Hk.
    + now rewrite IH.
Qed.

Section Lote.

Variable dic : Diccionarios.
Variable cif_is_valid : string -> bool.

(** One file: the loop body never raises; it sets the entries of the file
    and leaves those of every other file as they were. *)
Lemma main_archivo_entradas inf archivo ls :
  exists inf',
    main_archivo dic cif_is_valid inf archivo ls = Ret inf' /\
    (forall otro, otro <> archivo -> entradas inf' otro = entradas inf otro) /\
    (entradas inf archivo = (None, None, None) ->
     entradas inf' archivo = entradas_esperadas dic cif_is_valid archivo ls).
Proof.
  unfold main_archivo, entradas_esperadas, validar_longitud, validar_longitudes.
  cbn [nombre lineas nuevo].
  destruct (validar_longitudes_desde_casos archivo 1 ls longitud_por_defecto)
    as [[Hok Hv]|(antes & l & despues & _ & _ & _ & Hv)]; rewrite Hv.
  - rewrite parsear_acumula. cbn [bind acumular nuevo nombre lineas resultados errores_parseo app].
    eexists. split; [reflexivity|]. split.
    + intros otro Ho. unfold entradas. cbn.
      rewrite (dict_get_set_otra _ _ _ _ Ho).
      destruct (lista_no_vacia _); [now rewrite (dict_get_set_otra _ _ _ _ Ho)|reflexivity].
    + unfold entradas. cbn. intros E. injection E as El Ep Er.
      rewrite dict_get_set_igual, El.
      destruct (lista_no_vacia _); [now rewrite dict_get_set_igual|now rewrite Ep].
  - cbn [es_LongitudLineaError error_longitud].
    eexists. split; [reflexivity|]. split.
    + intros otro Ho. unfold entradas. cbn.
      now rewrite (dict_get_set_otra _ _ _ _ Ho).
    + unfold entradas. cbn. intros E. injection E as El Ep Er.
      now rewrite dict_get_set_igual, Ep, Er.
Qed.

(** The whole loop, on files with distinct names. *)
Lemma main_bucle_entradas afi_data :
  NoDup (dict_keys afi_data) ->
  forall inf,
    (forall archivo, In archivo (dict_keys afi_data) ->
                     entradas inf archivo = (None, None, None)) ->
    exists inf',
      main_bucle dic cif_is_valid inf afi_data = Ret inf' /\
      (forall otro, ~ In otro (dict_keys afi_data) ->
                    entradas inf' otro = entradas inf otro) /\
      (forall archivo lineas, In (archivo, lineas) afi_data ->
         entradas inf' archivo
         = entradas_esperadas dic cif_is_valid archivo lineas).
Proof.
  induction afi_data as [|[a ls] afi_data IH]; intros Hnd inf Hinf.
  - exists inf. split; [reflexivity|]. split; [reflexivity|]. intros ? ? [].
  - cbn [main_bucle]. simpl in Hnd. inversion Hnd as [|? ? Hnotin Hnd']; subst.
    destruct (main_archivo_entradas inf a ls) as (inf1 & E1 & Hotros & Hesta).
    rewrite E1. cbn [bind].
    destruct (IH Hnd' inf1) as (inf' & E' & Hfuera & Hdentro).
    { intros archivo Hin. rewrite Hotros.
      - apply Hinf. now right.
      - intros ->. contradiction. }
    exists inf'. split; [exact E'|]. split.
    + intros otro Hno. simpl in Hno.
      rewrite Hfuera; [|tauto]. apply Hotros. intros ->. tauto.
    + intros archivo lineas [Heq|Hin].
      * injection Heq as <- <-. rewrite Hfuera; [|exact Hnotin].
        apply Hesta. apply Hinf. now left.
      * now apply Hdentro.
Qed.

End Lote.

(* ================================================================== *)
(** * The claims *)

(** ** First failure and all-or-nothing records *)

(** C1.  A line processed by the parse pass has one of two outcomes, whatever
    the line and the state of the session.  Either every field of the table
    of its header was extracted: the parser returns a record whose keys are
    the field names of that table, in order, and the pass appends this record
    to [resultados] and nothing to [errores_parseo].  Or the line failed: the
    pass appends nothing to [resultados] and exactly the one string
    ["Fila N: " ++ message] to [errores_parseo], where the message is that
    of an unknown header, or that of the first field of the table whose
    validator raised; all fields before it were extracted, and the fields
    after it play no part (any other tail of the table gives the same
    exception). *)
Theorem primer_fallo_por_linea :
  forall (dic : Diccionarios) (cif_is_valid : string -> bool)
         (self : AfiArchivo) (fila : nat) (linea : string)
         (resto : list string),
    (exists r campos,
        parse_linea dic cif_is_valid (nombre self) fila linea = Ret r /\
        dict_get (slice 0 3 linea)
          (esquemas dic cif_is_valid (nombre self) fila linea) = Some campos /\
        dict_keys r = nombres_campos campos /\
        parsear_desde dic cif_is_valid self fila (linea :: resto)
        = parsear_desde dic cif_is_valid (acumular self [r] []) (S fila) resto)
    \/
    (exists e,
        parse_linea dic cif_is_valid (nombre self) fila linea = Raise e /\
        parsear_desde dic cif_is_valid self fila (linea :: resto)
        = parsear_desde dic cif_is_valid
            (acumular self [] ["Fila " ++ str_int fila ++ ": " ++ str_exc e])
            (S fila) resto /\
        ((en_lista (slice 0 3 linea) cabeceras = false /\
          e = error_cabecera (nombre self) fila (slice 0 3 linea))
         \/
         (exists campos pre k f post r',
             dict_get (slice 0 3 linea)
               (esquemas dic cif_is_valid (nombre self) fila linea)
             = Some campos /\
             campos = (pre ++ (k, f) :: post)%list /\
             extraer pre [] = Ret r' /\
             dict_keys r' = nombres_campos pre /\
             f r' = Raise e /\
             es_ValidacionError e = true /\
             forall post', extraer (pre ++ (k, f) :: post')%list [] = Raise e))).
Proof.
  intros dic cif self fila linea resto.
  cbn [parsear_desde].
  pose proof (parse_linea_esquema dic cif (nombre self) fila linea) as Hesq.
  destruct (parse_linea dic cif (nombre self) fila linea) as [r|e] eqn:E.
  - left.
    destruct (dict_get (slice 0 3 linea)
                (esquemas dic cif (nombre self) fila linea))
      as [campos|] eqn:Ec; [|discriminate Hesq].
    exists r, campos. repeat split.
    + symmetry in Hesq. now apply extraer_nombres in Hesq.
    + now rewrite anotar_resultado_acumular.
  - right. exists e. split; [reflexivity|]. split.
    + rewrite (parse_linea_capturada _ _ _ _ _ _ E).
      now rewrite anotar_error_acumular.
    + destruct (parse_linea_excepciones _ _ _ _ _ _ E) as [[Hc ->]|[Hc Hv]].
      * now left.
      * right.
        destruct (dict_get (slice 0 3 linea)
                    (esquemas dic cif (nombre self) fila linea))
          as [campos|] eqn:Ec.
        -- symmetry in Hesq.
           destruct (extraer_primer_fallo _ _ _ Hesq)
             as (pre & k & f & post & r' & -> & Hp & Hk & Hf).
           exists (pre ++ (k, f) :: post)%list, pre, k, f, post, r'.
           repeat split; try assumption.
           intros post'.
           now destruct (extraer_aborta pre post post' k f [] r' e Hp Hf).
        -- exfalso.
           pose proof (esquemas_cabeceras dic cif (nombre self) fila linea
                         (slice 0 3 linea)) as Hd.
           unfold dict_in in Hd. rewrite Ec in Hd. congruence.
Qed.

(** The field names of the eleven tables do not depend on the line: the
    number of fields of each record kind, and the names of the PES record,
    [cabecera] followed by [peculiaridad_1] ... [peculiaridad_33]. *)
Example campos_por_cabecera :
  forall (dic : Diccionarios) (cif_is_valid : string -> bool)
         (nombre : string) (fila : nat) (linea : string),
    map (fun e => (fst e, length (nombres_campos (snd e))))
      (esquemas dic cif_is_valid nombre fila linea)
    = [ ("ETI", 20); ("EMP", 14); ("RZS", 6); ("PES", 34); ("TRA", 11);
        ("AYN", 5); ("DOM", 12); ("LDD", 7); ("FAB", 31); ("DAM", 23);
        ("ODL", 12) ]
    /\ nombres_campos (campos_pes dic nombre fila linea)
       = "cabecera"
         :: map (fun i => "peculiaridad_" ++ str_int i) (seq 1 33).
Proof. intros. split; vm_compute; reflexivity. Qed.

(** A valid ETI line yields its twenty fields; with a priority that is not
    [N] the same line yields no record at all, only the error of that
    field, although seven fields follow it. *)
Example eti_todo_o_nada :
  (exists r,
      parse_linea dic_ejemplo cif_ejemplo "a.afi" 1 linea_eti = Ret r /\
      dict_keys r
      = nombres_campos (campos_eti "a.afi" 1 linea_eti) /\
      length r = 20)
  /\
  (exists s,
      parsear dic_ejemplo cif_ejemplo (nuevo "a.afi" [linea_eti_prioridad])
      = Ret s /\
      resultados s = [] /\
      map (substring 0 7) (errores_parseo s) = ["Fila 1:"] /\
      length (errores_parseo s) = 1).
Proof.
  split.
  - eexists. repeat split; vm_compute; reflexivity.
  - eexists. repeat split; vm_compute; reflexivity.
Qed.

(** ** What a field error reports *)

(** C2.  Two field errors that do not name the field that failed.  In the
    ETI line the priority, columns 52-53, is [X]: the error reports position
    50 (column 49, the start of the extension field) instead of position 53.
    In the EMP line the account number, field [seguridad_social_numero],
    columns 9-18, is blank: the error names the section [id_programa] at
    position 9 instead of [seguridad_social_numero] at position 10. *)
Theorem errores_con_campo_equivocado :
  (slice 52 53 linea_eti_prioridad = "X" /\
   forall dic cif_is_valid,
     parse_linea dic cif_is_valid "a.afi" 7 linea_eti_prioridad
     = Raise (ValidacionError
                ("Error en archivo 'a.afi', fila 7, secci" ++ chr 243
                 ++ "n 'prioridad' (pos 50): 'X' no coincide con ninguno de "
                 ++ "los siguientes valores: '['N']'.")))
  /\
  (slice 9 18 linea_emp_sin_numero = "         " /\
   forall cif_is_valid,
     parse_linea dic_ejemplo cif_is_valid "a.afi" 2 linea_emp_sin_numero
     = Raise (ValidacionError
                ("Error en archivo 'a.afi', fila 2, secci" ++ chr 243
                 ++ "n 'id_programa' (pos 9): '         ' no puede estar vac"
                 ++ chr 237 ++ "o."))).
Proof.
  split; split; try reflexivity; intros; vm_compute; reflexivity.
Qed.

(** The same slip in the name: the authorisation key of an ETI line,
    field [clave_autorizacion], is reported as section [version_mensaje]. *)
Lemma error_clave_autorizacion_como_version_mensaje :
  forall dic cif_is_valid,
    parse_linea dic cif_is_valid "a.afi" 1 linea_eti_clave
    = Raise (ValidacionError
               ("Error en archivo 'a.afi', fila 1, secci" ++ chr 243
                ++ "n 'version_mensaje' (pos 14): 'ABCDEFGH' no es un n"
                ++ chr 250 ++ "mero v" ++ chr 225 ++ "lido.")).
Proof. intros. vm_compute. reflexivity. Qed.

(** ** The dictionary lookup *)

(** C3.  [validar_diccionario] with section [s], dictionary [d] and flag
    [nullable].  When [nullable] holds and [s] is [None] or strips to the
    empty string, [s] comes back unchanged.  Otherwise, when [s] strips to
    the empty string or is not a key of [d], the call raises a
    [ValidacionError] whose message quotes [s] and ends with the list of the
    keys of [d].  Otherwise it returns [s ++ "('" ++ d[s] ++ "')"]. *)
Theorem validar_diccionario_casos :
  forall (archivo nombre_seccion : string) (fila columna : nat)
         (d : dict string) (nullable : bool),
    validar_diccionario_opt archivo None nombre_seccion fila columna d true
    = Ret None
    /\
    forall s : string,
      validar_diccionario_opt archivo (Some s) nombre_seccion fila columna d
        nullable
      = if nullable && String.eqb (strip s) ""
        then Ret (Some s)
        else if String.eqb (strip s) "" || negb (dict_in s d)
             then Raise (ValidacionError
                           ("Error en archivo '" ++ archivo ++ "', fila "
                            ++ str_int fila ++ ", secci" ++ chr 243 ++ "n '"
                            ++ nombre_seccion ++ "' (pos "
                            ++ str_int (columna + 1) ++ "): '" ++ s
                            ++ "' no coincide con ninguno de los siguientes "
                            ++ "valores: " ++ repr_lista (dict_keys d)))
             else Ret (Some (s ++ "('" ++ valor d s ++ "')")).
Proof.
  intros archivo nombre_seccion fila columna d nullable. split; [reflexivity|].
  intros s. unfold validar_diccionario_opt, validar_diccionario.
  destruct (nullable && String.eqb (strip s) ""); [reflexivity|].
  destruct (String.eqb (strip s) ""); cbn [orb]; [reflexivity|].
  unfold dict_in, valor.
  destruct (dict_get s d) as [etiqueta|]; reflexivity.
Qed.

(** The three cases on a province table: a known code, an unknown code and
    a blank optional field. *)
Example validar_diccionario_provincia :
  validar_diccionario "a.afi" "28" "provincia" 4 7 (PROVINCIAS dic_ejemplo) false
  = Ret "28('MADRID')"
  /\ validar_diccionario "a.afi" "99" "provincia" 4 7 (PROVINCIAS dic_ejemplo)
       false
     = Raise (ValidacionError
                ("Error en archivo 'a.afi', fila 4, secci" ++ chr 243
                 ++ "n 'provincia' (pos 8): '99' no coincide con ninguno de "
                 ++ "los siguientes valores: ['08', '28']"))
  /\ validar_diccionario "a.afi" "  " "provincia" 4 7 (PROVINCIAS dic_ejemplo)
       true
     = Ret "  ".
Proof. repeat split; vm_compute; reflexivity. Qed.

(** On a [str] section, what the callers get is the [Some] case of C3. *)
Lemma validar_diccionario_opt_Some a s n f c d nl :
  validar_diccionario_opt a (Some s) n f c d nl
  = (v <- validar_diccionario a s n f c d nl ;; Ret (Some v)).
Proof. reflexivity. Qed.

(** A [None] section that is not nullable is not a validation error: the
    call of [strip] on it raises. *)
Lemma validar_diccionario_opt_None_no_nullable a n f c d :
  validar_diccionario_opt a None n f c d false = Raise AttributeError.
Proof. reflexivity. Qed.

(** ** The document format *)

(** C4.  [validar_tipo_documento] with section [s] and a type whose first
    character is [c]: with [s'] the section without its leading zeros, the
    call returns [s'] when the rule of [c] accepts [s'] (the pattern of the
    DNI for ["1"], of the NIE for ["6"], of the passport for ["2"], the CIF
    predicate for ["9"], no check for any other [c]) and raises a
    [ValidacionError] otherwise.  ["00012345678Z"] with a type that starts
    with ["1"] is accepted as ["12345678Z"]. *)
Theorem validar_tipo_documento_casos :
  forall (cif_is_valid : string -> bool) (archivo s nombre_seccion : string)
         (fila columna : nat) (c : ascii) (resto_tipo : string),
    validar_tipo_documento cif_is_valid archivo s nombre_seccion fila columna
      (String c resto_tipo)
    = (if documento_aceptado cif_is_valid c (lstrip_ceros s)
       then Ret (lstrip_ceros s)
       else Raise (error_campo archivo fila nombre_seccion columna
                     (lstrip_ceros s) (causa_documento (nombre_documento c))))
    /\ documento_aceptado cif_is_valid "1" (lstrip_ceros "00012345678Z") = true
    /\ validar_tipo_documento cif_is_valid archivo "00012345678Z"
         nombre_seccion fila columna (String "1" resto_tipo)
       = Ret "12345678Z".
Proof.
  intros cif archivo s nombre_seccion fila columna c resto_tipo.
  split; [|split; reflexivity].
  unfold validar_tipo_documento, documento_aceptado, nombre_documento.
  cbn [primer_caracter].
  destruct (Ascii.eqb c "1") eqn:E1.
  { now destruct (re_match regex_dni _). }
  destruct (Ascii.eqb c "2") eqn:E2.
  { apply Ascii.eqb_eq in E2. subst c.
    destruct (re_match regex_pasaporte (lstrip_ceros s)); reflexivity. }
  destruct (Ascii.eqb c "6") eqn:E6.
  { now destruct (re_match regex_nie _). }
  destruct (Ascii.eqb c "9") eqn:E9.
  { now destruct (cif _). }
  reflexivity.
Qed.

(** A type without a first character is no validation error: [tipo[0]]
    raises. *)
Lemma validar_tipo_documento_tipo_vacio cif a s n f c :
  validar_tipo_documento cif a s n f c "" = Raise IndexError.
Proof. reflexivity. Qed.

(** C5.  The length validation of a file, for any expected length: either
    every line has that length and the validation returns, or it raises one
    [LongitudLineaError], that of the first line whose length differs, with
    the file name, the 1-based number of that line, its length and the
    expected length.  And in [main], over files with distinct names and the
    default length 70: the loop never raises; a file that fails the length
    validation gets that one error as its entry in [errores_longitud] and no
    entry in [resultados] nor in [errores_parseo]; every other file of the
    batch gets the records and the errors of its own parse pass. *)
Theorem longitud_antes_de_parsear :
  forall (dic : Diccionarios) (cif_is_valid : string -> bool),
    (forall (archivo : string) (lineas : list string) (longitud : nat),
        (longitudes_correctas lineas longitud = true /\
         validar_longitudes archivo lineas longitud = Ret tt)
        \/
        (exists antes linea despues,
            lineas = (antes ++ linea :: despues)%list /\
            longitudes_correctas antes longitud = true /\
            String.length linea <> longitud /\
            validar_longitudes archivo lineas longitud
            = Raise (LongitudLineaError
                       (archivo ++ ", l" ++ chr 237 ++ "nea "
                        ++ str_int (length antes + 1) ++ ": longitud "
                        ++ str_int (String.length linea) ++ " != "
                        ++ str_int longitud))))
    /\
    (forall afi_data : dict (list string),
        NoDup (dict_keys afi_data) ->
        exists inf,
          main dic cif_is_valid afi_data = Ret inf /\
          Forall
            (fun f =>
               match validar_longitudes (fst f) (snd f) 70 with
               | Raise e =>
                   entradas inf (fst f) = (Some [str_exc e], None, None)
               | Ret _ =>
                   let rs := registros_de dic cif_is_valid (fst f)
                               (enumerar 1 (snd f)) in
                   let es := errores_de dic cif_is_valid (fst f)
                               (enumerar 1 (snd f)) in
                   entradas inf (fst f)
                   = (None, if lista_no_vacia es then Some es else None,
                      Some rs)
               end)
            afi_data).
Proof.
  intros dic cif. split.
  - intros archivo lineas longitud. unfold validar_longitudes.
    destruct (validar_longitudes_desde_casos archivo 1 lineas longitud)
      as [H|(antes & linea & despues & H1 & H2 & H3 & H4)].
    + now left.
    + right. exists antes, linea, despues. repeat split; try assumption.
      rewrite H4. unfold error_longitud.
      now rewrite (Nat.add_comm 1 (length antes)).
  - intros afi_data Hnd.
    destruct (main_bucle_entradas dic cif afi_data Hnd informe_vacio)
      as (inf & E & _ & H).
    { reflexivity. }
    exists inf. split; [exact E|].
    apply Forall_forall. intros [archivo lineas] Hin.
    specialize (H archivo lineas Hin). cbn [fst snd].
    unfold entradas_esperadas, longitud_por_defecto in H.
    destruct (validar_longitudes archivo lineas 70); exact H.
Qed.

Lemma NoDup_lote_ejemplo : NoDup (dict_keys lote_ejemplo).
Proof.
  unfold lote_ejemplo. cbn [dict_keys map fst].
  repeat constructor; cbn [In]; intros H;
    repeat (destruct H as [H|H]; [discriminate H|]); exact H.
Defined.

(** The statement of C5 on a batch of three files, the second of which has
    a short second line. *)
Lemma longitud_antes_de_parsear_ejemplo :
  NoDup (dict_keys lote_ejemplo) /\
  exists inf,
    main dic_ejemplo cif_ejemplo lote_ejemplo = Ret inf /\
    Forall
      (fun f =>
         match validar_longitudes (fst f) (snd f) 70 with
         | Raise e => entradas inf (fst f) = (Some [str_exc e], None, None)
         | Ret _ =>
             let rs := registros_de dic_ejemplo cif_ejemplo (fst f)
                         (enumerar 1 (snd f)) in
             let es := errores_de dic_ejemplo cif_ejemplo (fst f)
                         (enumerar 1 (snd f)) in
             entradas inf (fst f)
             = (None, if lista_no_vacia es then Some es else None, Some rs)
         end)
      lote_ejemplo.
Proof.
  split; [exact NoDup_lote_ejemplo|].
  exact (proj2 (longitud_antes_de_parsear dic_ejemplo cif_ejemplo)
           lote_ejemplo NoDup_lote_ejemplo).
Defined.

(** The scenario of the three-line file whose second line is short: one
    length error that cites line 2, and no record of lines 1 and 3. *)
Example tres_lineas_segunda_corta :
  validar_longitudes "b.afi" [linea_eti; "ETI demasiado corta"; linea_eti] 70
  = Raise (LongitudLineaError
             ("b.afi, l" ++ chr 237 ++ "nea 2: longitud 19 != 70"))
  /\ exists inf,
       main dic_ejemplo cif_ejemplo lote_ejemplo = Ret inf /\
       entradas inf "b.afi"
       = (Some ["b.afi, l" ++ chr 237 ++ "nea 2: longitud 19 != 70"],
          None, None) /\
       dict_keys (inf_resultados inf) = ["a.afi"; "c.afi"].
Proof.
  split; [vm_compute; reflexivity|].
  eexists. split; [vm_compute; reflexivity|]. split; vm_compute; reflexivity.
Qed.

(** ** Unknown headers *)

(** C6.  A line whose first three characters are none of the eleven header
    codes makes [parse_linea] raise the [ValueError] that names the file, the
    line number and those characters.  The parse pass produces no record for
    the line, records ["Fila N: " ++ message] and goes on with the lines
    that follow. *)
Theorem cabecera_desconocida :
  forall (dic : Diccionarios) (cif_is_valid : string -> bool)
         (self : AfiArchivo) (fila : nat) (linea : string)
         (resto : list string),
    en_lista (slice 0 3 linea) cabeceras = false ->
    let mensaje := nombre self ++ ", fila " ++ str_int fila
                   ++ ": cabecera desconocida '" ++ slice 0 3 linea ++ "'" in
    parse_linea dic cif_is_valid (nombre self) fila linea
    = Raise (ValueError mensaje)
    /\
    parsear_desde dic cif_is_valid self fila (linea :: resto)
    = Ret (acumular self
             (registros_de dic cif_is_valid (nombre self)
                (enumerar (S fila) resto))
             (("Fila " ++ str_int fila ++ ": " ++ mensaje)
              :: errores_de dic cif_is_valid (nombre self)
                   (enumerar (S fila) resto))).
Proof.
  intros dic cif self fila linea resto Hc mensaje.
  assert (E : parse_linea dic cif (nombre self) fila linea
              = Raise (ValueError mensaje)).
  { unfold parse_linea.
    pose proof (parsers_cabeceras dic cif (nombre self) (slice 0 3 linea)) as Hp.
    rewrite Hc in Hp. unfold dict_in in Hp.
    destruct (dict_get (slice 0 3 linea) (parsers dic cif (nombre self)));
      [discriminate Hp|reflexivity]. }
  split; [exact E|].
  rewrite parsear_desde_acumula.
  cbn [enumerar registros_de errores_de flat_map].
  unfold registro_de at 1, error_de at 1, desenlace. cbn [fst snd].
  rewrite E. reflexivity.
Qed.

(** C6 on a line that starts with [XYZ], the second of three. *)
Lemma cabecera_desconocida_ejemplo :
  en_lista (slice 0 3 linea_desconocida) cabeceras = false /\
  let self := nuevo "a.afi" [linea_eti; linea_desconocida; linea_fab] in
  let mensaje := nombre self ++ ", fila " ++ str_int 2
                 ++ ": cabecera desconocida '" ++ slice 0 3 linea_desconocida
                 ++ "'" in
  parse_linea dic_ejemplo cif_ejemplo (nombre self) 2 linea_desconocida
  = Raise (ValueError mensaje)
  /\
  parsear_desde dic_ejemplo cif_ejemplo self 2 (linea_desconocida :: [linea_fab])
  = Ret (acumular self
           (registros_de dic_ejemplo cif_ejemplo (nombre self)
              (enumerar 3 [linea_fab]))
           (("Fila " ++ str_int 2 ++ ": " ++ mensaje)
            :: errores_de dic_ejemplo cif_ejemplo (nombre self)
                 (enumerar 3 [linea_fab]))).
Proof.
  split; [reflexivity|].
  exact (cabecera_desconocida dic_ejemplo cif_ejemplo
           (nuevo "a.afi" [linea_eti; linea_desconocida; linea_fab])
           2 linea_desconocida [linea_fab] eq_refl).
Defined.

Example cabecera_desconocida_mensaje :
  parsear dic_ejemplo cif_ejemplo
    (nuevo "a.afi" [linea_eti; linea_desconocida; linea_fab])
  = Ret (acumular (nuevo "a.afi" [linea_eti; linea_desconocida; linea_fab])
           (registros_de dic_ejemplo cif_ejemplo "a.afi"
              [(1, linea_eti); (3, linea_fab)])
           ["Fila 2: a.afi, fila 2: cabecera desconocida 'XYZ'"]).
Proof. vm_compute. reflexivity. Qed.

(** ** The nationality of a worker *)

(** C7.  In a TRA line whose fields before the nationality were accepted,
    [ipf_tipo] being the accepted value of the identity type: when the first
    character of [ipf_tipo] is ["1"] the line is accepted with columns 61-64
    as they are for nationality; otherwise columns 61-64 go through the
    lookup in the table of countries, non nullable, and the line is accepted
    with the value of that lookup or fails with its error. *)
Theorem nacionalidad_segun_ipf_tipo :
  forall (dic : Diccionarios) (cif_is_valid : string -> bool)
         (nombre : string) (fila : nat) (linea : string)
         (ss_provincia ss_numero ipf_tipo ipf_pais ipf_alfaclave : string),
    slice 0 3 linea = "TRA" ->
    validar_diccionario nombre (slice 3 5 linea) "ss_provincia" fila 3
      (PROVINCIAS dic) false = Ret ss_provincia ->
    validar_numeros nombre (slice 5 15 linea) "ss_numero" fila 5
    = Ret ss_numero ->
    validar_diccionario nombre (slice 15 16 linea) "ipf_tipo" fila 15
      (IPF dic) false = Ret ipf_tipo ->
    validar_diccionario nombre (slice 16 19 linea) "ipf_pais" fila 16
      (PAISES dic) false = Ret ipf_pais ->
    validar_tipo_documento cif_is_valid nombre (slice 19 33 linea)
      "ipf_alfaclave" fila 19 ipf_tipo = Ret ipf_alfaclave ->
    let registro_con (nacionalidad : string) : registro :=
      [ ("cabecera", "TRA"); ("ss_provincia", ss_provincia);
        ("ss_numero", ss_numero); ("ipf_tipo", ipf_tipo);
        ("ipf_pais", ipf_pais); ("ipf_alfaclave", ipf_alfaclave);
        ("reservado_respuesta_afi", slice 33 36 linea);
        ("reservado_recaudacion", slice 36 61 linea);
        ("nacionalidad", nacionalidad);
        ("indicador_trabajador", slice 64 65 linea);
        ("reservado", slice 65 70 linea) ] in
    exists c,
      primer_caracter ipf_tipo = Some c /\
      primer_caracter (slice 15 16 linea) = Some c /\
      parse_linea dic cif_is_valid nombre fila linea
      = if Ascii.eqb c "1"
        then Ret (registro_con (slice 61 64 linea))
        else
          match validar_diccionario nombre (slice 61 64 linea) "nacionalidad"
                  fila 61 (PAISES dic) false with
          | Ret nacionalidad => Ret (registro_con nacionalidad)
          | Raise e => Raise e
          end.
Proof.
  intros dic cif nombre fila linea ss_provincia ss_numero ipf_tipo ipf_pais
    ipf_alfaclave Hcab H1 H2 H3 H4 H5 registro_con.
  destruct (validar_diccionario_no_vacia _ _ _ _ _ _ _ H3) as [Hv Hc].
  destruct ipf_tipo as [|c t]; [discriminate Hv|].
  exists c. split; [reflexivity|]. split; [now rewrite <- Hc|].
  unfold parse_linea. rewrite Hcab.
  change (dict_get "TRA" (parsers dic cif nombre))
    with (Some (parse_linea_tra dic cif nombre)).
  cbv beta iota zeta.
  unfold parse_linea_tra. cbv zeta. rewrite Hcab, H1, H2, H3, H4. cbn [bind].
  rewrite H5. cbn [bind primer_caracter].
  destruct (Ascii.eqb c "1"); [reflexivity|].
  now destruct (validar_diccionario nombre (slice 61 64 linea) _ _ _ _ _).
Qed.

(** C7 on the line of a passport holder: the nationality [250] is looked up
    in the table of countries. *)
Lemma nacionalidad_segun_ipf_tipo_ejemplo :
  slice 0 3 linea_tra_pasaporte = "TRA" /\
  validar_diccionario "a.afi" (slice 3 5 linea_tra_pasaporte) "ss_provincia"
    5 3 (PROVINCIAS dic_ejemplo) false = Ret "28('MADRID')" /\
  validar_numeros "a.afi" (slice 5 15 linea_tra_pasaporte) "ss_numero" 5 5
  = Ret "0000000001" /\
  validar_diccionario "a.afi" (slice 15 16 linea_tra_pasaporte) "ipf_tipo"
    5 15 (IPF dic_ejemplo) false = Ret "2('PASAPORTE')" /\
  validar_diccionario "a.afi" (slice 16 19 linea_tra_pasaporte) "ipf_pais"
    5 16 (PAISES dic_ejemplo) false = Ret "250('FRANCIA')" /\
  validar_tipo_documento cif_ejemplo "a.afi" (slice 19 33 linea_tra_pasaporte)
    "ipf_alfaclave" 5 19 "2('PASAPORTE')" = Ret "AB1234" /\
  parse_linea dic_ejemplo cif_ejemplo "a.afi" 5 linea_tra_pasaporte
  = Ret [ ("cabecera", "TRA"); ("ss_provincia", "28('MADRID')");
          ("ss_numero", "0000000001"); ("ipf_tipo", "2('PASAPORTE')");
          ("ipf_pais", "250('FRANCIA')"); ("ipf_alfaclave", "AB1234");
          ("reservado_respuesta_afi", "   ");
          ("reservado_recaudacion", "                         ");
          ("nacionalidad", "250('FRANCIA')");
          ("indicador_trabajador", " ");
          ("reservado", "     ") ].
Proof.
  repeat (split; [reflexivity|]).
  destruct (nacionalidad_segun_ipf_tipo dic_ejemplo cif_ejemplo "a.afi" 5
              linea_tra_pasaporte "28('MADRID')" "0000000001" "2('PASAPORTE')"
              "250('FRANCIA')" "AB1234"
              eq_refl eq_refl eq_refl eq_refl eq_refl eq_refl)
    as (c & Hc & _ & H).
  injection Hc as <-. exact H.
Defined.

(** The three cases of C7 evaluated: a DNI holder keeps [???] as
    nationality; a passport holder has the nationality looked up, and the
    line fails on a code that is no country. *)
Example nacionalidad_tres_casos :
  dict_get "nacionalidad"
    (match parse_linea dic_ejemplo cif_ejemplo "a.afi" 1 linea_tra_dni with
     | Ret r => r
     | Raise _ => []
     end) = Some "???"
  /\ dict_get "nacionalidad"
       (match parse_linea dic_ejemplo cif_ejemplo "a.afi" 1
                linea_tra_pasaporte with
        | Ret r => r
        | Raise _ => []
        end) = Some "250('FRANCIA')"
  /\ parse_linea dic_ejemplo cif_ejemplo "a.afi" 1 linea_tra_pais_malo
     = Raise (ValidacionError
                ("Error en archivo 'a.afi', fila 1, secci" ++ chr 243
                 ++ "n 'nacionalidad' (pos 62): '999' no coincide con "
                 ++ "ninguno de los siguientes valores: ['250', '724']")).
Proof. repeat split; vm_compute; reflexivity. Qed.

(** ** Order of the outcomes and isolation of the lines *)

(** C8.  The parse pass of a new session over any lines never raises.  Its
    records are the records of the lines that parse, in line order; its
    errors are one string for each line that fails, in line order; there are
    as many records as lines that parse, and records and errors together are
    as many as the lines.  What a line contributes is a function of its
    number and its text: around any line, the lines before and the lines
    after contribute what they contribute on their own. *)
Theorem orden_y_aislamiento :
  forall (dic : Diccionarios) (cif_is_valid : string -> bool)
         (archivo : string),
    (forall ls : list string,
        exists self',
          parsear dic cif_is_valid (nuevo archivo ls) = Ret self' /\
          resultados self'
          = registros_de dic cif_is_valid archivo (enumerar 1 ls) /\
          errores_parseo self'
          = errores_de dic cif_is_valid archivo (enumerar 1 ls) /\
          length (resultados self')
          = length (filter (es_valida dic cif_is_valid archivo)
                      (enumerar 1 ls)) /\
          length (resultados self') + length (errores_parseo self')
          = length ls)
    /\
    (forall (antes : list string) (linea : string) (despues : list string),
        let n := length antes in
        registros_de dic cif_is_valid archivo
          (enumerar 1 (antes ++ linea :: despues))
        = (registros_de dic cif_is_valid archivo (enumerar 1 antes)
           ++ registro_de dic cif_is_valid archivo (S n, linea)
           ++ registros_de dic cif_is_valid archivo
                (enumerar (S (S n)) despues))%list
        /\
        errores_de dic cif_is_valid archivo
          (enumerar 1 (antes ++ linea :: despues))
        = (errores_de dic cif_is_valid archivo (enumerar 1 antes)
           ++ error_de dic cif_is_valid archivo (S n, linea)
           ++ errores_de dic cif_is_valid archivo
                (enumerar (S (S n)) despues))%list).
Proof.
  intros dic cif archivo. split.
  - intros ls. eexists. split; [apply parsear_acumula|].
    cbn [acumular nuevo nombre lineas resultados errores_parseo app].
    split; [reflexivity|]. split; [reflexivity|]. split.
    + apply registros_de_length.
    + rewrite registros_errores_length. apply enumerar_length.
  - intros antes linea despues n.
    rewrite enumerar_app. cbn [enumerar].
    rewrite registros_de_app, errores_de_app.
    change (1 + length antes) with (S n).
    split; reflexivity.
Qed.

Example orden_y_aislamiento_ejemplo :
  exists self',
    parsear dic_ejemplo cif_ejemplo
      (nuevo "a.afi" [linea_desconocida; linea_dam; linea_eti_prioridad;
                      linea_tra_dni]) = Ret self' /\
    map (dict_get "cabecera") (resultados self') = [Some "DAM"; Some "TRA"] /\
    map (substring 0 7) (errores_parseo self') = ["Fila 1:"; "Fila 3:"].
Proof. eexists. repeat split; vm_compute; reflexivity. Qed.

(** ** Running the pass again *)

(** C9, as stated, fails: the session keeps what a pass appended, so a
    second pass over the same session does not give the same records and
    errors, it gives them twice. *)
Lemma segunda_pasada_duplica :
  exists s1 s2,
    parsear dic_ejemplo cif_ejemplo (nuevo "a.afi" [linea_dam; linea_desconocida])
    = Ret s1 /\
    parsear dic_ejemplo cif_ejemplo s1 = Ret s2 /\
    length (resultados s1) = 1 /\ length (errores_parseo s1) = 1 /\
    length (resultados s2) = 2 /\ length (errores_parseo s2) = 2 /\
    (resultados s2, errores_parseo s2) <> (resultados s1, errores_parseo s1).
Proof.
  eexists. eexists.
  split; [vm_compute; reflexivity|].
  split; [vm_compute; reflexivity|].
  repeat (split; [reflexivity|]).
  intros H. apply (f_equal (fun p => length (fst p))) in H. discriminate H.
Qed.

(** C9, amended.  What a pass appends is a function of the file name and
    the lines alone: a new session ends with exactly these records and
    errors, a session in any state gets the same ones appended, and a second
    pass over the same session appends them once more. *)
Theorem pasada_determinista_y_acumulativa :
  forall (dic : Diccionarios) (cif_is_valid : string -> bool)
         (archivo : string) (ls : list string)
         (rs0 : list registro) (es0 : list string),
    let self := {| nombre := archivo; lineas := ls;
                   resultados := rs0; errores_parseo := es0 |} in
    let rs := registros_de dic cif_is_valid archivo (enumerar 1 ls) in
    let es := errores_de dic cif_is_valid archivo (enumerar 1 ls) in
    parsear dic cif_is_valid (nuevo archivo ls)
    = Ret {| nombre := archivo; lineas := ls;
             resultados := rs; errores_parseo := es |}
    /\
    parsear dic cif_is_valid self
    = Ret {| nombre := archivo; lineas := ls;
             resultados := (rs0 ++ rs)%list;
             errores_parseo := (es0 ++ es)%list |}
    /\
    (s1 <- parsear dic cif_is_valid self ;; parsear dic cif_is_valid s1)
    = Ret {| nombre := archivo; lineas := ls;
             resultados := (rs0 ++ rs ++ rs)%list;
             errores_parseo := (es0 ++ es ++ es)%list |}.
Proof.
  intros dic cif archivo ls rs0 es0 self rs es.
  split; [apply parsear_acumula|]. split; [apply parsear_acumula|].
  rewrite parsear_acumula. cbn [bind]. rewrite parsear_acumula.
  unfold acumular, self. cbn [nombre lineas resultados errores_parseo].
  fold rs es. now rewrite <- !app_assoc.
Qed.

(** ** The record kinds without validators *)

Lemma substring_seguidas (a n m : nat) (s : string) :
  substring a n s ++ substring (a + n) m s = substring a (n + m) s.
Proof.
  revert a n. induction s as [|c s IH]; intros a n.
  - destruct a, n, m; reflexivity.
  - destruct a as [|a].
    + destruct n as [|n]; [reflexivity|].
      cbn [Nat.add substring append]. f_equal. apply (IH 0 n).
    + cbn [Nat.add substring]. apply IH.
Qed.

Lemma substring_nada (a : nat) (s : string) : substring a 0 s = "".
Proof.
  revert a. induction s as [|c s IH]; intros [|a]; try reflexivity.
  apply IH.
Qed.

Lemma substring_entera (s : string) : substring 0 (String.length s) s = s.
Proof. induction s as [|c s IH]; simpl; [reflexivity|now rewrite IH]. Qed.

Lemma slice_seguidas (a b c : nat) (s : string) :
  a <= b -> b <= c -> slice a b s ++ slice b c s = slice a c s.
Proof.
  intros Hab Hbc. unfold slice.
  replace b with (a + (b - a)) at 2 by lia.
  rewrite substring_seguidas. f_equal. lia.
Qed.

(** The values of the record of a table that covers [desde]..[hasta] make
    up the slice [desde]..[hasta] of the line. *)
Lemma cubre_valores_seguidos tabla desde hasta linea :
  cubre tabla desde hasta = true ->
  desde <= hasta /\
  valores_seguidos (registro_de_tabla tabla linea) = slice desde hasta linea.
Proof.
  revert desde. induction tabla as [|[[k a] b] tabla IH]; intros desde; simpl.
  - intros H. apply Nat.eqb_eq in H. subst hasta. split; [lia|].
    unfold slice. rewrite Nat.sub_diag. symmetry. apply substring_nada.
  - intros H. apply andb_prop in H as [H Hc]. apply andb_prop in H as [Ha Hab].
    apply Nat.eqb_eq in Ha. apply Nat.leb_le in Hab. subst a.
    destruct (IH _ Hc) as [Hbh ->]. split; [lia|].
    now apply slice_seguidas.
Qed.

(** C10.  On a line of 70 characters whose header is [FAB] or [DAM], with
    anything in the columns after the header, [parse_linea] returns and does
    not raise: the record has every field of the layout of the header, each
    being the slice of its columns as it is, and the fields one after the
    other are the whole line. *)
Theorem fab_dam_sin_validacion :
  forall (dic : Diccionarios) (cif_is_valid : string -> bool)
         (nombre : string) (fila : nat) (linea : string),
    String.length linea = 70 ->
    en_lista (slice 0 3 linea) ["FAB"; "DAM"] = true ->
    let tabla := if String.eqb (slice 0 3 linea) "FAB"
                 then tabla_fab else tabla_dam in
    parse_linea dic cif_is_valid nombre fila linea
    = Ret (registro_de_tabla tabla linea)
    /\ dict_keys (registro_de_tabla tabla linea) = map (fun t => fst (fst t)) tabla
    /\ valores_seguidos (registro_de_tabla tabla linea) = linea.
Proof.
  intros dic cif nombre fila linea Hlen Hcab tabla.
  assert (Hcubre : cubre tabla 0 70 = true).
  { unfold tabla. destruct (String.eqb _ _); vm_compute; reflexivity. }
  split; [|split].
  - unfold parse_linea, tabla. cbn [en_lista existsb orb] in Hcab.
    destruct (String.eqb (slice 0 3 linea) "FAB") eqn:Ef.
    + apply String.eqb_eq in Ef. rewrite Ef. reflexivity.
    + rewrite orb_false_r in Hcab.
      apply String.eqb_eq in Hcab. rewrite Hcab. reflexivity.
  - unfold registro_de_tabla, dict_keys. rewrite map_map. reflexivity.
  - destruct (cubre_valores_seguidos tabla 0 70 linea Hcubre) as [_ ->].
    unfold slice. rewrite <- Hlen at 1. rewrite Nat.sub_0_r.
    apply substring_entera.
Qed.

(** C10 on a FAB line whose columns after the header hold free text. *)
Lemma fab_dam_sin_validacion_ejemplo :
  String.length linea_fab = 70 /\
  en_lista (slice 0 3 linea_fab) ["FAB"; "DAM"] = true /\
  parse_linea dic_ejemplo cif_ejemplo "a.afi" 3 linea_fab
  = Ret (registro_de_tabla tabla_fab linea_fab) /\
  dict_keys (registro_de_tabla tabla_fab linea_fab)
  = map (fun t => fst (fst t)) tabla_fab /\
  valores_seguidos (registro_de_tabla tabla_fab linea_fab) = linea_fab.
Proof.
  split; [reflexivity|]. split; [reflexivity|].
  exact (fab_dam_sin_validacion dic_ejemplo cif_ejemplo "a.afi" 3 linea_fab
           eq_refl eq_refl).
Defined.

(* ================================================================== *)
(** * Further properties of the code *)

(** ** What an accepted section is *)

Lemma validar_numeros_Ret a s n f c v :
  validar_numeros a s n f c = Ret v -> v = s /\ isdigit s = true.
Proof.
  unfold validar_numeros. destruct (isdigit s); simpl; [|discriminate].
  intros E. injection E as <-. now split.
Qed.

Lemma validar_letras_Ret a s n f c v :
  validar_letras a s n f c = Ret v -> v = s /\ isalpha s = true.
Proof.
  unfold validar_letras. destruct (isalpha s); simpl; [|discriminate].
  intros E. injection E as <-. now split.
Qed.

Lemma validar_obligatorio_Ret a s n f c v :
  validar_obligatorio a s n f c = Ret v ->
  v = s /\ String.eqb (strip s) "" = false.
Proof.
  unfold validar_obligatorio. destruct (String.eqb (strip s) "");
    [discriminate|].
  intros E. injection E as <-. now split.
Qed.

Lemma validar_valores_Ret a s n f c vs v :
  validar_valores a s n f c vs = Ret v -> v = s /\ en_lista s vs = true.
Proof.
  unfold validar_valores. destruct (en_lista s vs); simpl; [|discriminate].
  intros E. injection E as <-. now split.
Qed.

Lemma validar_tipo_documento_Ret cif a s n f c tipo v :
  validar_tipo_documento cif a s n f c tipo = Ret v ->
  v = lstrip_ceros s /\
  exists t, primer_caracter tipo = Some t /\
            documento_aceptado cif t (lstrip_ceros s) = true.
Proof.
  unfold validar_tipo_documento, documento_aceptado.
  destruct tipo as [|t tipo]; [discriminate|]. cbn [primer_caracter].
  intros E.
  assert (Hv : v = lstrip_ceros s).
  { repeat match type of E with
           | (if ?b then _ else _) = _ => destruct b
           end; congruence. }
  split; [exact Hv|]. exists t. split; [reflexivity|].
  destruct (Ascii.eqb t "1") eqn:E1.
  { destruct (re_match regex_dni _); [reflexivity|discriminate E]. }
  destruct (Ascii.eqb t "2") eqn:E2.
  { apply Ascii.eqb_eq in E2. subst t. cbn [Ascii.eqb Bool.eqb].
    destruct (re_match regex_pasaporte _); [reflexivity|discriminate E]. }
  destruct (Ascii.eqb t "6") eqn:E6.
  { destruct (re_match regex_nie _); [reflexivity|discriminate E]. }
  destruct (Ascii.eqb t "9") eqn:E9.
  { destruct (cif _); [reflexivity|discriminate E]. }
  reflexivity.
Qed.

(** ** Zero padding of documents *)

Lemma lstrip_ceros_descompone s :
  exists k, s = ceros k ++ lstrip_ceros s.
Proof.
  induction s as [|c s [k IH]]; [now exists 0|]. simpl.
  destruct (Ascii.eqb c "0") eqn:E.
  - apply Ascii.eqb_eq in E. subst c. exists (S k). simpl. now rewrite <- IH.
  - now exists 0.
Qed.

Lemma lstrip_ceros_sin_cero s : primer_caracter (lstrip_ceros s) <> Some "0"%char.
Proof.
  induction s as [|c s IH]; simpl; [discriminate|].
  destruct (Ascii.eqb c "0") eqn:E; [exact IH|].
  simpl. intros H. injection H as ->. discriminate E.
Qed.

Lemma lstrip_ceros_fijo s :
  primer_caracter s <> Some "0"%char -> lstrip_ceros s = s.
Proof.
  destruct s as [|c s]; [reflexivity|]. simpl. intros H.
  destruct (Ascii.eqb c "0") eqn:E; [|reflexivity].
  apply Ascii.eqb_eq in E. now subst c.
Qed.

(** X13.  A document that [validar_tipo_documento] returns never starts with
    ["0"]: it is the section without its leading zeros, whatever the type,
    and validating it again returns it again.  So no accepted DNI, NIE,
    passport or CIF starts with a zero. *)
Theorem documento_devuelto_sin_ceros :
  forall (cif_is_valid : string -> bool) (archivo s nombre_seccion : string)
         (fila columna : nat) (tipo v : string),
    validar_tipo_documento cif_is_valid archivo s nombre_seccion fila columna
      tipo = Ret v ->
    primer_caracter v <> Some "0"%char /\
    (exists k, s = ceros k ++ v) /\
    validar_tipo_documento cif_is_valid archivo v nombre_seccion fila columna
      tipo = Ret v.
Proof.
  intros cif archivo s nombre_seccion fila columna tipo v E.
  pose proof (validar_tipo_documento_Ret _ _ _ _ _ _ _ _ E) as [-> _].
  split; [apply lstrip_ceros_sin_cero|]. split; [apply lstrip_ceros_descompone|].
  revert E. unfold validar_tipo_documento.
  now rewrite (lstrip_ceros_fijo _ (lstrip_ceros_sin_cero s)).
Qed.

Lemma documento_devuelto_sin_ceros_ejemplo :
  validar_tipo_documento cif_ejemplo "a.afi" "00000012345678Z" "ipf_alfaclave"
    1 19 "1('DNI')" = Ret "12345678Z" /\
  primer_caracter "12345678Z" <> Some "0"%char /\
  (exists k, "00000012345678Z" = ceros k ++ "12345678Z") /\
  validar_tipo_documento cif_ejemplo "a.afi" "12345678Z" "ipf_alfaclave"
    1 19 "1('DNI')" = Ret "12345678Z".
Proof.
  split; [reflexivity|].
  exact (documento_devuelto_sin_ceros cif_ejemplo "a.afi" "00000012345678Z"
           "ipf_alfaclave" 1 19 "1('DNI')" "12345678Z" eq_refl).
Defined.

(** A DNI whose number starts with zero, in its padded field, is taken for
    a shorter number and rejected. *)
Example dni_con_cero_inicial_rechazado :
  re_match regex_dni "01234567Z" = true /\
  validar_tipo_documento cif_ejemplo "a.afi" "0000001234567Z" "ipf_alfaclave"
    1 19 "1('DNI')"
  = Raise (error_campo "a.afi" 1 "ipf_alfaclave" 19 "1234567Z"
             (causa_documento "DNI")).
Proof. split; vm_compute; reflexivity. Qed.

(** ** Records made of the sections as they are *)

Ltac invertir_parse H :=
  repeat match type of H with
         | bind ?m _ = Ret _ =>
             let E := fresh "E" in
             destruct m eqn:E; cbn [bind] in H; [|discriminate H]
         end;
  repeat match goal with
         | E : validar_numeros _ _ _ _ _ = Ret _ |- _ =>
             apply validar_numeros_Ret in E as [-> ?]
         | E : validar_letras _ _ _ _ _ = Ret _ |- _ =>
             apply validar_letras_Ret in E as [-> ?]
         | E : validar_obligatorio _ _ _ _ _ = Ret _ |- _ =>
             apply validar_obligatorio_Ret in E as [-> ?]
         | E : validar_valores _ _ _ _ _ _ = Ret _ |- _ =>
             apply validar_valores_Ret in E as [-> ?]
         end.

Section Literales.

Variable dic : Diccionarios.
Variable cif_is_valid : string -> bool.
Variable nombre : string.
Variable fila : nat.
Variable linea : string.

Lemma parse_linea_eti_literal r :
  parse_linea_eti nombre fila linea = Ret r ->
  r = registro_de_tabla tabla_eti linea.
Proof.
  unfold parse_linea_eti. intros H. invertir_parse H.
  injection H as <-. reflexivity.
Qed.

Lemma parse_linea_ayn_literal r :
  parse_linea_ayn nombre fila linea = Ret r ->
  r = registro_de_tabla tabla_ayn linea.
Proof.
  unfold parse_linea_ayn. intros H. invertir_parse H.
  injection H as <-. reflexivity.
Qed.

Lemma parse_linea_odl_literal r :
  parse_linea_odl nombre fila linea = Ret r ->
  r = registro_de_tabla tabla_odl linea.
Proof.
  unfold parse_linea_odl. intros H. invertir_parse H.
  injection H as <-. reflexivity.
Qed.

(** A record of one of the six kinds without lookups is the record of the
    layout of its header. *)
Lemma parse_linea_literal tabla r :
  dict_get (slice 0 3 linea) tablas_literales = Some tabla ->
  parse_linea dic cif_is_valid nombre fila linea = Ret r ->
  r = registro_de_tabla tabla linea.
Proof.
  unfold tablas_literales, parse_linea. cbn [dict_get].
  repeat match goal with
         | |- (if String.eqb (slice 0 3 linea) ?c then _ else _) = _ -> _ =>
             let E := fresh "E" in
             destruct (String.eqb (slice 0 3 linea) c) eqn:E;
             [apply String.eqb_eq in E; rewrite E;
              intros Ht; injection Ht as <-|clear E]
         end;
    try discriminate.
  - apply parse_linea_eti_literal.
  - apply parse_linea_ayn_literal.
  - intros H. now injection H as <-.
  - apply parse_linea_odl_literal.
  - intros H. now injection H as <-.
  - intros H. now injection H as <-.
Qed.

End Literales.

Lemma dict_get_In {V} k (v : V) (d : dict V) :
  dict_get k d = Some v -> In (k, v) d.
Proof.
  induction d as [|[k' v'] d IH]; simpl; [discriminate|].
  destruct (String.eqb k k') eqn:E.
  - apply String.eqb_eq in E. subst k'. intros H. injection H as ->. now left.
  - intros H. right. now apply IH.
Qed.

Lemma substring_length (a n : nat) (s : string) :
  a + n <= String.length s -> String.length (substring a n s) = n.
Proof.
  revert a n. induction s as [|c s IH]; intros a n; simpl.
  - intros H. assert (a = 0) by lia. assert (n = 0) by lia. now subst.
  - destruct a as [|a].
    + destruct n as [|n]; [reflexivity|].
      intros H. simpl. rewrite (IH 0 n); [reflexivity|simpl; lia].
    + intros H. apply IH. lia.
Qed.

(** In the record of a table that covers [desde]..[hasta] of a line that is
    long enough, each value is as wide as its columns. *)
Lemma cubre_anchos tabla desde hasta linea :
  cubre tabla desde hasta = true ->
  hasta <= String.length linea ->
  desde <= hasta /\
  map (fun kv => String.length (snd kv)) (registro_de_tabla tabla linea)
  = map (fun t => snd t - snd (fst t)) tabla.
Proof.
  revert desde. induction tabla as [|[[k a] b] tabla IH]; intros desde; simpl.
  - intros H _. apply Nat.eqb_eq in H. subst hasta. now split.
  - intros H Hl. apply andb_prop in H as [H Hc]. apply andb_prop in H as [Ha Hab].
    apply Nat.eqb_eq in Ha. apply Nat.leb_le in Hab. subst a.
    destruct (IH _ Hc Hl) as [Hbh ->]. split; [lia|].
    f_equal. unfold slice. apply substring_length. lia.
Qed.

Lemma tablas_literales_cubren :
  forallb (fun e => cubre (snd e) 0 70) tablas_literales = true.
Proof. vm_compute. reflexivity. Qed.

(** X1.  The record of an accepted line of 70 characters of kind ETI, AYN,
    LDD, ODL, FAB or DAM holds the columns of the line as they are: each
    field is the slice of its columns and is as wide as they are, and the
    values one after the other give the line back. *)
Theorem registro_literal_reconstruye_linea :
  forall (dic : Diccionarios) (cif_is_valid : string -> bool)
         (nombre : string) (fila : nat) (linea : string)
         (tabla : list (string * nat * nat)) (r : registro),
    String.length linea = 70 ->
    dict_get (slice 0 3 linea) tablas_literales = Some tabla ->
    parse_linea dic cif_is_valid nombre fila linea = Ret r ->
    r = registro_de_tabla tabla linea /\
    map (fun kv => String.length (snd kv)) r
    = map (fun t => snd t - snd (fst t)) tabla /\
    valores_seguidos r = linea.
Proof.
  intros dic cif nombre fila linea tabla r Hlen Ht Hp.
  pose proof (parse_linea_literal dic cif nombre fila linea tabla r Ht Hp) as ->.
  assert (Hc : cubre tabla 0 70 = true).
  { pose proof tablas_literales_cubren as H.
    rewrite forallb_forall in H. apply (H (slice 0 3 linea, tabla)).
    now apply dict_get_In. }
  split; [reflexivity|]. split.
  - apply (cubre_anchos tabla 0 70 linea Hc). lia.
  - destruct (cubre_valores_seguidos tabla 0 70 linea Hc) as [_ ->].
    unfold slice. rewrite <- Hlen at 1. rewrite Nat.sub_0_r.
    apply substring_entera.
Qed.

Lemma registro_literal_reconstruye_linea_ejemplo :
  String.length linea_eti = 70 /\
  dict_get (slice 0 3 linea_eti) tablas_literales = Some tabla_eti /\
  (exists r,
      parse_linea dic_ejemplo cif_ejemplo "a.afi" 1 linea_eti = Ret r /\
      r = registro_de_tabla tabla_eti linea_eti /\
      map (fun kv => String.length (snd kv)) r
      = map (fun t => snd t - snd (fst t)) tabla_eti /\
      valores_seguidos r = linea_eti).
Proof.
  split; [reflexivity|]. split; [reflexivity|].
  eexists. split; [reflexivity|].
  exact (registro_literal_reconstruye_linea dic_ejemplo cif_ejemplo "a.afi" 1
           linea_eti tabla_eti _ eq_refl eq_refl eq_refl).
Defined.

(** X2.  The record of an accepted ETI line satisfies the rule of every
    validated field: the syntax is [AFI9], the extension [AFI], the priority
    [N]; the version, the authorisation key, the date, the hour and the five
    parts of the register identifier are digits only; the program
    identifier, the process version and the file name are not blank. *)
Theorem registro_eti_cumple_reglas :
  forall (dic : Diccionarios) (cif_is_valid : string -> bool)
         (nombre : string) (fila : nat) (linea : string) (r : registro),
    slice 0 3 linea = "ETI" ->
    parse_linea dic cif_is_valid nombre fila linea = Ret r ->
    dict_get "sintaxis" r = Some "AFI9" /\
    dict_get "extension_archivo" r = Some "AFI" /\
    dict_get "prioridad" r = Some "N" /\
    forallb (fun k => isdigit (valor r k))
      ["version_mensaje"; "clave_autorizacion"; "fecha"; "hora";
       "id_registro_ano"; "id_registro_mes"; "id_registro_serie";
       "id_registro_envio"; "id_registro_ordinal"] = true /\
    forallb (fun k => negb (String.eqb (strip (valor r k)) ""))
      ["id_programa"; "version_proceso"; "nombre_archivo"] = true.
Proof.
  intros dic cif nombre fila linea r Hc. unfold parse_linea. rewrite Hc.
  change (dict_get "ETI" (parsers dic cif nombre))
    with (Some (parse_linea_eti nombre)).
  cbv beta iota. unfold parse_linea_eti. intros H. invertir_parse H.
  injection H as <-.
  repeat match goal with
         | H : en_lista _ [_] = true |- _ =>
             cbn [en_lista existsb] in H; rewrite orb_false_r in H;
             apply String.eqb_eq in H
         end.
  cbn [dict_get valor forallb String.eqb Ascii.eqb Bool.eqb andb].
  repeat match goal with
         | H : isdigit _ = true |- _ => rewrite H; clear H
         | H : String.eqb (strip _) "" = false |- _ => rewrite H; clear H
         | H : slice _ _ linea = _ |- _ => rewrite H; clear H
         end.
  repeat split; reflexivity.
Qed.

Lemma registro_eti_cumple_reglas_ejemplo :
  slice 0 3 linea_eti = "ETI" /\
  exists r,
    parse_linea dic_ejemplo cif_ejemplo "a.afi" 1 linea_eti = Ret r /\
    dict_get "sintaxis" r = Some "AFI9" /\
    dict_get "extension_archivo" r = Some "AFI" /\
    dict_get "prioridad" r = Some "N" /\
    forallb (fun k => isdigit (valor r k))
      ["version_mensaje"; "clave_autorizacion"; "fecha"; "hora";
       "id_registro_ano"; "id_registro_mes"; "id_registro_serie";
       "id_registro_envio"; "id_registro_ordinal"] = true /\
    forallb (fun k => negb (String.eqb (strip (valor r k)) ""))
      ["id_programa"; "version_proceso"; "nombre_archivo"] = true.
Proof.
  split; [reflexivity|]. eexists. split; [reflexivity|].
  exact (registro_eti_cumple_reglas dic_ejemplo cif_ejemplo "a.afi" 1
           linea_eti _ eq_refl eq_refl).
Defined.

(** ** The shape of every record *)

Lemma claves_nuevas_NoDup ks vistas :
  claves_nuevas ks vistas = true ->
  NoDup ks /\ forall k, In k ks -> ~ In k vistas.
Proof.
  revert vistas. induction ks as [|k ks IH]; intros vistas; simpl.
  - intros _. split; [constructor|]. intros k [].
  - intros H. apply andb_prop in H as [Hk Hr].
    apply negb_true_iff in Hk.
    destruct (IH _ Hr) as [Hnd Hno]. split.
    + constructor; [|exact Hnd]. intros Hin.
      apply (Hno k Hin). apply in_or_app. right. now left.
    + intros k' [<-|Hin].
      * intros Hv. apply en_lista_In in Hv. congruence.
      * intros Hv. apply (Hno k' Hin). apply in_or_app. now left.
Qed.

Lemma extraer_agrega (campos : list campo) (r r' : registro) :
  extraer campos r = Ret r' -> exists nuevos, r' = (r ++ nuevos)%list.
Proof.
  revert r. induction campos as [|[k f] campos IH]; intros r; simpl.
  - intros E. injection E as <-. exists []. now rewrite app_nil_r.
  - destruct (f r) as [v|e]; simpl; [|discriminate].
    intros E. destruct (IH _ E) as [nuevos ->].
    exists ((k, v) :: nuevos). now rewrite <- app_assoc.
Qed.

Section Forma.

Variable dic : Diccionarios.
Variable cif_is_valid : string -> bool.
Variable nombre : string.
Variable fila : nat.
Variable linea : string.

Lemma esquemas_sin_repetidos :
  forallb (fun e => claves_nuevas (nombres_campos (snd e)) [])
    (esquemas dic cif_is_valid nombre fila linea) = true.
Proof. vm_compute. reflexivity. Qed.

Lemma esquemas_empiezan_por_cabecera :
  Forall (fun e => exists resto,
              snd e = fijo "cabecera" (slice 0 3 linea) :: resto)
    (esquemas dic cif_is_valid nombre fila linea).
Proof. unfold esquemas. repeat constructor; eexists; reflexivity. Qed.

End Forma.

(** X3.  Every record [parse_linea] returns is well formed: its first field
    is [cabecera], the first three characters of the line, which are one of
    the eleven header codes; no field name occurs twice; and looking up
    [cabecera] gives that header. *)
Theorem registro_bien_formado :
  forall (dic : Diccionarios) (cif_is_valid : string -> bool)
         (nombre : string) (fila : nat) (linea : string) (r : registro),
    parse_linea dic cif_is_valid nombre fila linea = Ret r ->
    en_lista (slice 0 3 linea) cabeceras = true /\
    (exists resto, r = ("cabecera", slice 0 3 linea) :: resto) /\
    NoDup (dict_keys r) /\
    dict_get "cabecera" r = Some (slice 0 3 linea).
Proof.
  intros dic cif nombre fila linea r H.
  rewrite parse_linea_esquema in H.
  pose proof (esquemas_cabeceras dic cif nombre fila linea (slice 0 3 linea))
    as Hcab.
  unfold dict_in in Hcab.
  destruct (dict_get (slice 0 3 linea) (esquemas dic cif nombre fila linea))
    as [campos|] eqn:Ec; [|discriminate H].
  apply dict_get_In in Ec.
  assert (Hr : exists resto, r = ("cabecera", slice 0 3 linea) :: resto).
  { pose proof (esquemas_empiezan_por_cabecera dic cif nombre fila linea) as Hf.
    rewrite Forall_forall in Hf. destruct (Hf _ Ec) as [resto Hs].
    cbn [snd] in Hs. rewrite Hs in H. cbn [extraer fijo bind app] in H.
    now apply extraer_agrega in H. }
  split; [now symmetry|]. split; [exact Hr|]. split.
  - apply extraer_nombres in H. rewrite H. cbn [dict_keys map app].
    pose proof (esquemas_sin_repetidos dic cif nombre fila linea) as Hn.
    rewrite forallb_forall in Hn. specialize (Hn _ Ec). cbn [snd] in Hn.
    now apply claves_nuevas_NoDup in Hn.
  - destruct Hr as [resto ->]. reflexivity.
Qed.

Lemma registro_bien_formado_ejemplo :
  exists r,
    parse_linea dic_ejemplo cif_ejemplo "a.afi" 1 linea_tra_pasaporte = Ret r /\
    en_lista (slice 0 3 linea_tra_pasaporte) cabeceras = true /\
    (exists resto, r = ("cabecera", slice 0 3 linea_tra_pasaporte) :: resto) /\
    NoDup (dict_keys r) /\
    dict_get "cabecera" r = Some (slice 0 3 linea_tra_pasaporte).
Proof.
  eexists. split; [reflexivity|].
  exact (registro_bien_formado dic_ejemplo cif_ejemplo "a.afi" 1
           linea_tra_pasaporte _ eq_refl).
Defined.

(** ** The last column of a PES line *)

Lemma substring_de_prefijo (a n m : nat) (s : string) :
  a + n <= m -> substring a n (substring 0 m s) = substring a n s.
Proof.
  revert a n m. induction s as [|c s IH]; intros a n m H.
  - destruct m; reflexivity.
  - destruct m as [|m].
    + assert (a = 0) by lia. assert (n = 0) by lia. subst. reflexivity.
    + cbn [substring]. destruct a as [|a].
      * destruct n as [|n]; [reflexivity|].
        cbn [substring]. f_equal. apply (IH 0 n m). lia.
      * cbn [substring]. apply IH. lia.
Qed.

Lemma slice_de_prefijos (a b m : nat) (s t : string) :
  b <= m -> substring 0 m s = substring 0 m t -> slice a b s = slice a b t.
Proof.
  intros Hb E. unfold slice.
  destruct (Nat.le_gt_cases a b) as [Hab|Hab].
  - rewrite <- (substring_de_prefijo a (b - a) m s) by lia.
    rewrite <- (substring_de_prefijo a (b - a) m t) by lia.
    now rewrite E.
  - replace (b - a) with 0 by lia. now rewrite !substring_nada.
Qed.

Lemma pes_bucle_prefijo dic nombre fila l1 l2 rango r :
  substring 0 69 l1 = substring 0 69 l2 ->
  Forall (fun i => i < 33) rango ->
  pes_bucle dic nombre fila l1 rango r = pes_bucle dic nombre fila l2 rango r.
Proof.
  intros E Hr. revert r. induction Hr as [|i rango Hi Hr IH]; intros r.
  - reflexivity.
  - cbn [pes_bucle].
    rewrite (slice_de_prefijos (3 + i * 2) (3 + i * 2 + 2) 69 l1 l2) by (lia || exact E).
    destruct (validar_diccionario _ _ _ _ _ _ _); cbn [bind]; [apply IH|reflexivity].
Qed.

(** X4.  A PES line is read up to column 68 only: its 33 fields of two
    columns end there, and column 69, the last of the line, plays no part.
    Two lines that agree on their first 69 characters have the same
    outcome, record or error. *)
Theorem pes_no_lee_la_ultima_columna :
  forall (dic : Diccionarios) (cif_is_valid : string -> bool)
         (nombre : string) (fila : nat) (l1 l2 : string),
    slice 0 3 l1 = "PES" ->
    substring 0 69 l1 = substring 0 69 l2 ->
    parse_linea dic cif_is_valid nombre fila l1
    = parse_linea dic cif_is_valid nombre fila l2.
Proof.
  intros dic cif nombre fila l1 l2 Hc E.
  assert (Hc2 : slice 0 3 l2 = "PES").
  { now rewrite <- (slice_de_prefijos 0 3 69 l1 l2) by (lia || exact E). }
  unfold parse_linea. rewrite Hc, Hc2.
  change (dict_get "PES" (parsers dic cif nombre))
    with (Some (parse_linea_pes dic nombre)).
  cbv beta iota. unfold parse_linea_pes. rewrite Hc, Hc2.
  apply pes_bucle_prefijo; [exact E|].
  apply Forall_forall. intros i Hi. apply in_seq in Hi. lia.
Qed.

Lemma pes_no_lee_la_ultima_columna_ejemplo :
  slice 0 3 linea_pes_a = "PES" /\
  substring 0 69 linea_pes_a = substring 0 69 linea_pes_b /\
  linea_pes_a <> linea_pes_b /\
  parse_linea dic_ejemplo cif_ejemplo "a.afi" 1 linea_pes_a
  = parse_linea dic_ejemplo cif_ejemplo "a.afi" 1 linea_pes_b.
Proof.
  split; [reflexivity|]. split; [reflexivity|]. split; [discriminate|].
  exact (pes_no_lee_la_ultima_columna dic_ejemplo cif_ejemplo "a.afi" 1
           linea_pes_a linea_pes_b eq_refl eq_refl).
Defined.

(** ** Reading the lines of a file *)

Lemma contiene_app c s t : contiene c (s ++ t) = contiene c s || contiene c t.
Proof.
  induction s as [|d s IH]; simpl; [reflexivity|].
  now rewrite IH, orb_assoc.
Qed.

Lemma traducir_saltos_sin_CR_acotado n s :
  String.length s <= n -> contiene CR (traducir_saltos s) = false.
Proof.
  revert s. induction n as [|n IH]; intros s Hn.
  - destruct s; [reflexivity|simpl in Hn; lia].
  - destruct s as [|c r]; [reflexivity|]. simpl in Hn. cbn [traducir_saltos].
    destruct (Ascii.eqb c CR) eqn:Ec.
    + destruct r as [|c' r']; [reflexivity|].
      destruct (Ascii.eqb c' LF); cbn [contiene]; cbn [Ascii.eqb].
      * change (Ascii.eqb CR LF) with false. cbn [orb].
        apply IH. simpl in Hn. lia.
      * change (Ascii.eqb CR LF) with false. cbn [orb].
        apply IH. lia.
    + cbn [contiene]. rewrite Ascii.eqb_sym, Ec. cbn [orb]. apply IH. lia.
Qed.

Lemma traducir_saltos_sin_CR s : contiene CR (traducir_saltos s) = false.
Proof. now apply (traducir_saltos_sin_CR_acotado (String.length s)). Qed.

Lemma rstrip_LF_sin s : contiene LF s = false -> rstrip_LF s = s.
Proof.
  induction s as [|c s IH]; cbn [contiene rstrip_LF]; [reflexivity|].
  intros H. apply orb_false_iff in H as [Hc Hs]. rewrite (IH Hs).
  rewrite Ascii.eqb_sym, Hc. reflexivity.
Qed.

Lemma rstrip_LF_final s :
  contiene LF s = false -> rstrip_LF (s ++ String LF "") = s.
Proof.
  induction s as [|c s IH]; cbn [contiene rstrip_LF append];
    [reflexivity|].
  intros H. apply orb_false_iff in H as [Hc Hs]. rewrite (IH Hs).
  rewrite Ascii.eqb_sym, Hc. reflexivity.
Qed.

Lemma juntar_partir_lineas actual s :
  juntar (partir_lineas actual s) = actual ++ s.
Proof.
  revert actual. induction s as [|c s IH]; intros actual;
    cbn [partir_lineas].
  - destruct actual; [reflexivity|]. cbn [no_vacia juntar fold_right].
    now rewrite !cadena_app_vacia.
  - destruct (Ascii.eqb c LF) eqn:Ec.
    + apply Ascii.eqb_eq in Ec. subst c. cbn [juntar fold_right].
      fold (juntar (partir_lineas "" s)). rewrite IH.
      now rewrite cadena_app_assoc.
    + rewrite IH. now rewrite cadena_app_assoc.
Qed.

(** The lines of a text without [CR], read after a partial line [actual]
    without line breaks: each is a text without line breaks, followed by
    [LF] or, for the last one only, by nothing; [rstrip("\n")] leaves that
    text. *)
Lemma partir_lineas_limpias actual s :
  contiene LF actual = false -> contiene CR actual = false ->
  contiene CR s = false ->
  Forall (fun l => contiene LF (rstrip_LF l) = false /\
                   contiene CR (rstrip_LF l) = false /\
                   (l = rstrip_LF l ++ String LF "" \/ l = rstrip_LF l))
    (partir_lineas actual s).
Proof.
  revert actual. induction s as [|c s IH]; intros actual Hl Hc Hs;
    cbn [partir_lineas].
  - destruct (no_vacia actual); constructor; [|constructor].
    rewrite (rstrip_LF_sin _ Hl). repeat split; try assumption. now right.
  - cbn [contiene] in Hs. apply orb_false_iff in Hs as [Hcc Hs].
    destruct (Ascii.eqb c LF) eqn:Ec.
    + constructor.
      * rewrite (rstrip_LF_final _ Hl). repeat split; try assumption. now left.
      * now apply IH.
    + apply IH; try assumption.
      * rewrite contiene_app, Hl. cbn [contiene orb].
        rewrite Ascii.eqb_sym, Ec. reflexivity.
      * rewrite contiene_app, Hc. cbn [contiene orb]. now rewrite Hcc.
Qed.

(** X5.  [readlines] loses nothing of the text it is given (with the line
    breaks read as [LF]): its lines put together are that text.  And after
    [rstrip("\n")] no line holds a line break any more, [LF] or [CR]: it is
    the line as read without its final [LF]. *)
Theorem readlines_sin_perdida :
  forall texto : string,
    juntar (readlines texto) = traducir_saltos texto /\
    Forall (fun l => contiene LF (rstrip_LF l) = false /\
                     contiene CR (rstrip_LF l) = false /\
                     (l = rstrip_LF l ++ String LF "" \/ l = rstrip_LF l))
      (readlines texto).
Proof.
  intros texto. unfold readlines. split.
  - apply juntar_partir_lineas.
  - apply partir_lineas_limpias; try reflexivity.
    apply traducir_saltos_sin_CR.
Qed.

(** ** Loading a folder *)

Lemma substring_tras_prefijo (pre suf : string) :
  substring (String.length pre) (String.length suf) (pre ++ suf) = suf.
Proof.
  induction pre as [|c pre IH]; cbn [String.length append substring].
  - apply substring_entera.
  - exact IH.
Qed.

(** [s.endswith(suf)] holds exactly when [s] is some text followed by
    [suf]. *)
Lemma endswith_spec (suf s : string) :
  endswith suf s = true <-> exists pre, s = pre ++ suf.
Proof.
  unfold endswith. rewrite andb_true_iff, String.eqb_eq, Nat.leb_le. split.
  - intros [E Hl].
    exists (substring 0 (String.length s - String.length suf) s).
    pose proof (substring_seguidas 0 (String.length s - String.length suf)
                  (String.length suf) s) as H.
    cbn [Nat.add] in H. rewrite E in H. rewrite H.
    replace (String.length s - String.length suf + String.length suf)
      with (String.length s) by lia.
    symmetry. apply substring_entera.
  - intros [pre ->]. rewrite cadena_length_app. split; [|lia].
    replace (String.length pre + String.length suf - String.length suf)
      with (String.length pre) by lia.
    apply substring_tras_prefijo.
Qed.

Lemma dict_keys_dict_set {V} k (v : V) (d : dict V) :
  dict_keys (dict_set k v d)
  = if en_lista k (dict_keys d) then dict_keys d else (dict_keys d ++ [k])%list.
Proof.
  unfold en_lista, dict_keys.
  induction d as [|[k' v'] d IH]; cbn [dict_set map existsb fst app];
    [reflexivity|].
  destruct (String.eqb k k') eqn:E; cbn [orb map fst].
  - apply String.eqb_eq in E. now subst k'.
  - rewrite IH. now destruct (existsb (String.eqb k) (map fst d)).
Qed.

Lemma dict_set_claves_unicas {V} k (v : V) (d : dict V) :
  NoDup (dict_keys d) -> NoDup (dict_keys (dict_set k v d)).
Proof.
  intros H. rewrite dict_keys_dict_set.
  destruct (en_lista k (dict_keys d)) eqn:E; [exact H|].
  apply NoDup_app; [exact H|repeat constructor; intros []|].
  intros x Hx [<-|[]]. apply en_lista_In in Hx. congruence.
Qed.

Lemma dict_set_In {V} k (v : V) (d : dict V) k0 v0 :
  In (k0, v0) (dict_set k v d) -> (k0, v0) = (k, v) \/ In (k0, v0) d.
Proof.
  induction d as [|[k' v'] d IH]; cbn [dict_set In].
  - intros [H|[]]. now left.
  - destruct (String.eqb k k'); cbn [In].
    + intros [H|H]; [now left|right; now right].
    + intros [H|H]; [right; now left|].
      destruct (IH H) as [H'|H']; [now left|right; now right].
Qed.

Lemma lineas_cargadas_limpias (texto : string) :
  Forall (fun l => contiene LF l = false /\ contiene CR l = false)
    (map rstrip_LF (readlines texto)).
Proof.
  apply Forall_map. unfold readlines.
  eapply Forall_impl;
    [|apply (partir_lineas_limpias "" (traducir_saltos texto));
      try reflexivity; apply traducir_saltos_sin_CR].
  cbv beta. intros l (H1 & H2 & _). now split.
Qed.

Lemma cargar_bucle_claves_unicas (c : carpeta) (afi_files : dict (list string)) :
  NoDup (dict_keys afi_files) -> NoDup (dict_keys (cargar_bucle afi_files c)).
Proof.
  revert afi_files. induction c as [|[a t] c IH]; intros afi_files H;
    cbn [cargar_bucle]; [exact H|].
  destruct (endswith ".afi" (lower a)); apply IH; [|exact H].
  now apply dict_set_claves_unicas.
Qed.

Lemma cargar_bucle_cargado (c todo : carpeta) (afi_files : dict (list string)) :
  (forall e, In e c -> In e todo) ->
  Forall (cargado todo) afi_files ->
  Forall (cargado todo) (cargar_bucle afi_files c).
Proof.
  revert afi_files. induction c as [|[a t] c IH]; intros afi_files Hsub H;
    cbn [cargar_bucle]; [exact H|].
  assert (Hsub' : forall e, In e c -> In e todo).
  { intros e He. apply Hsub. now right. }
  destruct (endswith ".afi" (lower a)) eqn:Ea; apply IH; try assumption.
  apply Forall_forall. intros [k v] Hin.
  apply dict_set_In in Hin as [Heq|Hin].
  - injection Heq as -> ->. unfold cargado. cbn [fst snd]. split; [|split].
    + now apply endswith_spec.
    + exists t. split; [|reflexivity]. apply Hsub. now left.
    + apply lineas_cargadas_limpias.
  - rewrite Forall_forall in H. now apply H.
Qed.

(** When the names of the folder are distinct, each assignment of the loop
    adds an entry at the end. *)
Lemma cargar_bucle_distintos (c : carpeta) (afi_files : dict (list string)) :
  NoDup (map fst c) ->
  (forall a, In a (map fst c) -> ~ In a (dict_keys afi_files)) ->
  cargar_bucle afi_files c
  = (afi_files
     ++ map (fun e => (fst e, map rstrip_LF (readlines (snd e))))
          (filter (fun e => endswith ".afi" (lower (fst e))) c))%list.
Proof.
  revert afi_files. induction c as [|[a t] c IH]; intros afi_files Hnd Hf;
    cbn [cargar_bucle filter map fst snd].
  - now rewrite app_nil_r.
  - cbn [map fst] in Hnd. inversion Hnd as [|? ? Hna Hnd']; subst.
    destruct (endswith ".afi" (lower a)) eqn:Ea.
    + rewrite dict_set_nueva.
      * rewrite IH; [|exact Hnd'|].
        -- cbn [map fst snd]. now rewrite <- app_assoc.
        -- intros a' Ha' Hin. rewrite dict_keys_app in Hin.
           apply in_app_or in Hin as [Hin|[<-|[]]].
           ++ apply (Hf a'); [now right|exact Hin].
           ++ contradiction.
      * destruct (en_lista a (dict_keys afi_files)) eqn:E; [|reflexivity].
        apply en_lista_In in E. exfalso. apply (Hf a); [now left|exact E].
    + apply IH; [exact Hnd'|]. intros a' Ha'. apply Hf. now right.
Qed.

(** X6.  [cargar_afi_desde_carpeta], on a folder whose names are distinct,
    returns one entry for each name that ends in [.afi] in any letter case,
    in the order of the folder and under the name as it is, with the lines
    of the file without their final line breaks; the other files are left
    out. *)
Theorem cargar_afi_desde_carpeta_entradas :
  forall c : carpeta,
    NoDup (map fst c) ->
    cargar_afi_desde_carpeta c
    = map (fun e => (fst e, map rstrip_LF (readlines (snd e))))
        (filter (fun e => endswith ".afi" (lower (fst e))) c).
Proof.
  intros c H. unfold cargar_afi_desde_carpeta.
  rewrite cargar_bucle_distintos; [reflexivity|exact H|].
  intros a _ [].
Qed.

Lemma NoDup_carpeta_ejemplo : NoDup (map fst carpeta_ejemplo).
Proof.
  unfold carpeta_ejemplo. cbn [map fst].
  repeat constructor; cbn [In]; intros H;
    repeat (destruct H as [H|H]; [discriminate H|]); exact H.
Defined.

Lemma cargar_afi_desde_carpeta_entradas_ejemplo :
  NoDup (map fst carpeta_ejemplo) /\
  cargar_afi_desde_carpeta carpeta_ejemplo
  = map (fun e => (fst e, map rstrip_LF (readlines (snd e))))
      (filter (fun e => endswith ".afi" (lower (fst e))) carpeta_ejemplo) /\
  cargar_afi_desde_carpeta carpeta_ejemplo
  = [ ("a.afi", [linea_eti; linea_desconocida]);
      ("B.AFI", [linea_dam; "corta"]) ].
Proof.
  split; [exact NoDup_carpeta_ejemplo|]. split.
  - exact (cargar_afi_desde_carpeta_entradas carpeta_ejemplo
             NoDup_carpeta_ejemplo).
  - vm_compute. reflexivity.
Defined.

(** X7.  Whatever the folder, what [cargar_afi_desde_carpeta] returns is a
    dictionary: no name occurs twice.  Each entry has a name that ends in
    [.afi] once in lower case and the lines of a file of that name in the
    folder, and no line of any entry holds a line break, [LF] or [CR]. *)
Theorem cargar_afi_desde_carpeta_limpio :
  forall c : carpeta,
    NoDup (dict_keys (cargar_afi_desde_carpeta c)) /\
    Forall (cargado c) (cargar_afi_desde_carpeta c).
Proof.
  intros c. unfold cargar_afi_desde_carpeta. split.
  - apply cargar_bucle_claves_unicas. constructor.
  - apply cargar_bucle_cargado; [auto|constructor].
Qed.

(** ** The loop of [main] and its report *)

Lemma validar_longitudes_excepcion nombre ls longitud e :
  validar_longitudes nombre ls longitud = Raise e ->
  es_LongitudLineaError e = true.
Proof.
  unfold validar_longitudes.
  destruct (validar_longitudes_desde_casos nombre 1 ls longitud)
    as [[_ ->]|(antes & l & despues & _ & _ & _ & ->)].
  - discriminate.
  - intros E. injection E as <-. reflexivity.
Qed.

Lemma validar_longitudes_correctas nombre ls longitud :
  validar_longitudes nombre ls longitud = Ret tt
  <-> longitudes_correctas ls longitud = true.
Proof.
  unfold validar_longitudes. split.
  - destruct (validar_longitudes_desde_casos nombre 1 ls longitud)
      as [[H _]|(antes & l & despues & _ & _ & _ & ->)];
      [now intros _|discriminate].
  - apply validar_longitudes_desde_ok.
Qed.

Section Reparto.

Variable dic : Diccionarios.
Variable cif_is_valid : string -> bool.

(** One file whose name is in none of the three dictionaries: the loop body
    appends what the file contributes to each. *)
Lemma main_archivo_aportes inf archivo ls :
  ~ In archivo (dict_keys (inf_errores_longitud inf)) ->
  ~ In archivo (dict_keys (inf_errores_parseo inf)) ->
  ~ In archivo (dict_keys (inf_resultados inf)) ->
  main_archivo dic cif_is_valid inf archivo ls
  = Ret {| inf_errores_longitud :=
             (inf_errores_longitud inf ++ aporte_longitud (archivo, ls))%list;
           inf_errores_parseo :=
             (inf_errores_parseo inf
              ++ aporte_parseo dic cif_is_valid (archivo, ls))%list;
           inf_resultados :=
             (inf_resultados inf
              ++ aporte_resultados dic cif_is_valid (archivo, ls))%list |}.
Proof.
  intros HL HP HR.
  assert (nueva : forall V (d : dict V) (v : V),
             ~ In archivo (dict_keys d) ->
             dict_set archivo v d = (d ++ [(archivo, v)])%list).
  { intros V d v H. apply dict_set_nueva.
    destruct (en_lista archivo (dict_keys d)) eqn:E; [|reflexivity].
    apply en_lista_In in E. contradiction. }
  unfold main_archivo, aporte_longitud, aporte_parseo, aporte_resultados,
    validar_longitud.
  cbn [nuevo nombre lineas fst snd].
  destruct (validar_longitudes archivo ls longitud_por_defecto) as [[]|e] eqn:Ev.
  - rewrite parsear_acumula.
    cbn [bind acumular nuevo nombre lineas resultados errores_parseo app].
    rewrite (nueva _ _ _ HR).
    destruct (lista_no_vacia _).
    + now rewrite (nueva _ _ _ HP), !app_nil_r.
    + now rewrite !app_nil_r.
  - rewrite (validar_longitudes_excepcion _ _ _ _ Ev).
    now rewrite (nueva _ _ _ HL), !app_nil_r.
Qed.

Lemma aporte_longitud_claves f a :
  In a (dict_keys (aporte_longitud f)) -> a = fst f.
Proof.
  unfold aporte_longitud. destruct (validar_longitudes _ _ _); cbn.
  - intros [].
  - intros [H|[]]. now symmetry.
Qed.

Lemma aporte_parseo_claves f a :
  In a (dict_keys (aporte_parseo dic cif_is_valid f)) -> a = fst f.
Proof.
  unfold aporte_parseo. destruct (validar_longitudes _ _ _); cbn.
  - destruct (lista_no_vacia _); cbn; [|intros []].
    intros [H|[]]. now symmetry.
  - intros [].
Qed.

Lemma aporte_resultados_claves f a :
  In a (dict_keys (aporte_resultados dic cif_is_valid f)) -> a = fst f.
Proof.
  unfold aporte_resultados. destruct (validar_longitudes _ _ _); cbn.
  - intros [H|[]]. now symmetry.
  - intros [].
Qed.

Lemma main_bucle_aportes afi_data :
  NoDup (dict_keys afi_data) ->
  forall inf,
    (forall a, In a (dict_keys afi_data) ->
               ~ In a (dict_keys (inf_errores_longitud inf)) /\
               ~ In a (dict_keys (inf_errores_parseo inf)) /\
               ~ In a (dict_keys (inf_resultados inf))) ->
    main_bucle dic cif_is_valid inf afi_data
    = Ret {| inf_errores_longitud :=
               (inf_errores_longitud inf
                ++ flat_map aporte_longitud afi_data)%list;
             inf_errores_parseo :=
               (inf_errores_parseo inf
                ++ flat_map (aporte_parseo dic cif_is_valid) afi_data)%list;
             inf_resultados :=
               (inf_resultados inf
                ++ flat_map (aporte_resultados dic cif_is_valid) afi_data)%list |}.
Proof.
  induction afi_data as [|[a ls] afi_data IH]; intros Hnd inf Hf.
  - cbn [main_bucle flat_map]. rewrite !app_nil_r. now destruct inf.
  - cbn [dict_keys map fst] in Hnd. inversion Hnd as [|? ? Hna Hnd']; subst.
    destruct (Hf a (or_introl eq_refl)) as (HL & HP & HR).
    cbn [main_bucle]. rewrite (main_archivo_aportes inf a ls HL HP HR).
    cbn [bind]. rewrite IH; [|exact Hnd'|].
    + cbn [inf_errores_longitud inf_errores_parseo inf_resultados flat_map].
      now rewrite <- !app_assoc.
    + intros a' Ha'.
      destruct (Hf a' (or_intror Ha')) as (HL' & HP' & HR').
      assert (Hne : a' <> a) by (intros ->; contradiction).
      cbn [inf_errores_longitud inf_errores_parseo inf_resultados].
      rewrite !dict_keys_app. repeat split; intros Hin;
        apply in_app_or in Hin as [Hin|Hin]; try contradiction.
      * apply aporte_longitud_claves in Hin. contradiction.
      * apply aporte_parseo_claves in Hin. contradiction.
      * apply aporte_resultados_claves in Hin. contradiction.
Qed.

Lemma main_aportes afi_data :
  NoDup (dict_keys afi_data) ->
  main dic cif_is_valid afi_data
  = Ret {| inf_errores_longitud := flat_map aporte_longitud afi_data;
           inf_errores_parseo :=
             flat_map (aporte_parseo dic cif_is_valid) afi_data;
           inf_resultados :=
             flat_map (aporte_resultados dic cif_is_valid) afi_data |}.
Proof.
  intros H. unfold main. rewrite (main_bucle_aportes afi_data H); [reflexivity|].
  intros a _. cbn. tauto.
Qed.




End Reparto.

Lemma claves_aporte_longitud afi_data :
  dict_keys (flat_map aporte_longitud afi_data)
  = map fst (filter (fun f => negb (longitudes_correctas (snd f)
                                      longitud_por_defecto)) afi_data).
Proof.
  induction afi_data as [|f afi_data IH]; [reflexivity|].
  cbn [flat_map filter]. rewrite dict_keys_app, IH. unfold aporte_longitud.
  pose proof (validar_longitudes_correctas (fst f) (snd f)
                longitud_por_defecto) as Hc.
  destruct (validar_longitudes (fst f) (snd f) longitud_por_defecto)
    as [[]|e].
  - rewrite (proj1 Hc eq_refl). reflexivity.
  - destruct (longitudes_correctas (snd f) longitud_por_defecto);
      [now pose proof (proj2 Hc eq_refl)|reflexivity].
Qed.

Lemma claves_aporte_resultados dic cif afi_data :
  dict_keys (flat_map (aporte_resultados dic cif) afi_data)
  = map fst (filter (fun f => longitudes_correctas (snd f)
                                longitud_por_defecto) afi_data).
Proof.
  induction afi_data as [|f afi_data IH]; [reflexivity|].
  cbn [flat_map filter]. rewrite dict_keys_app, IH. unfold aporte_resultados.
  pose proof (validar_longitudes_correctas (fst f) (snd f)
                longitud_por_defecto) as Hc.
  destruct (validar_longitudes (fst f) (snd f) longitud_por_defecto)
    as [[]|e].
  - rewrite (proj1 Hc eq_refl). reflexivity.
  - destruct (longitudes_correctas (snd f) longitud_por_defecto);
      [now pose proof (proj2 Hc eq_refl)|reflexivity].
Qed.




(** X8.  The loop of [main] over files with distinct names never raises and
    deals the files out in their order: [errores_longitud] holds, for the
    files with a line that is not 70 characters long, the error of the
    first such line; [resultados] holds, for the other files, the records
    of their parse pass; [errores_parseo] holds, for those of the other
    files whose pass had errors, these errors.  So every file is either
    under [errores_longitud] or under [resultados], never under both. *)
Theorem main_reparte_los_archivos :
  forall (dic : Diccionarios) (cif_is_valid : string -> bool)
         (afi_data : dict (list string)),
    NoDup (dict_keys afi_data) ->
    exists inf,
      main dic cif_is_valid afi_data = Ret inf /\
      inf_errores_longitud inf = flat_map aporte_longitud afi_data /\
      inf_resultados inf
      = flat_map (aporte_resultados dic cif_is_valid) afi_data /\
      inf_errores_parseo inf
      = flat_map (aporte_parseo dic cif_is_valid) afi_data /\
      dict_keys (inf_errores_longitud inf)
      = map fst (filter (fun f => negb (longitudes_correctas (snd f) 70))
                   afi_data) /\
      dict_keys (inf_resultados inf)
      = map fst (filter (fun f => longitudes_correctas (snd f) 70) afi_data).
Proof.
  intros dic cif afi_data H. eexists. split; [now apply main_aportes|].
  cbn [inf_errores_longitud inf_resultados inf_errores_parseo].
  repeat split.
  - apply claves_aporte_longitud.
  - apply claves_aporte_resultados.
Qed.

Lemma main_reparte_los_archivos_ejemplo :
  NoDup (dict_keys lote_ejemplo) /\
  exists inf,
    main dic_ejemplo cif_ejemplo lote_ejemplo = Ret inf /\
    inf_errores_longitud inf = flat_map aporte_longitud lote_ejemplo /\
    inf_resultados inf
    = flat_map (aporte_resultados dic_ejemplo cif_ejemplo) lote_ejemplo /\
    inf_errores_parseo inf
    = flat_map (aporte_parseo dic_ejemplo cif_ejemplo) lote_ejemplo /\
    dict_keys (inf_errores_longitud inf)
    = map fst (filter (fun f => negb (longitudes_correctas (snd f) 70))
                 lote_ejemplo) /\
    dict_keys (inf_resultados inf)
    = map fst (filter (fun f => longitudes_correctas (snd f) 70) lote_ejemplo).
Proof.
  split; [exact NoDup_lote_ejemplo|].
  exact (main_reparte_los_archivos dic_ejemplo cif_ejemplo lote_ejemplo
           NoDup_lote_ejemplo).
Defined.


(** ** The document of an accepted TRA or EMP record *)

Section Documento.

Variable dic : Diccionarios.
Variable cif_is_valid : string -> bool.
Variable nombre : string.
Variable fila : nat.
Variable linea : string.

Lemma parse_linea_tra_documento r :
  parse_linea_tra dic cif_is_valid nombre fila linea = Ret r ->
  exists c,
    primer_caracter (slice 15 16 linea) = Some c /\
    dict_in (slice 15 16 linea) (IPF dic) = true /\
    dict_get "ipf_alfaclave" r = Some (lstrip_ceros (slice 19 33 linea)) /\
    documento_aceptado cif_is_valid c (lstrip_ceros (slice 19 33 linea)) = true.
Proof.
  unfold parse_linea_tra. intros H. invertir_parse H. injection H as <-.
  match goal with
  | Ht : validar_diccionario _ _ "ipf_tipo" _ _ _ _ = Ret ?t,
    Hd : validar_tipo_documento _ _ _ _ _ _ ?t = Ret _ |- _ =>
      apply validar_tipo_documento_Ret in Hd as (-> & c & Hc & Hac);
      pose proof (validar_diccionario_no_vacia _ _ _ _ _ _ _ Ht) as [_ Hp];
      apply validar_diccionario_Ret in Ht as (_ & et & Het & _)
  end.
  exists c. split; [congruence|]. split.
  - unfold dict_in. now rewrite Het.
  - split; [reflexivity|exact Hac].
Qed.

Lemma parse_linea_emp_documento r :
  parse_linea_emp dic cif_is_valid nombre fila linea = Ret r ->
  exists c,
    primer_caracter (slice 18 19 linea) = Some c /\
    dict_in (slice 18 19 linea) (TIPO_IDENTIFICACION dic) = true /\
    dict_get "empresario_numero_identificacion" r
    = Some (lstrip_ceros (slice 22 36 linea)) /\
    documento_aceptado cif_is_valid c (lstrip_ceros (slice 22 36 linea)) = true.
Proof.
  unfold parse_linea_emp. intros H. invertir_parse H. injection H as <-.
  match goal with
  | Ht : validar_diccionario _ _ "empresario_tipo_identificacion" _ _ _ _
         = Ret ?t,
    Hd : validar_tipo_documento _ _ _ _ _ _ ?t = Ret _ |- _ =>
      apply validar_tipo_documento_Ret in Hd as (-> & c & Hc & Hac);
      pose proof (validar_diccionario_no_vacia _ _ _ _ _ _ _ Ht) as [_ Hp];
      apply validar_diccionario_Ret in Ht as (_ & et & Het & _)
  end.
  exists c. split; [congruence|]. split.
  - unfold dict_in. now rewrite Het.
  - split; [reflexivity|exact Hac].
Qed.

End Documento.

(** X10.  In every record of an accepted TRA or EMP line the document is
    the columns of the document without their leading zeros, and it passed
    the check that the type code of the same line selects: the code in
    column 15 (TRA, a key of [IPF]) or 18 (EMP, a key of
    [TIPO_IDENTIFICACION]) decides by its one character between DNI, NIE,
    passport, CIF and no check. *)
Theorem documento_cumple_su_tipo :
  forall (dic : Diccionarios) (cif_is_valid : string -> bool)
         (nombre : string) (fila : nat) (linea : string) (r : registro),
    en_lista (slice 0 3 linea) ["TRA"; "EMP"] = true ->
    parse_linea dic cif_is_valid nombre fila linea = Ret r ->
    let es_tra := String.eqb (slice 0 3 linea) "TRA" in
    let tipo := if es_tra then slice 15 16 linea else slice 18 19 linea in
    let tabla := if es_tra then IPF dic else TIPO_IDENTIFICACION dic in
    let campo := if es_tra then "ipf_alfaclave"
                 else "empresario_numero_identificacion" in
    let documento := lstrip_ceros (if es_tra then slice 19 33 linea
                                   else slice 22 36 linea) in
    exists c,
      primer_caracter tipo = Some c /\
      dict_in tipo tabla = true /\
      dict_get campo r = Some documento /\
      documento_aceptado cif_is_valid c documento = true.
Proof.
  intros dic cif nombre fila linea r Hcab. unfold parse_linea.
  cbn [en_lista existsb] in Hcab. cbv zeta.
  destruct (String.eqb (slice 0 3 linea) "TRA") eqn:Et.
  - apply String.eqb_eq in Et. rewrite Et.
    change (dict_get "TRA" (parsers dic cif nombre))
      with (Some (parse_linea_tra dic cif nombre)).
    apply parse_linea_tra_documento.
  - rewrite orb_false_r in Hcab. cbn [orb] in Hcab.
    apply String.eqb_eq in Hcab. rewrite Hcab.
    change (dict_get "EMP" (parsers dic cif nombre))
      with (Some (parse_linea_emp dic cif nombre)).
    apply parse_linea_emp_documento.
Qed.

Lemma documento_cumple_su_tipo_ejemplo :
  en_lista (slice 0 3 linea_tra_dni) ["TRA"; "EMP"] = true /\
  exists r,
    parse_linea dic_ejemplo cif_ejemplo "a.afi" 1 linea_tra_dni = Ret r /\
    exists c,
      primer_caracter (slice 15 16 linea_tra_dni) = Some c /\
      dict_in (slice 15 16 linea_tra_dni) (IPF dic_ejemplo) = true /\
      dict_get "ipf_alfaclave" r
      = Some (lstrip_ceros (slice 19 33 linea_tra_dni)) /\
      documento_aceptado cif_ejemplo c
        (lstrip_ceros (slice 19 33 linea_tra_dni)) = true.
Proof.
  split; [reflexivity|]. eexists. split; [reflexivity|].
  exact (documento_cumple_su_tipo dic_ejemplo cif_ejemplo "a.afi" 1
           linea_tra_dni _ eq_refl eq_refl).
Defined.

(** ** The file and the line of every field error *)

Lemma con_contexto_bind {A B} archivo fila (m : res A) (f : A -> res B) :
  con_contexto archivo fila m ->
  (forall a, m = Ret a -> con_contexto archivo fila (f a)) ->
  con_contexto archivo fila (bind m f).
Proof.
  destruct m as [a|e]; simpl; intros Hm Hf; [now apply Hf|exact Hm].
Qed.

Lemma error_campo_contexto archivo fila ns col sec causa :
  error_de_campo_en archivo fila (error_campo archivo fila ns col sec causa).
Proof. now exists ns, col, sec, causa. Qed.

Lemma contexto_validar_numeros a s n f c :
  con_contexto a f (validar_numeros a s n f c).
Proof.
  unfold validar_numeros. destruct (negb _); [apply error_campo_contexto|exact I].
Qed.

Lemma contexto_validar_letras a s n f c :
  con_contexto a f (validar_letras a s n f c).
Proof.
  unfold validar_letras. destruct (negb _); [apply error_campo_contexto|exact I].
Qed.

Lemma contexto_validar_obligatorio a s n f c :
  con_contexto a f (validar_obligatorio a s n f c).
Proof.
  unfold validar_obligatorio.
  destruct (String.eqb _ _); [apply error_campo_contexto|exact I].
Qed.

Lemma contexto_validar_valores a s n f c vs :
  con_contexto a f (validar_valores a s n f c vs).
Proof.
  unfold validar_valores. destruct (negb _); [apply error_campo_contexto|exact I].
Qed.

Lemma contexto_validar_diccionario a s n f c d nl :
  con_contexto a f (validar_diccionario a s n f c d nl).
Proof.
  unfold validar_diccionario.
  destruct (nl && _); [exact I|].
  destruct (String.eqb (strip s) ""); cbn [orb]; [apply error_campo_contexto|].
  unfold dict_in. destruct (dict_get s d); cbn [negb];
    [exact I|apply error_campo_contexto].
Qed.

Lemma contexto_validar_tipo_documento cif a s n f c tipo :
  no_vacia tipo = true ->
  con_contexto a f (validar_tipo_documento cif a s n f c tipo).
Proof.
  unfold validar_tipo_documento. destruct tipo as [|t tipo]; [discriminate|].
  intros _. cbn [primer_caracter].
  repeat match goal with
         | |- con_contexto _ _ (if ?b then _ else _) => destruct b
         end; exact I || apply error_campo_contexto.
Qed.

Ltac contexto_validador :=
  first [ apply contexto_validar_numeros
        | apply contexto_validar_letras
        | apply contexto_validar_obligatorio
        | apply contexto_validar_valores
        | apply contexto_validar_diccionario
        | apply contexto_validar_tipo_documento;
          eapply proj1, validar_diccionario_no_vacia; eassumption ].

Ltac contexto_parser :=
  repeat (apply con_contexto_bind; [contexto_validador | intros ? ?]);
  try exact I.

Section Contexto.

Variable dic : Diccionarios.
Variable cif_is_valid : string -> bool.
Variable nombre : string.
Variable fila : nat.
Variable linea : string.

Lemma contexto_parse_linea_eti :
  con_contexto nombre fila (parse_linea_eti nombre fila linea).
Proof. unfold parse_linea_eti. contexto_parser. Qed.

Lemma contexto_parse_linea_emp :
  con_contexto nombre fila (parse_linea_emp dic cif_is_valid nombre fila linea).
Proof. unfold parse_linea_emp. contexto_parser. Qed.

Lemma contexto_parse_linea_rzs :
  con_contexto nombre fila (parse_linea_rzs dic nombre fila linea).
Proof. unfold parse_linea_rzs. contexto_parser. Qed.

Lemma contexto_pes_bucle rango r :
  con_contexto nombre fila (pes_bucle dic nombre fila linea rango r).
Proof.
  revert r. induction rango as [|i rango IH]; intros r; simpl; [exact I|].
  apply con_contexto_bind; [contexto_validador|]. intros v _. apply IH.
Qed.

Lemma contexto_parse_linea_tra :
  con_contexto nombre fila (parse_linea_tra dic cif_is_valid nombre fila linea).
Proof.
  unfold parse_linea_tra. contexto_parser.
  apply con_contexto_bind; [|intros ? ?; exact I].
  match goal with
  | H : validar_diccionario _ _ "ipf_tipo" _ _ _ _ = Ret ?t |- _ =>
      apply validar_diccionario_no_vacia in H as [Hv _];
      destruct t as [|c t']; [discriminate Hv|]
  end.
  cbn [primer_caracter]. destruct (Ascii.eqb c "1"); [exact I|contexto_validador].
Qed.

Lemma contexto_parse_linea_ayn :
  con_contexto nombre fila (parse_linea_ayn nombre fila linea).
Proof. unfold parse_linea_ayn. contexto_parser. Qed.

Lemma contexto_parse_linea_dom :
  con_contexto nombre fila (parse_linea_dom dic nombre fila linea).
Proof. unfold parse_linea_dom. contexto_parser. Qed.

Lemma contexto_parse_linea_odl :
  con_contexto nombre fila (parse_linea_odl nombre fila linea).
Proof. unfold parse_linea_odl. contexto_parser. Qed.

End Contexto.

(** X11.  Whatever field of whatever record kind fails, its error names the
    file and the line of the failure: when a line with a known header
    fails, the exception is the field error of some section, column, value
    and cause for the name of the session and the number of the line, so
    its message starts with "Error en archivo '", the file name, "', fila "
    and the line number. *)
Theorem error_de_campo_con_archivo_y_fila :
  forall (dic : Diccionarios) (cif_is_valid : string -> bool)
         (nombre : string) (fila : nat) (linea : string) (e : excepcion),
    en_lista (slice 0 3 linea) cabeceras = true ->
    parse_linea dic cif_is_valid nombre fila linea = Raise e ->
    exists nombre_seccion columna seccion causa,
      e = error_campo nombre fila nombre_seccion columna seccion causa /\
      str_exc e
      = "Error en archivo '" ++ nombre ++ "', fila " ++ str_int fila
        ++ ", secci" ++ chr 243 ++ "n '" ++ nombre_seccion ++ "' (pos "
        ++ str_int (columna + 1) ++ "): '" ++ seccion ++ "'" ++ causa.
Proof.
  intros dic cif nombre fila linea e Hcab H.
  assert (Hc : error_de_campo_en nombre fila e).
  { revert H. unfold parse_linea.
    rewrite <- (parsers_cabeceras dic cif nombre) in Hcab.
    unfold dict_in in Hcab.
    destruct (dict_get (slice 0 3 linea) (parsers dic cif nombre))
      as [p|] eqn:Ep; [|discriminate Hcab].
    intros E.
    assert (S : con_contexto nombre fila (p fila linea));
      [|now rewrite E in S].
    clear E Hcab. revert Ep. unfold parsers. cbn [dict_get].
    repeat match goal with
           | |- context [String.eqb (slice 0 3 linea) ?c] =>
               destruct (String.eqb (slice 0 3 linea) c)
           end;
      intros Ep; try discriminate Ep; injection Ep as <-;
      first [ apply contexto_parse_linea_eti | apply contexto_parse_linea_emp
            | apply contexto_parse_linea_rzs | apply contexto_pes_bucle
            | apply contexto_parse_linea_tra | apply contexto_parse_linea_ayn
            | apply contexto_parse_linea_dom | apply contexto_parse_linea_odl
            | exact I ]. }
  destruct Hc as (ns & col & sec & causa & ->).
  exists ns, col, sec, causa. split; reflexivity.
Qed.

Lemma error_de_campo_con_archivo_y_fila_ejemplo :
  en_lista (slice 0 3 linea_tra_pais_malo) cabeceras = true /\
  exists e,
    parse_linea dic_ejemplo cif_ejemplo "a.afi" 4 linea_tra_pais_malo = Raise e /\
    exists nombre_seccion columna seccion causa,
      e = error_campo "a.afi" 4 nombre_seccion columna seccion causa /\
      str_exc e
      = "Error en archivo '" ++ "a.afi" ++ "', fila " ++ str_int 4
        ++ ", secci" ++ chr 243 ++ "n '" ++ nombre_seccion ++ "' (pos "
        ++ str_int (columna + 1) ++ "): '" ++ seccion ++ "'" ++ causa.
Proof.
  split; [reflexivity|]. eexists. split; [reflexivity|].
  exact (error_de_campo_con_archivo_y_fila dic_ejemplo cif_ejemplo "a.afi" 4
           linea_tra_pais_malo _ eq_refl eq_refl).
Defined.

(** ** When a PES line is accepted *)

Lemma validar_diccionario_no_nullable a s n f c d :
  validar_diccionario a s n f c d false
  = if codigo_valido d s
    then Ret (resuelto d s)
    else Raise (error_campo a f n c s (causa_diccionario (dict_keys d))).
Proof.
  unfold validar_diccionario, codigo_valido, resuelto, valor, dict_in.
  cbn [andb].
  destruct (String.eqb (strip s) ""); cbn [orb negb andb]; [reflexivity|].
  now destruct (dict_get s d).
Qed.

Lemma pes_bucle_primer_invalido dic nombre fila linea rango r0 :
  claves_nuevas (map clave_pes rango) (dict_keys r0) = true ->
  pes_bucle dic nombre fila linea rango r0
  = match find (fun i => negb (codigo_valido
                                 (TIPO_PECULIARIDAD_COTIZACION dic)
                                 (codigo_pes linea i))) rango with
    | None =>
        Ret (r0 ++ map (fun i => (clave_pes i,
                                  resuelto (TIPO_PECULIARIDAD_COTIZACION dic)
                                    (codigo_pes linea i))) rango)%list
    | Some i =>
        Raise (error_campo nombre fila (clave_pes i) (3 + i * 2)
                 (codigo_pes linea i)
                 (causa_diccionario
                    (dict_keys (TIPO_PECULIARIDAD_COTIZACION dic))))
    end.
Proof.
  revert r0. induction rango as [|i rango IH]; intros r0 H.
  - cbn. now rewrite app_nil_r.
  - cbn [map claves_nuevas] in H. apply andb_prop in H as [Hk Hr].
    apply negb_true_iff in Hk.
    cbn [pes_bucle find map]. fold (clave_pes i). fold (codigo_pes linea i).
    rewrite validar_diccionario_no_nullable.
    destruct (codigo_valido _ (codigo_pes linea i)); cbn [bind negb];
      [|reflexivity].
    rewrite (dict_set_nueva _ _ _ Hk), IH.
    + destruct (find _ rango); [reflexivity|]. now rewrite <- app_assoc.
    + now rewrite dict_keys_app.
Qed.

(** X12.  A PES line is accepted exactly when each of its 33 codes of two
    columns is a key of the table of peculiarities that is not blank.  The
    record is then [cabecera] and, in order, [peculiaridad_1] ...
    [peculiaridad_33], each the code followed by its label.  Otherwise the
    error is that of the first code that is not such a key, under the name
    of its own field and with its own start column. *)
Theorem pes_aceptada_o_primer_codigo_invalido :
  forall (dic : Diccionarios) (cif_is_valid : string -> bool)
         (nombre : string) (fila : nat) (linea : string),
    slice 0 3 linea = "PES" ->
    let tabla := TIPO_PECULIARIDAD_COTIZACION dic in
    parse_linea dic cif_is_valid nombre fila linea
    = match find (fun i => negb (codigo_valido tabla (codigo_pes linea i)))
              (seq 0 33) with
      | None =>
          Ret (("cabecera", "PES")
               :: map (fun i => ("peculiaridad_" ++ str_int (i + 1),
                                 codigo_pes linea i ++ "('"
                                 ++ valor tabla (codigo_pes linea i) ++ "')"))
                    (seq 0 33))
      | Some i =>
          Raise (error_campo nombre fila ("peculiaridad_" ++ str_int (i + 1))
                   (3 + i * 2) (slice (3 + i * 2) (3 + i * 2 + 2) linea)
                   (causa_diccionario (dict_keys tabla)))
      end.
Proof.
  intros dic cif nombre fila linea Hc tabla. unfold parse_linea. rewrite Hc.
  change (dict_get "PES" (parsers dic cif nombre))
    with (Some (parse_linea_pes dic nombre)).
  cbv beta iota. unfold parse_linea_pes. rewrite Hc. cbv zeta.
  rewrite pes_bucle_primer_invalido by exact claves_nuevas_ok_pes.
  reflexivity.
Qed.

Lemma pes_aceptada_o_primer_codigo_invalido_ejemplo :
  slice 0 3 linea_pes_a = "PES" /\
  find (fun i => negb (codigo_valido
                         (TIPO_PECULIARIDAD_COTIZACION dic_ejemplo)
                         (codigo_pes linea_pes_a i))) (seq 0 33) = None /\
  parse_linea dic_ejemplo cif_ejemplo "a.afi" 1 linea_pes_a
  = Ret (("cabecera", "PES")
         :: map (fun i => ("peculiaridad_" ++ str_int (i + 1),
                           codigo_pes linea_pes_a i ++ "('"
                           ++ valor (TIPO_PECULIARIDAD_COTIZACION dic_ejemplo)
                                (codigo_pes linea_pes_a i) ++ "')"))
              (seq 0 33)).
Proof.
  split; [reflexivity|]. split; [reflexivity|].
  exact (pes_aceptada_o_primer_codigo_invalido dic_ejemplo cif_ejemplo "a.afi"
           1 linea_pes_a eq_refl).
Defined.
